(** * A relational model of the i94 ETL pipeline ([etl.py])

    The pipeline is a sequence of Spark SQL queries over data frames.  A data
    frame is modelled as a list of rows (a bag: order is kept but never relied
    upon by the statements), a nullable column as an [option], and every SQL
    query as the list function it denotes: [WHERE] is a filter under
    three-valued logic, [DISTINCT] and [UNION] remove duplicates, [JOIN] and
    [LEFT JOIN] are nested loops, [GROUP BY] collects the rows of each key.

    The engine's [DOUBLE] type is an interface ([Double]); binary64 floats
    are one instance, exact integers another. *)

From Stdlib Require Import ZArith String Ascii Floats Uint63.
From stdpp Require Import base decidable option list strings pretty gmap.

#[local] Open Scope string_scope.
#[local] Open Scope Z_scope.

(** ** Three-valued logic and scalar SQL functions *)

(** A SQL boolean: [None] is UNKNOWN (the result of comparing with NULL). *)
Definition sql_bool : Type := option bool.

Definition sql_and (a b : sql_bool) : sql_bool :=
  match a, b with
  | Some false, _ => Some false
  | _, Some false => Some false
  | Some true, Some true => Some true
  | _, _ => None
  end.

Definition sql_or (a b : sql_bool) : sql_bool :=
  match a, b with
  | Some true, _ => Some true
  | _, Some true => Some true
  | Some false, Some false => Some false
  | _, _ => None
  end.

Definition IS_NULL {A} (x : option A) : sql_bool :=
  Some (match x with Some _ => false | None => true end).

Definition IS_NOT_NULL {A} (x : option A) : sql_bool :=
  Some (match x with Some _ => true | None => false end).

(** Lifting of a scalar function and of a comparison to nullable values. *)
Definition sql_lift2 {A B C} (f : A → B → C) (x : option A) (y : option B)
  : option C :=
  match x, y with
  | Some a, Some b => Some (f a b)
  | _, _ => None
  end.

(** [x = y] in an [ON] or [WHERE] clause: UNKNOWN as soon as one side is NULL. *)
Definition sql_eq {A} `{EqDecision A} (x y : option A) : sql_bool :=
  sql_lift2 (λ a b, bool_decide (a = b)) x y.

(** A row passes [WHERE c] (or matches [ON c]) when [c] evaluates to TRUE. *)
Definition holds (c : sql_bool) : Prop := c = Some true.

#[global] Instance holds_dec c : Decision (holds c).
Proof. unfold holds. apply _. Defined.

(** ** Relational operators *)

Definition sql_where {A} (c : A → sql_bool) (t : list A) : list A :=
  filter (λ r, holds (c r)) t.

Definition sql_distinct {A} `{EqDecision A} (t : list A) : list A :=
  remove_dups t.

(** [t1 UNION t2]: the set union, duplicates removed across both branches. *)
Definition sql_union {A} `{EqDecision A} (t1 t2 : list A) : list A :=
  remove_dups (t1 ++ t2).

Section Relational.
Context {A B : Type}.

(** [l JOIN r ON on] *)
Definition inner_join (on : A → B → sql_bool) (l : list A) (r : list B)
  : list (A * B) :=
  x ← l; y ← sql_where (on x) r; [(x, y)].

(** [l LEFT JOIN r ON on]: a row of [l] without a match is kept once, with
    the columns of [r] set to NULL. *)
Definition left_join (on : A → B → sql_bool) (l : list A) (r : list B)
  : list (A * option B) :=
  x ← l;
  match sql_where (on x) r with
  | [] => [(x, None)]
  | ys => (λ y, (x, Some y)) <$> ys
  end.

(** [GROUP BY key]: one group per distinct key, holding the rows of that
    key.  NULL keys group together, as in SQL. *)
Definition group_by `{EqDecision B} (key : A → B) (t : list A)
  : list (B * list A) :=
  (λ k, (k, filter (λ r, key r = k) t)) <$> remove_dups (key <$> t).
End Relational.

(** [COUNT( * )] of a group, and [.count()] of a data frame. *)
Definition COUNT {A} (t : list A) : Z := Z.of_nat (length t).

(** ** Strings

    A string is the sequence of its bytes.  [UPPER] is modelled on the
    letters of the ASCII alphabet, where it is exact; the engine also maps
    the letters outside ASCII, which this model leaves as they are.  No
    statement below rests on the image of such a letter. *)

Definition upper_ascii (c : ascii) : ascii :=
  let n := nat_of_ascii c in
  if ((97 <=? n) && (n <=? 122))%nat then ascii_of_nat (n - 32) else c.

Fixpoint upper_string (s : string) : string :=
  match s with
  | EmptyString => EmptyString
  | String c s' => String (upper_ascii c) (upper_string s')
  end.

Definition UPPER (s : option string) : option string := upper_string <$> s.

(** ** Dates

    A [DATE] is a day count from 1970-01-01 (negative before), the calendar
    is the proleptic Gregorian one. *)

Definition date : Type := Z.

Definition days_from_civil (y m d : Z) : date :=
  let y' := if m <=? 2 then y - 1 else y in
  let era := y' / 400 in
  let yoe := y' - era * 400 in
  let doy := (153 * (if 2 <? m then m - 3 else m + 9) + 2) / 5 + d - 1 in
  let doe := yoe * 365 + yoe / 4 - yoe / 100 + doy in
  era * 146097 + doe - 719468.

Definition civil_from_days (z : date) : Z * Z * Z :=
  let z' := z + 719468 in
  let era := z' / 146097 in
  let doe := z' - era * 146097 in
  let yoe := (doe - doe / 1460 + doe / 36524 - doe / 146096) / 365 in
  let doy := doe - (365 * yoe + yoe / 4 - yoe / 100) in
  let mp := (5 * doy + 2) / 153 in
  let d := doy - (153 * mp + 2) / 5 + 1 in
  let m := if mp <? 10 then mp + 3 else mp - 9 in
  (if m <=? 2 then yoe + era * 400 + 1 else yoe + era * 400, m, d).

Definition year_of (z : date) : Z := (civil_from_days z).1.1.
Definition month_of (z : date) : Z := (civil_from_days z).1.2.
Definition day_of (z : date) : Z := (civil_from_days z).2.

(** Sunday is 1, Saturday is 7. *)
Definition dayofweek_of (z : date) : Z := (z + 4) mod 7 + 1.

(** ISO 8601 week: the week of a date is numbered in the year that holds
    the Thursday of that week. *)
Definition weekofyear_of (z : date) : Z :=
  let iso_dow := (z + 3) mod 7 + 1 in
  let thursday := z - iso_dow + 4 in
  (thursday - days_from_civil (year_of thursday) 1 1) / 7 + 1.

Definition YEAR (d : option date) : option Z := year_of <$> d.
Definition MONTH (d : option date) : option Z := month_of <$> d.
Definition DAY (d : option date) : option Z := day_of <$> d.
Definition DAYOFWEEK (d : option date) : option Z := dayofweek_of <$> d.
Definition WEEKOFYEAR (d : option date) : option Z := weekofyear_of <$> d.

(** *** The calendar, in its own words

    What the functions above compute, stated without them: the Gregorian
    calendar day by day from 1970-01-01, the days of the week with Sunday
    as 1, and the weeks of ISO 8601, which run from Monday to Sunday and are
    numbered from the week that holds 4 January. *)

Definition is_leap_year (y : Z) : bool :=
  (y mod 4 =? 0) && (negb (y mod 100 =? 0) || (y mod 400 =? 0)).

Definition days_in_month (y m : Z) : Z :=
  if m =? 2 then (if is_leap_year y then 29 else 28)
  else if (m =? 4) || (m =? 6) || (m =? 9) || (m =? 11) then 30
  else 31.

(** The day after the day [d] of the month [m] of the year [y]. *)
Definition next_day (ymd : Z * Z * Z) : Z * Z * Z :=
  let '(y, m, d) := ymd in
  if d <? days_in_month y m then (y, m, d + 1)
  else if m <? 12 then (y, m + 1, 1)
  else (y + 1, 1, 1).

Definition valid_day (ymd : Z * Z * Z) : bool :=
  let '(y, m, d) := ymd in
  (1 <=? m) && (m <=? 12) && (1 <=? d) && (d <=? days_in_month y m).

(** [civil] gives the year, month and day of every day count: day 0 is
    1970-01-01, and each day is followed by the next day of the calendar. *)
Definition gregorian_calendar (civil : date → Z * Z * Z) : Prop :=
  civil 0 = (1970, 1, 1) ∧
  ∀ z, valid_day (civil z) = true ∧ civil (z + 1) = next_day (civil z).

(** [dow] numbers the days of the week from Sunday, 1, to Saturday, 7:
    1970-01-01 was a Thursday. *)
Definition days_of_week (dow : date → Z) : Prop :=
  dow 0 = 5 ∧
  ∀ z, 1 ≤ dow z ≤ 7 ∧ dow (z + 1) = if dow z =? 7 then 1 else dow z + 1.

(** One of the seven days from [monday] is 4 January. *)
Definition has_4_january (civil : date → Z * Z * Z) (monday : date) : bool :=
  existsb (λ k, let '(_, m, d) := civil (monday + k) in (m =? 1) && (d =? 4))
    [0; 1; 2; 3; 4; 5; 6].

(** [week] numbers the weeks as ISO 8601 does: the number changes on
    Mondays only, to 1 in the week that holds 4 January and to the next
    number otherwise. *)
Definition iso_8601_weeks (civil : date → Z * Z * Z) (dow week : date → Z)
  : Prop :=
  ∀ z, week z = if dow z =? 2 then
                  if has_4_january civil z then 1 else week (z - 1) + 1
                else week (z - 1).

(** The same day, 400 [k] years later: the calendar repeats every 146097
    days. *)
Definition shift_years (k : Z) (ymd : Z * Z * Z) : Z * Z * Z :=
  (ymd.1.1 + 400 * k, ymd.1.2, ymd.2).

(** [P] holds of the [n] day counts from [z]. *)
Fixpoint forall_from (P : Z → bool) (n : nat) (z : Z) : bool :=
  match n with
  | O => true
  | S n' => P z && forall_from P n' (z + 1)
  end.

Definition eqb_day (a b : Z * Z * Z) : bool :=
  (a.1.1 =? b.1.1) && (a.1.2 =? b.1.2) && (a.2 =? b.2).

(** The checks of one period of the calendar. *)
Definition calendar_step (civil : date → Z * Z * Z) (z : date) : bool :=
  valid_day (civil z) && eqb_day (civil (z + 1)) (next_day (civil z)).

(** Day 4, 1970-01-05, was a Monday: the check of the [k]-th Monday after
    it. *)
Definition monday_step (civil : date → Z * Z * Z) (week : date → Z) (k : Z)
  : bool :=
  let z := 4 + 7 * k in
  week z =? (if has_4_january civil z then 1 else week (z - 1) + 1).

Definition digit_of_ascii (c : ascii) : option Z :=
  let n := nat_of_ascii c in
  if ((48 <=? n) && (n <=? 57))%nat then Some (Z.of_nat (n - 48)) else None.

Fixpoint parse_digits (acc : Z) (s : string) : option Z :=
  match s with
  | EmptyString => Some acc
  | String c s' => d ← digit_of_ascii c; parse_digits (10 * acc + d) s'
  end.

(** [to_date] of a literal in the form [yyyy-mm-dd]; anything else is NULL. *)
Definition to_date (s : string) : option date :=
  if bool_decide (String.length s = 10%nat ∧ String.get 4 s = Some "-"%char
                  ∧ String.get 7 s = Some "-"%char) then
    y ← parse_digits 0 (String.substring 0 4 s);
    m ← parse_digits 0 (String.substring 5 2 s);
    d ← parse_digits 0 (String.substring 8 2 s);
    Some (days_from_civil y m d)
  else None.

(** The engine's [INT] and [DATE] hold 32 bits: a number out of their range
    wraps around. *)
Definition wrap_int32 (z : Z) : Z := (z + 2 ^ 31) mod 2 ^ 32 - 2 ^ 31.

Definition in_int32 (z : Z) : Prop := - 2 ^ 31 ≤ z < 2 ^ 31.

(** [date_add(start, days)]: the days, a [LONG] here, are cast to [INT], and
    the sum is taken in 32 bits. *)
Definition date_add (d : option date) (n : option Z) : option date :=
  sql_lift2 (λ d n, wrap_int32 (d + wrap_int32 n)) d n.

(** ** The engine's DOUBLE type *)

Class Double (D : Type) := {
  double_eq_dec :: EqDecision D;
  (** an integer literal used where a DOUBLE is expected *)
  double_of_Z : Z → D;
  double_add : D → D → D;
  double_sub : D → D → D;
  double_mul : D → D → D;
  double_sqrt : D → D;
  double_ltb : D → D → bool;
  (** the mean of the non-NULL values of a group, as [AVG] computes it *)
  double_avg : list D → D
}.

(** [AVG] skips NULLs and is NULL on a group without a value. *)
Definition AVG {D} `{Double D} (l : list (option D)) : option D :=
  match omap id l with
  | [] => None
  | xs => Some (double_avg xs)
  end.

(** Binary64 floats.  The query does not fix the order in which [AVG] adds
    the values of a group: the engine adds them as it meets them, partition by
    partition.  The model adds them from left to right, in the order of the
    rows of the group; a statement on the value of an average of more than
    one reading depends on this choice, and says so. *)
#[global] Instance float_eq_dec : EqDecision float.
Proof.
  intros x y. destruct (PrimFloat.Leibniz.eqb x y) eqn:E.
  - left. apply FloatAxioms.Leibniz.eqb_spec, E.
  - right. intros Hxy. apply FloatAxioms.Leibniz.eqb_spec in Hxy. congruence.
Defined.

Definition float_of_Z (z : Z) : float :=
  if z <? 0 then PrimFloat.opp (PrimFloat.of_uint63 (Uint63.of_Z (- z)))
  else PrimFloat.of_uint63 (Uint63.of_Z z).

Definition float_avg (l : list float) : float :=
  PrimFloat.div (foldl PrimFloat.add 0%float l)
                (float_of_Z (Z.of_nat (length l))).

#[global] Instance float_double : Double float := {|
  double_of_Z := float_of_Z;
  double_add := PrimFloat.add;
  double_sub := PrimFloat.sub;
  double_mul := PrimFloat.mul;
  double_sqrt := PrimFloat.sqrt;
  double_ltb := PrimFloat.ltb;
  double_avg := float_avg
|}.

(** Exact integer arithmetic: sums do not depend on the order of the terms. *)
Definition Z_avg (l : list Z) : Z := foldr Z.add 0 l / Z.of_nat (length l).

Definition Z_double : Double Z := {|
  double_of_Z := id;
  double_add := Z.add;
  double_sub := Z.sub;
  double_mul := Z.mul;
  double_sqrt := Z.sqrt;
  double_ltb := Z.ltb;
  double_avg := Z_avg
|}.

(** ** Table schemas

    One module per data frame, its fields named as the columns are.  Numeric
    columns of the raw inputs hold the value of the [CAST] the queries apply
    to them. *)

(** [i94_table]: the raw travel events. *)
Module Raw.
Record row := mk {
  cicid : option Z;
  i94res : option Z;
  i94cit : option Z;
  i94port : option string;
  i94mode : option Z;
  i94visa : option Z;
  visatype : option string;
  gender : option string;
  i94bir : option Z;
  arrdate : option Z;
  depdate : option Z
}.
End Raw.

Module Country.
Record row := mk { code : option Z; country_name : option string }.
End Country.

Module Port.
Record row := mk {
  code : option string;
  port_location : option string;
  state : option string
}.
End Port.

Module Mode.
Record row := mk { code : option Z; border_cross_method : option string }.
End Mode.

Module Visa.
Record row := mk { code : option Z; visa_type : option string }.
End Visa.

Module States.
Record row := mk { code : option string; state : option string }.
End States.

(** [i94_source_table], conformed and (after stage 2) cleaned. *)
Module I94.
Record row := mk {
  id : option Z;
  country_of_residence : option string;
  country_of_citizenship : option string;
  city_of_entry : option string;
  state_of_entry_code : option string;
  state_of_entry_full : option string;
  border_cross_method : option string;
  type_of_visa : option string;
  class_of_admission : option string;
  gender : option string;
  age : option Z;
  arr_date : option date;
  dep_date : option date;
  year : option Z;
  month : option Z;
  day : option Z
}.
#[global] Instance row_eq_dec : EqDecision row.
Proof. solve_decision. Defined.
End I94.

(** [cities_pop_source_table] in its long form: one row per city, state
    and race. *)
Module Demo.
Record row {D : Type} := mk {
  city : option string;
  state : option string;
  median_age : option D;
  male_population : option Z;
  female_population : option Z;
  total_population : option Z;
  number_of_veterans : option Z;
  foreign_born : option Z;
  avg_household_size : option D;
  state_code : option string;
  race : option string;
  count : option Z
}.
Arguments row : clear implicits.
Arguments mk {D}.
End Demo.

(** The sub-selects [c1] .. [c5] of the pivot: the count of one race. *)
Module RaceCount.
Record row := mk {
  city : option string;
  state : option string;
  count : option Z
}.
End RaceCount.

(** [cities_pop_source_table] once pivoted. *)
Module DemoWide.
Record row {D : Type} := mk {
  city : option string;
  state : option string;
  state_code : option string;
  median_age : option D;
  male_population : option Z;
  female_population : option Z;
  total_population : option Z;
  number_of_veterans : option Z;
  foreign_born : option Z;
  avg_household_size : option D;
  american_indian_and_alaska_native : option Z;
  asian : option Z;
  white : option Z;
  hispanic_or_latino : option Z;
  black_or_african_american : option Z
}.
Arguments row : clear implicits.
Arguments mk {D}.
#[global] Instance row_eq_dec {D} `{EqDecision D} : EqDecision (row D).
Proof. solve_decision. Defined.
End DemoWide.

(** [airports_source_table] *)
Module Airport.
Record row {D : Type} := mk {
  type : option string;
  name : option string;
  elevation_ft : option Z;
  iso_region : option string;
  municipality : option string;
  gps_code : option string;
  lon : option D;
  lat : option D
}.
Arguments row : clear implicits.
Arguments mk {D}.
End Airport.

(** [weather_source_table] before the region is known. *)
Module Weather.
Record row {D : Type} := mk {
  dt : option date;
  year : option Z;
  month : option Z;
  day : option Z;
  avg_temperature : option D;
  city : option string;
  country : option string;
  lon : option D;
  lat : option D
}.
Arguments row : clear implicits.
Arguments mk {D}.
#[global] Instance row_eq_dec {D} `{EqDecision D} : EqDecision (row D).
Proof. solve_decision. Defined.
End Weather.

(** [tmp_loc_table], first as the observed places, then with a region. *)
Module Loc.
Record row {D : Type} := mk {
  city : option string;
  lat : option D;
  lon : option D
}.
Arguments row : clear implicits.
Arguments mk {D}.
#[global] Instance row_eq_dec {D} `{EqDecision D} : EqDecision (row D).
Proof. solve_decision. Defined.
End Loc.

Module LocState.
Record row {D : Type} := mk {
  city : option string;
  state : option string;
  lat : option D;
  lon : option D
}.
Arguments row : clear implicits.
Arguments mk {D}.
#[global] Instance row_eq_dec {D} `{EqDecision D} : EqDecision (row D).
Proof. solve_decision. Defined.
End LocState.

(** [weather_source_table] as stage 2 leaves it: one row per date, place
    and region.  [avg_temperature] comes last, as in the query. *)
Module WeatherClean.
Record row {D : Type} := mk {
  dt : option date;
  year : option Z;
  month : option Z;
  day : option Z;
  city : option string;
  state : option string;
  lat : option D;
  lon : option D;
  avg_temperature : option D
}.
Arguments row : clear implicits.
Arguments mk {D}.
#[global] Instance row_eq_dec {D} `{EqDecision D} : EqDecision (row D).
Proof. solve_decision. Defined.
End WeatherClean.

Module AirportPivot.
Record row := mk {
  iso_region : option string;
  municipality : option string;
  number_of_airports : option Z
}.
End AirportPivot.

Module DimTime.
Record row := mk {
  dt : option date;
  year : option Z;
  month : option Z;
  day : option Z;
  dow : option Z;
  week : option Z
}.
#[global] Instance row_eq_dec : EqDecision row.
Proof. solve_decision. Defined.
End DimTime.

(** [dim_cities]: [dc.*] and the number of airports. *)
Module DimCity.
Record row {D : Type} := mk {
  base : DemoWide.row D;
  number_of_airports : option Z
}.
Arguments row : clear implicits.
Arguments mk {D}.
End DimCity.

(** [fact_i94_history] after steps 1 and 2 of its construction. *)
Module Event.
Record row := mk {
  id : option Z;
  country_of_residence : option string;
  country_of_citizenship : option string;
  city_of_entry : option string;
  state_of_entry_code : option string;
  border_cross_method : option string;
  type_of_visa : option string;
  class_of_admission : option string;
  gender : option string;
  age : option Z;
  arr_date : option date;
  dep_date : option date;
  year : option Z;
  month : option Z;
  day : option Z
}.
End Event.

(** [fact_i94_history]: [f.*] and the temperature. *)
Module Fact.
Record row {D : Type} := mk {
  base : Event.row;
  avg_temperature : option D
}.
Arguments row : clear implicits.
Arguments mk {D}.
End Fact.

(** ** Stage 1: [load_source_data] *)

(** The base date of the SAS day counts. *)
Definition sas_epoch : option date := to_date "1960-01-01".

(** The query that builds [i94_source_table]: six inner joins against the
    dictionaries, labels in capital letters, SAS dates decoded. *)
Definition i94_source_query
    (i94_table : list Raw.row) (country_table : list Country.row)
    (port_table : list Port.row) (mode_table : list Mode.row)
    (visa_table : list Visa.row) (states_df : list States.row)
  : list I94.row :=
  let j1 := inner_join (λ i c1, sql_eq (Raw.i94res i) (Country.code c1))
              i94_table country_table in
  let j2 := inner_join (λ '(i, _) c2, sql_eq (Raw.i94cit i) (Country.code c2))
              j1 country_table in
  let j3 := inner_join (λ '(i, _, _) p, sql_eq (Raw.i94port i) (Port.code p))
              j2 port_table in
  let j4 := inner_join (λ '(i, _, _, _) m, sql_eq (Raw.i94mode i) (Mode.code m))
              j3 mode_table in
  let j5 := inner_join (λ '(i, _, _, _, _) v, sql_eq (Raw.i94visa i) (Visa.code v))
              j4 visa_table in
  let j6 := inner_join (λ '(_, _, _, p, _, _) s, sql_eq (Port.state p) (States.code s))
              j5 states_df in
  (λ '(i, c1, c2, p, m, v, s),
     let arr := date_add sas_epoch (Raw.arrdate i) in
     {| I94.id := Raw.cicid i;
        I94.country_of_residence := UPPER (Country.country_name c1);
        I94.country_of_citizenship := UPPER (Country.country_name c2);
        I94.city_of_entry := UPPER (Port.port_location p);
        I94.state_of_entry_code := UPPER (Port.state p);
        I94.state_of_entry_full := UPPER (States.state s);
        I94.border_cross_method := Mode.border_cross_method m;
        I94.type_of_visa := Visa.visa_type v;
        I94.class_of_admission := Raw.visatype i;
        I94.gender := Raw.gender i;
        I94.age := Raw.i94bir i;
        I94.arr_date := arr;
        I94.dep_date := date_add sas_epoch (Raw.depdate i);
        I94.year := YEAR arr;
        I94.month := MONTH arr;
        I94.day := DAY arr |}) <$> j6.

(** ** Stage 2: [process_source_data] *)

(** Travel events: exact duplicates and rows without key fields or with a
    departure before the arrival are dropped. *)
Definition i94_valid (i : I94.row) : sql_bool :=
  sql_and (sql_and (sql_and (sql_and
    (IS_NOT_NULL (I94.id i))
    (IS_NOT_NULL (I94.state_of_entry_code i)))
    (IS_NOT_NULL (I94.city_of_entry i)))
    (IS_NOT_NULL (I94.arr_date i)))
    (sql_or (IS_NULL (I94.dep_date i))
            (sql_lift2 Z.geb (I94.dep_date i) (I94.arr_date i))).

Definition i94_clean_query (i94_source_table : list I94.row) : list I94.row :=
  sql_distinct (sql_where i94_valid i94_source_table).

Section Stage2.
Context {D : Type} `{Double D}.

(** *** Demographics *)

(** Step 1: rows without a city or a state code are dropped. *)
Definition cities_pop_filter_query (t : list (Demo.row D)) : list (Demo.row D) :=
  sql_where (λ c, sql_and (IS_NOT_NULL (Demo.city c))
                          (IS_NOT_NULL (Demo.state_code c))) t.

Definition race_counts (t : list (Demo.row D)) (race : string)
  : list RaceCount.row :=
  (λ c, RaceCount.mk (Demo.city c) (Demo.state c) (Demo.count c))
    <$> sql_where (λ c, sql_eq (Demo.race c) (Some race)) t.

Definition on_city_state (c : Demo.row D) (c' : RaceCount.row) : sql_bool :=
  sql_and (sql_eq (Demo.city c) (RaceCount.city c'))
          (sql_eq (Demo.state c) (RaceCount.state c')).

(** Steps 2 and 3: one left join per race, then [DISTINCT]. *)
Definition cities_pop_pivot_query (t : list (Demo.row D))
  : list (DemoWide.row D) :=
  let j1 := left_join on_city_state t
              (race_counts t "American Indian and Alaska Native") in
  let j2 := left_join (λ '(c, _), on_city_state c) j1
              (race_counts t "Asian") in
  let j3 := left_join (λ '(c, _, _), on_city_state c) j2
              (race_counts t "White") in
  let j4 := left_join (λ '(c, _, _, _), on_city_state c) j3
              (race_counts t "Hispanic or Latino") in
  let j5 := left_join (λ '(c, _, _, _, _), on_city_state c) j4
              (race_counts t "Black or African-American") in
  sql_distinct (
    (λ '(c, c1, c2, c3, c4, c5),
       {| DemoWide.city := Demo.city c;
          DemoWide.state := Demo.state c;
          DemoWide.state_code := Demo.state_code c;
          DemoWide.median_age := Demo.median_age c;
          DemoWide.male_population := Demo.male_population c;
          DemoWide.female_population := Demo.female_population c;
          DemoWide.total_population := Demo.total_population c;
          DemoWide.number_of_veterans := Demo.number_of_veterans c;
          DemoWide.foreign_born := Demo.foreign_born c;
          DemoWide.avg_household_size := Demo.avg_household_size c;
          DemoWide.american_indian_and_alaska_native := c1 ≫= RaceCount.count;
          DemoWide.asian := c2 ≫= RaceCount.count;
          DemoWide.white := c3 ≫= RaceCount.count;
          DemoWide.hispanic_or_latino := c4 ≫= RaceCount.count;
          DemoWide.black_or_african_american := c5 ≫= RaceCount.count |})
    <$> j5).

Definition cities_pop_clean_query (t : list (Demo.row D))
  : list (DemoWide.row D) :=
  cities_pop_pivot_query (cities_pop_filter_query t).

(** The vocabulary of the statements on the pivot: two rows of the same
    city and state, rows that agree on the columns the pivot copies, and
    the count [v] that the source holds for a race in the city of [c]
    (NULL when it has no row of that race). *)
Definition same_city_state (c c' : Demo.row D) : Prop :=
  Demo.city c = Demo.city c' ∧ Demo.state c = Demo.state c'.

Definition same_statistics (c c' : Demo.row D) : Prop :=
  Demo.state_code c = Demo.state_code c' ∧
  Demo.median_age c = Demo.median_age c' ∧
  Demo.male_population c = Demo.male_population c' ∧
  Demo.female_population c = Demo.female_population c' ∧
  Demo.total_population c = Demo.total_population c' ∧
  Demo.number_of_veterans c = Demo.number_of_veterans c' ∧
  Demo.foreign_born c = Demo.foreign_born c' ∧
  Demo.avg_household_size c = Demo.avg_household_size c'.

(** The races the pivot makes a column of. *)
Definition pivot_races : list string :=
  [ "American Indian and Alaska Native"; "Asian"; "White";
    "Hispanic or Latino"; "Black or African-American" ].

Definition source_count (t : list (Demo.row D)) (c : Demo.row D)
    (race : string) (v : option Z) : Prop :=
  (∀ c', c' ∈ t → same_city_state c c' → Demo.race c' = Some race →
         v = Demo.count c') ∧
  ((∀ c', c' ∈ t → same_city_state c c' → Demo.race c' ≠ Some race) →
   v = None).

(** What a left join of the pivot attaches to the row [c]: the count row
    of a source row of that race, city and state, or NULL if there is
    none. *)
Definition attached (t : list (Demo.row D)) (c : Demo.row D) (race : string)
    (o : option RaceCount.row) : Prop :=
  match o with
  | Some rc => rc ∈ race_counts t race ∧ holds (on_city_state c rc)
  | None => ∀ rc, rc ∈ race_counts t race → ¬ holds (on_city_state c rc)
  end.

(** *** Airports: rows without a place are dropped, duplicates stay. *)
Definition airports_clean_query (t : list (Airport.row D))
  : list (Airport.row D) :=
  sql_where (λ a, sql_and (sql_and (sql_and
    (IS_NOT_NULL (Airport.municipality a))
    (IS_NOT_NULL (Airport.iso_region a)))
    (IS_NOT_NULL (Airport.lat a)))
    (IS_NOT_NULL (Airport.lon a))) t.

(** *** Weather *)

(** Steps 1 and 2 *)
Definition weather_dedup_query (t : list (Weather.row D))
  : list (Weather.row D) :=
  sql_distinct (sql_where (λ w, sql_and (sql_and (sql_and (sql_and
    (IS_NOT_NULL (Weather.avg_temperature w))
    (IS_NOT_NULL (Weather.dt w)))
    (IS_NOT_NULL (Weather.city w)))
    (IS_NOT_NULL (Weather.lat w)))
    (IS_NOT_NULL (Weather.lon w))) t).

(** Step 3: the observed places ... *)
Definition tmp_loc_query (weather : list (Weather.row D)) : list (Loc.row D) :=
  sql_distinct
    ((λ w, Loc.mk (Weather.city w) (Weather.lat w) (Weather.lon w)) <$> weather).

Definition DISTANCE_THRESHOLD : Z := 1.

(** [SQRT((w1.lat-a.lat)*(w1.lat-a.lat)+(w1.lon-a.lon)*(w1.lon-a.lon))] *)
Definition distance (lat1 lon1 lat2 lon2 : D) : D :=
  double_sqrt (double_add
    (double_mul (double_sub lat1 lat2) (double_sub lat1 lat2))
    (double_mul (double_sub lon1 lon2) (double_sub lon1 lon2))).

Definition sql_distance (lat1 lon1 lat2 lon2 : option D) : option D :=
  match lat1, lon1, lat2, lon2 with
  | Some a, Some b, Some c, Some d => Some (distance a b c d)
  | _, _, _, _ => None
  end.

Definition near_airport (w1 : Loc.row D) (a : Airport.row D) : sql_bool :=
  sql_and
    (sql_lift2 double_ltb
       (sql_distance (Loc.lat w1) (Loc.lon w1) (Airport.lat a) (Airport.lon a))
       (Some (double_of_Z DISTANCE_THRESHOLD)))
    (sql_eq (Loc.city w1) (Airport.municipality a)).

(** ... each with the region of every airport of that name close to it ... *)
Definition loc_state_query (tmp_loc_table : list (Loc.row D))
    (airports : list (Airport.row D)) : list (LocState.row D) :=
  sql_distinct
    ((λ '(w1, a), LocState.mk (Loc.city w1) (Airport.iso_region a)
                     (Loc.lat w1) (Loc.lon w1))
       <$> inner_join near_airport tmp_loc_table airports).

Definition same_place (w : Weather.row D) (w1 : LocState.row D) : sql_bool :=
  sql_and (sql_and
    (sql_eq (Weather.city w) (LocState.city w1))
    (sql_eq (Weather.lat w) (LocState.lat w1)))
    (sql_eq (Weather.lon w) (LocState.lon w1)).

(** The grouping columns of the last query, in its order. *)
Definition weather_key : Type :=
  option date * option Z * option Z * option Z * option string
  * option string * option D * option D.

Definition weather_group_key (j : Weather.row D * LocState.row D)
  : weather_key :=
  (Weather.dt j.1, Weather.year j.1, Weather.month j.1, Weather.day j.1,
   Weather.city j.1, LocState.state j.2, Weather.lat j.1, Weather.lon j.1).

Definition weather_groups (weather : list (Weather.row D))
    (tmp_loc_table : list (LocState.row D))
  : list (weather_key * list (Weather.row D * LocState.row D)) :=
  group_by weather_group_key (inner_join same_place weather tmp_loc_table).

(** The select list of the last query: the grouping columns and the
    average of the group. *)
Definition weather_group_row
    (group : weather_key * list (Weather.row D * LocState.row D))
  : WeatherClean.row D :=
  let '((dt, year, month, day, city, state, lat, lon), g) := group in
  WeatherClean.mk dt year month day city state lat lon
    (AVG ((λ j, Weather.avg_temperature j.1) <$> g)).

(** ... and the observations of the places that got a region, averaged
    per date, place and region. *)
Definition weather_region_query (weather : list (Weather.row D))
    (tmp_loc_table : list (LocState.row D)) : list (WeatherClean.row D) :=
  weather_group_row <$> weather_groups weather tmp_loc_table.

(** The grouping columns of a row of the result. *)
Definition weather_clean_key (o : WeatherClean.row D) : weather_key :=
  (WeatherClean.dt o, WeatherClean.year o, WeatherClean.month o,
   WeatherClean.day o, WeatherClean.city o, WeatherClean.state o,
   WeatherClean.lat o, WeatherClean.lon o).

(** The weather part of stage 2, from the source tables. *)
Definition weather_clean_query (weather_source_table : list (Weather.row D))
    (airports_source_table : list (Airport.row D))
  : list (WeatherClean.row D) :=
  let weather := weather_dedup_query weather_source_table in
  let airports := airports_clean_query airports_source_table in
  weather_region_query weather
    (loc_state_query (tmp_loc_query weather) airports).
End Stage2.

(** ** Stage 3: the queries of [build_data_model] *)

(** A date with its calendar parts, as each branch of the [dim_time] query
    selects them. *)
Definition time_row (d : option date) : DimTime.row :=
  DimTime.mk d (YEAR d) (MONTH d) (DAY d) (DAYOFWEEK d) (WEEKOFYEAR d).

(** Steps 1 and 2 of the fact table: the event attributes and the parts of
    the arrival date. *)
Definition event_query (i94_clean_source_table : list I94.row) : list Event.row :=
  (λ i,
     {| Event.id := I94.id i;
        Event.country_of_residence := I94.country_of_residence i;
        Event.country_of_citizenship := I94.country_of_citizenship i;
        Event.city_of_entry := I94.city_of_entry i;
        Event.state_of_entry_code := I94.state_of_entry_code i;
        Event.border_cross_method := I94.border_cross_method i;
        Event.type_of_visa := I94.type_of_visa i;
        Event.class_of_admission := I94.class_of_admission i;
        Event.gender := I94.gender i;
        Event.age := I94.age i;
        Event.arr_date := I94.arr_date i;
        Event.dep_date := I94.dep_date i;
        Event.year := YEAR (I94.arr_date i);
        Event.month := MONTH (I94.arr_date i);
        Event.day := DAY (I94.arr_date i) |}) <$> i94_clean_source_table.

Section Stage3.
Context {D : Type} `{Double D}.

Definition dim_time_query (i94_clean_source_table : list I94.row)
    (weather_clean_source_table : list (WeatherClean.row D))
  : list DimTime.row :=
  sql_union
    (sql_union
       (sql_distinct
          ((λ i1, time_row (I94.arr_date i1)) <$> i94_clean_source_table))
       (sql_distinct
          ((λ i2, time_row (I94.dep_date i2))
             <$> sql_where (λ i2, IS_NOT_NULL (I94.dep_date i2))
                   i94_clean_source_table)))
    (sql_distinct
       ((λ w, time_row (WeatherClean.dt w)) <$> weather_clean_source_table)).

(** Step 2 of [dim_cities]: the number of airports of each city. *)
Definition airports_pivot_query (airports : list (Airport.row D))
  : list AirportPivot.row :=
  (λ '((iso_region, municipality), g),
     AirportPivot.mk iso_region municipality (Some (COUNT g)))
    <$> group_by (λ a, (Airport.iso_region a, Airport.municipality a)) airports.

Definition same_city (dc : DemoWide.row D) (a : AirportPivot.row) : sql_bool :=
  sql_and (sql_eq (DemoWide.city dc) (AirportPivot.municipality a))
          (sql_eq (DemoWide.state_code dc) (AirportPivot.iso_region a)).

(** Steps 1 and 3 of [dim_cities] *)
Definition dim_cities_query (cities_pop : list (DemoWide.row D))
    (airports : list (Airport.row D)) : list (DimCity.row D) :=
  (λ '(dc, a), DimCity.mk dc (a ≫= AirportPivot.number_of_airports))
    <$> left_join same_city cities_pop (airports_pivot_query airports).

Definition same_month_and_city (f : Event.row) (w : WeatherClean.row D)
  : sql_bool :=
  sql_and (sql_and (sql_and
    (sql_eq (YEAR (Event.arr_date f)) (YEAR (WeatherClean.dt w)))
    (sql_eq (MONTH (Event.arr_date f)) (MONTH (WeatherClean.dt w))))
    (sql_eq (Event.city_of_entry f) (WeatherClean.city w)))
    (sql_eq (Event.state_of_entry_code f) (WeatherClean.state w)).

(** Step 3 of the fact table: the temperature of the month and city. *)
Definition fact_weather_query (fact_i94_history : list Event.row)
    (weather_clean_source_table : list (WeatherClean.row D))
  : list (Fact.row D) :=
  (λ '(f, w), Fact.mk f (w ≫= WeatherClean.avg_temperature))
    <$> left_join same_month_and_city fact_i94_history
          weather_clean_source_table.

Definition fact_i94_history_query (i94_clean_source_table : list I94.row)
    (weather_clean_source_table : list (WeatherClean.row D))
  : list (Fact.row D) :=
  fact_weather_query (event_query i94_clean_source_table)
    weather_clean_source_table.

(** *** The quality gate *)

Definition same_month (f : Fact.row D) (t : DimTime.row) : sql_bool :=
  sql_and
    (sql_eq (YEAR (Event.arr_date (Fact.base f))) (YEAR (DimTime.dt t)))
    (sql_eq (MONTH (Event.arr_date (Fact.base f))) (MONTH (DimTime.dt t))).

(** The fact rows without a [dim_time] row of their month. *)
Definition check_query (fact_i94_history : list (Fact.row D))
    (dim_time : list DimTime.row) : list (option date * option date) :=
  (λ '(f, t), (Event.arr_date (Fact.base f), t ≫= DimTime.dt))
    <$> sql_where (λ '(_, t), IS_NULL (t ≫= DimTime.dt))
          (left_join same_month fact_i94_history dim_time).
End Stage3.

(** ** The data lake and the console

    [build_data_model] reads parquet files, prints to the console and writes
    parquet files.  The lake maps a path to the table stored there; reading
    a path that is absent, or that holds another table, raises.  Every write
    of the pipeline is partitioned ([partitionBy]): it makes a directory of
    files per value of the partition columns, so that of a table without
    rows it leaves no file, and nothing that can be read. *)

Inductive dataset {D : Type} :=
  | I94Data (t : list I94.row)
  | DemographicData (t : list (DemoWide.row D))
  | WeatherData (t : list (WeatherClean.row D))
  | AirportData (t : list (Airport.row D))
  | FactData (t : list (Fact.row D))
  | DimCityData (t : list (DimCity.row D))
  | DimTimeData (t : list DimTime.row).
Arguments dataset : clear implicits.

Record world {D : Type} := World {
  lake : gmap string (dataset D);
  stdout : list string
}.
Arguments world : clear implicits.
Arguments World {D}.

(** A computation returns a value and the new world, or raises ([None]). *)
Definition M (D A : Type) : Type := world D → option (A * world D).

#[global] Instance M_ret {D} : MRet (M D) := λ A x σ, Some (x, σ).
#[global] Instance M_bind {D} : MBind (M D) := λ A B f m σ,
  match m σ with
  | Some (x, σ') => f x σ'
  | None => None
  end.

Section Effects.
Context {D : Type}.

Definition raise {A} : M D A := λ _, None.

Definition print (line : string) : M D unit := λ σ,
  Some (tt, World (lake σ) (stdout σ ++ [line])).

Definition read_parquet (path : string) : M D (dataset D) := λ σ,
  match lake σ !! path with
  | Some t => Some (t, σ)
  | None => None
  end.

Definition is_empty (t : dataset D) : bool :=
  match t with
  | I94Data [] | DemographicData [] | WeatherData [] | AirportData []
  | FactData [] | DimCityData [] | DimTimeData [] => true
  | _ => false
  end.

(** The lake after a partitioned write in [mode('overwrite')]: what was
    at [path] is gone, and the table is there if it has a row. *)
Definition store (path : string) (t : dataset D)
    (m : gmap string (dataset D)) : gmap string (dataset D) :=
  if is_empty t then delete path m else <[path := t]> m.

(** [.write.partitionBy(...).mode('overwrite').parquet(path)] *)
Definition write_parquet (path : string) (t : dataset D) : M D unit := λ σ,
  Some (tt, World (store path t (lake σ)) (stdout σ)).
End Effects.

(** The format [{n:,d}]: decimal digits, a comma between groups of three. *)
Fixpoint insert_commas (n : nat) (reversed_digits : string) : string :=
  match reversed_digits with
  | EmptyString => EmptyString
  | String c s =>
    match n with
    | O => String "," (String c (insert_commas 2 s))
    | S n' => String c (insert_commas n' s)
    end
  end.

Definition format_thousands (n : Z) : string :=
  let digits := String.rev (insert_commas 3 (String.rev (pretty (Z.abs n)))) in
  if n <? 0 then String "-" digits else digits.

Section BuildDataModel.
Context {D : Type} `{Double D}.

(** Returns [true] if the checks have passed, [false] otherwise. *)
Definition check_model_quality
    (model_data : list (Fact.row D) * list (DimCity.row D) * list DimTime.row)
  : M D bool :=
  print "";;
  print "Final quality checks for the data model - started.";;
  print "";;
  let fact_i94_history_table := model_data.1.1 in
  let dim_cities_table := model_data.1.2 in
  let dim_time_table := model_data.2 in
  if bool_decide (COUNT fact_i94_history_table = 0)
     || bool_decide (COUNT dim_cities_table = 0)
     || bool_decide (COUNT dim_time_table = 0)
  then mret false
  else
    if bool_decide (COUNT (check_query fact_i94_history_table dim_time_table) > 0)
    then mret false
    else
      print "Final quality checks for the data model - successfully completed.";;
      print "";;
      mret true.

Definition read_i94 (path : string) : M D (list I94.row) :=
  t ← read_parquet path;
  match t with I94Data t => mret t | _ => raise end.

Definition read_demographic (path : string) : M D (list (DemoWide.row D)) :=
  t ← read_parquet path;
  match t with DemographicData t => mret t | _ => raise end.

Definition read_weather (path : string) : M D (list (WeatherClean.row D)) :=
  t ← read_parquet path;
  match t with WeatherData t => mret t | _ => raise end.

Definition read_airports (path : string) : M D (list (Airport.row D)) :=
  t ← read_parquet path;
  match t with AirportData t => mret t | _ => raise end.

Definition build_data_model (output_data : string) : M D unit :=
  print "Step 3 - Forming the target data model and final quality checks - started.";;
  print "";;
  print "Loading preprocessed source tables from the data lake...";;
  i94_full_source_table ←
    read_i94 (output_data +:+ "preprocessed/i94/i94_records.parquet");
  print (format_thousands (COUNT i94_full_source_table) +:+
    " records were successfully loaded from the data lake into i94_clean_source_table table.");;
  cities_pop_source_table ←
    read_demographic (output_data +:+ "preprocessed/demographic/demographic.parquet");
  print (format_thousands (COUNT cities_pop_source_table) +:+
    " records were successfully loaded from the data lake into cities_pop_clean_source_table table.");;
  weather_source_table ←
    read_weather (output_data +:+ "preprocessed/weather/weather.parquet");
  print (format_thousands (COUNT weather_source_table) +:+
    " records were successfully loaded from the data lake into weather_clean_source_table table.");;
  airports_source_table ←
    read_airports (output_data +:+ "preprocessed/airports/airports.parquet");
  print (format_thousands (COUNT airports_source_table) +:+
    " records were successfully loaded from the data lake into airports_clean_source_table table.");;
  print "";;
  print "Building dimension tables...";;
  let dim_time_table := dim_time_query i94_full_source_table weather_source_table in
  print ("Dimension table dim_time with " +:+ format_thousands (COUNT dim_time_table)
         +:+ " records was successfully created .");;
  let dim_cities_table := dim_cities_query cities_pop_source_table airports_source_table in
  print ("Dimension table dim_cities with " +:+ format_thousands (COUNT dim_cities_table)
         +:+ " records was successfully created .");;
  print "";;
  print "Building fact table...";;
  let fact_i94_history_table :=
    fact_i94_history_query i94_full_source_table weather_source_table in
  print ("Fact table fact_i94_history with "
         +:+ format_thousands (COUNT fact_i94_history_table)
         +:+ " records was successfully created .");;
  print "";;
  let model_data := (fact_i94_history_table, dim_cities_table, dim_time_table) in
  check_res ← check_model_quality model_data;
  if check_res : bool then
    print "Quality checks on the data model have successfully passed.";;
    print "";;
    print "Writing preprocessed fact and dimension tables into the data lake...";;
    write_parquet (output_data +:+ "analytics/fact_i94_history/fact_i94_history.parquet")
      (FactData fact_i94_history_table);;
    print "fact_i94_history.parquet was successfully saved in the data lake.";;
    write_parquet (output_data +:+ "analytics/dim_cities/dim_cities.parquet")
      (DimCityData dim_cities_table);;
    print "dim_cities.parquet was successfully saved in the data lake.";;
    write_parquet (output_data +:+ "analytics/dim_time/dim_time.parquet")
      (DimTimeData dim_time_table);;
    print "dim_time.parquet was successfully saved in the data lake.";;
    print "";;
    print "Step 3 - Forming the target data model and final quality checks - successfully completed.";;
    print ""
  else
    print "ERROR! Quality checks on the data model have failed!!!".
End BuildDataModel.

(** ** Sample tables *)

Module Sample.
Definition i94_table : list Raw.row :=
  [ Raw.mk (Some 5748517) (Some 438) (Some 245) (Some "LOS") (Some 1) (Some 1)
      (Some "B1") (Some "F") (Some 40) (Some 20574) None;
    Raw.mk (Some 5748518) (Some 438) (Some 438) (Some "XXX") (Some 1) (Some 2)
      (Some "B2") (Some "M") (Some 35) (Some 20574) (Some 20580) ].

Definition country_table : list Country.row :=
  [ Country.mk (Some 438) (Some "Australia");
    Country.mk (Some 245) (Some "China") ].

Definition port_table : list Port.row :=
  [ Port.mk (Some "LOS") (Some "Los Angeles") (Some "ca") ].

Definition mode_table : list Mode.row := [ Mode.mk (Some 1) (Some "Air") ].

Definition visa_table : list Visa.row :=
  [ Visa.mk (Some 1) (Some "Business"); Visa.mk (Some 2) (Some "Pleasure") ].

Definition states_df : list States.row :=
  [ States.mk (Some "ca") (Some "California") ].

Definition i94_source_table : list I94.row :=
  i94_source_query i94_table country_table port_table mode_table visa_table
    states_df.

(** An event on 2016-04-05, leaving on [dep_date]. *)
Definition event (id : Z) (gender : string) (dep_date : option date)
  : I94.row :=
  I94.mk (Some id) (Some "FRANCE") (Some "FRANCE") (Some "CHICAGO")
    (Some "IL") (Some "ILLINOIS") (Some "Air") (Some "Pleasure") (Some "B2")
    (Some gender) (Some 30) (Some (days_from_civil 2016 4 5)) dep_date
    (Some 2016) (Some 4) (Some 5).

Definition same_id_events : list I94.row :=
  [ event 1 "F" None; event 1 "M" None; event 1 "F" None ].

(** Chicago in the demographics source, one row per race. *)
Definition chicago_population (total_population : Z) (race : string)
    (count : Z) : Demo.row float :=
  Demo.mk (Some "CHICAGO") (Some "ILLINOIS") (Some 34.5%float)
    (Some 1320000) (Some 1400000) (Some total_population) (Some 72000)
    (Some 570000) (Some 2.5%float) (Some "IL") (Some race) (Some count).

Definition demographic : list (Demo.row float) :=
  [ chicago_population 2720000 "Asian" 500;
    chicago_population 2720000 "White" 1000 ].

(** The same city with two figures for its total population. *)
Definition demographic_two_totals : list (Demo.row float) :=
  [ chicago_population 2720000 "Asian" 500;
    chicago_population 2720001 "White" 1000 ].

(** Chicago on a day of April 2016, at 41.5 N 87.5 W. *)
Definition chicago (day : Z) (avg_temperature : float) : Weather.row float :=
  Weather.mk (Some (days_from_civil 2016 4 day)) (Some 2016) (Some 4)
    (Some day) (Some avg_temperature) (Some "CHICAGO") (Some "UNITED STATES")
    (Some (-87.5)%float) (Some 41.5%float).

Definition weather_source_table : list (Weather.row float) :=
  [ chicago 1 10.5%float; chicago 15 12.5%float ].

(** Two airports named after Chicago: one 0.5 degrees north of the
    weather station, in Illinois, one 2.0 degrees north, in Indiana. *)
Definition airport (name region : string) (lat : float) : Airport.row float :=
  Airport.mk (Some "small_airport") (Some name) None (Some region)
    (Some "CHICAGO") None (Some (-87.5)%float) (Some lat).

Definition airports_source_table : list (Airport.row float) :=
  [ airport "A" "IL" 42.0%float; airport "B" "IN" 43.5%float ].

(** The four preprocessed tables, as stage 2 makes them of the samples,
    and a lake that holds them. *)
Definition i94_clean : list I94.row := i94_clean_query [ event 1 "F" None ].

Definition demographic_clean : list (DemoWide.row float) :=
  cities_pop_clean_query demographic.

Definition weather_clean : list (WeatherClean.row float) :=
  weather_clean_query weather_source_table airports_source_table.

Definition weather_april_1 : list (WeatherClean.row float) :=
  weather_clean_query [ chicago 1 10.5%float ] airports_source_table.

Definition airports_clean : list (Airport.row float) :=
  airports_clean_query airports_source_table.

Definition preprocessed_lake : gmap string (dataset float) :=
  <["preprocessed/i94/i94_records.parquet" := I94Data i94_clean]>
    (<["preprocessed/demographic/demographic.parquet"
         := DemographicData demographic_clean]>
       (<["preprocessed/weather/weather.parquet" := WeatherData weather_clean]>
          (<["preprocessed/airports/airports.parquet"
               := AirportData airports_clean]> ∅))).

(** Readings in whole degrees, under exact arithmetic. *)
Definition reading (avg_temperature : Z) (country : string) : Weather.row Z :=
  Weather.mk (Some (days_from_civil 2016 4 1)) (Some 2016) (Some 4) (Some 1)
    (Some avg_temperature) (Some "CHICAGO") (Some country) (Some (-87))
    (Some 41).

Definition readings : list (Weather.row Z) :=
  [ reading 10 "UNITED STATES"; reading 14 "UNITED STATES"; reading 12 "US" ].

Definition readings_reordered : list (Weather.row Z) :=
  [ reading 12 "US"; reading 10 "UNITED STATES"; reading 14 "UNITED STATES" ].

Definition airports_Z : list (Airport.row Z) :=
  [ Airport.mk (Some "small_airport") (Some "A") None (Some "IL")
      (Some "CHICAGO") None (Some (-87)) (Some 41) ].
End Sample.

(** ** Vocabulary of the statements on stage 1 *)

(** The six codes of a raw event resolve: the dictionaries hold a row for
    each, and a state for the state of the port. *)
Definition resolves (country_table : list Country.row)
    (port_table : list Port.row) (mode_table : list Mode.row)
    (visa_table : list Visa.row) (states_df : list States.row)
    (i : Raw.row) : Prop :=
  ∃ c1 c2 p m v s,
    c1 ∈ country_table ∧ holds (sql_eq (Raw.i94res i) (Country.code c1)) ∧
    c2 ∈ country_table ∧ holds (sql_eq (Raw.i94cit i) (Country.code c2)) ∧
    p ∈ port_table ∧ holds (sql_eq (Raw.i94port i) (Port.code p)) ∧
    m ∈ mode_table ∧ holds (sql_eq (Raw.i94mode i) (Mode.code m)) ∧
    v ∈ visa_table ∧ holds (sql_eq (Raw.i94visa i) (Visa.code v)) ∧
    s ∈ states_df ∧ holds (sql_eq (Port.state p) (States.code s)).

(** A small letter of the ASCII alphabet occurs in [s]. *)
Definition is_ascii_lowercase (c : ascii) : bool :=
  let n := nat_of_ascii c in ((97 <=? n) && (n <=? 122))%nat.

Fixpoint has_ascii_lowercase (s : string) : bool :=
  match s with
  | EmptyString => false
  | String c s' => is_ascii_lowercase c || has_ascii_lowercase s'
  end.

(** A column value that holds no small letter of the ASCII alphabet. *)
Definition in_capitals (s : option string) : Prop :=
  ∀ s', s = Some s' → has_ascii_lowercase s' = false.

(** The character [c] occurs in [s]. *)
Fixpoint occurs (c : ascii) (s : string) : bool :=
  match s with
  | EmptyString => false
  | String c' s' => Ascii.eqb c' c || occurs c s'
  end.

(** ** Stage 1: the other source tables

    The tables of [load_source_data] besides the travel events.  As for the
    events, a column that a query casts to LONG, DOUBLE or DATE holds the
    value of that cast; the coordinates, which the queries cut out of a
    string before the cast, are strings, and the cast of a string to DOUBLE
    is the engine's ([cast_double]). *)

Definition sql_not (a : sql_bool) : sql_bool := negb <$> a.

(** [x != y] *)
Definition sql_ne {A} `{EqDecision A} (x y : option A) : sql_bool :=
  sql_not (sql_eq x y).

(** [SPLIT(s, sep)] for a separator of one character: the tokens between
    the separators, the empty ones too. *)
Fixpoint split_on (sep : ascii) (s : string) : list string :=
  match s with
  | EmptyString => [EmptyString]
  | String c s' =>
    if Ascii.eqb c sep then EmptyString :: split_on sep s'
    else match split_on sep s' with
         | token :: tokens => String c token :: tokens
         | [] => [String c EmptyString]
         end
  end.

(** [SPLIT(s, sep)[i]]: NULL when the string has no token of that index. *)
Definition SPLIT_AT (s : option string) (sep : ascii) (i : nat) : option string :=
  s ≫= λ s', split_on sep s' !! i.

(** [SUBSTRING(s, 1, LENGTH(s) - 1)]: the string without its last
    character. *)
Definition SUBSTRING_WITHOUT_LAST (s : option string) : option string :=
  (λ s', String.substring 0 (String.length s' - 1) s') <$> s.

(** [airports_table] *)
Module RawAirport.
Record row := mk {
type : option string;
name : option string;
elevation_ft : option Z;
iso_country : option string;
iso_region : option string;
municipality : option string;
gps_code : option string;
coordinates : option string
}.
End RawAirport.

(** [weather_table] *)
Module RawWeather.
Record row {D : Type} := mk {
dt : option date;
AverageTemperature : option D;
city : option string;
country : option string;
longitude : option string;
latitude : option string
}.
Arguments row : clear implicits.
Arguments mk {D}.
End RawWeather.

Section Stage1.
Context {D : Type} `{Double D}.
Variable cast_double : string → option D.

(** [CAST(s AS DOUBLE)] *)
Definition CAST_DOUBLE (s : option string) : option D := s ≫= cast_double.

(** City, state and state code in capital letters. *)
Definition cities_pop_source_query (cities_pop_table : list (Demo.row D))
: list (Demo.row D) :=
(λ c,
   {| Demo.city := UPPER (Demo.city c);
      Demo.state := UPPER (Demo.state c);
      Demo.median_age := Demo.median_age c;
      Demo.male_population := Demo.male_population c;
      Demo.female_population := Demo.female_population c;
      Demo.total_population := Demo.total_population c;
      Demo.number_of_veterans := Demo.number_of_veterans c;
      Demo.foreign_born := Demo.foreign_born c;
      Demo.avg_household_size := Demo.avg_household_size c;
      Demo.state_code := UPPER (Demo.state_code c);
      Demo.race := Demo.race c;
      Demo.count := Demo.count c |}) <$> cities_pop_table.

(** The airports of the US that are not closed, with the state cut out of
  [iso_region] and the coordinates cut in two. *)
Definition airports_source_query (airports_table : list RawAirport.row)
: list (Airport.row D) :=
(λ a,
   {| Airport.type := RawAirport.type a;
      Airport.name := RawAirport.name a;
      Airport.elevation_ft := RawAirport.elevation_ft a;
      Airport.iso_region := UPPER (SPLIT_AT (RawAirport.iso_region a) "-" 1);
      Airport.municipality := UPPER (RawAirport.municipality a);
      Airport.gps_code := RawAirport.gps_code a;
      Airport.lon := CAST_DOUBLE (SPLIT_AT (RawAirport.coordinates a) "," 0);
      Airport.lat := CAST_DOUBLE (SPLIT_AT (RawAirport.coordinates a) "," 1) |})
  <$> sql_where
        (λ a, sql_and (sql_eq (RawAirport.iso_country a) (Some "US"))
                      (sql_ne (RawAirport.type a) (Some "closed")))
        airports_table.

(** The observations of the United States from 1960 on, the coordinates
  without their letter, the longitude with its sign turned. *)
Definition weather_source_query (weather_table : list (RawWeather.row D))
: list (Weather.row D) :=
(λ w,
   {| Weather.dt := RawWeather.dt w;
      Weather.year := YEAR (RawWeather.dt w);
      Weather.month := MONTH (RawWeather.dt w);
      Weather.day := DAY (RawWeather.dt w);
      Weather.avg_temperature := RawWeather.AverageTemperature w;
      Weather.city := UPPER (RawWeather.city w);
      Weather.country := UPPER (RawWeather.country w);
      Weather.lon :=
        sql_lift2 double_mul
          (CAST_DOUBLE (SUBSTRING_WITHOUT_LAST (RawWeather.longitude w)))
          (Some (double_of_Z (-1)));
      Weather.lat :=
        CAST_DOUBLE (SUBSTRING_WITHOUT_LAST (RawWeather.latitude w)) |})
  <$> sql_where
        (λ w, sql_and (sql_eq (RawWeather.country w) (Some "United States"))
                      (sql_lift2 Z.geb (YEAR (RawWeather.dt w)) (Some 1960)))
        weather_table.
End Stage1.

(** ** Stage 2, as a whole

    [process_source_data] once it has read the four tables of the source
    layer, which are its arguments here: the lake of this model holds the
    preprocessed and the analytical tables. *)

Section ProcessSourceData.
Context {D : Type} `{Double D}.

Definition process_source_data (output_data : string)
  (i94_source : list I94.row) (cities_pop_source : list (Demo.row D))
  (weather_source : list (Weather.row D))
  (airports_source : list (Airport.row D)) : M D unit :=
print "Step 2 - Data cleaning, aligning and source quality checks - started.";;
print "";;
print "Loading source tables from the data lake...";;
let i94_full_source_count := COUNT i94_source in
print (format_thousands i94_full_source_count +:+
  " records were successfully loaded from the data lake into i94_source_table table.");;
let cities_pop_source_count := COUNT cities_pop_source in
print (format_thousands cities_pop_source_count +:+
  " records were successfully loaded from the data lake into cities_pop_source_table table.");;
let weather_source_count := COUNT weather_source in
print (format_thousands weather_source_count +:+
  " records were successfully loaded from the data lake into weather_source_table table.");;
let airports_source_count := COUNT airports_source in
print (format_thousands airports_source_count +:+
  " records were successfully loaded from the data lake into airports_source_table table.");;
print "";;
print "Cleaning and transforming source tables...";;
let i94_full_source_table := i94_clean_query i94_source in
let i94_full_processed_count := COUNT i94_full_source_table in
print "i94_source_table was successfully preprocessed.";;
print (format_thousands (i94_full_source_count - i94_full_processed_count) +:+
  " records were dropped from the table.");;
print ("Total number of rows in preprocessed i94_source_table - " +:+
  format_thousands i94_full_processed_count +:+ ".");;
let cities_pop_source_table := cities_pop_clean_query cities_pop_source in
let cities_pop_processed_count := COUNT cities_pop_source_table in
print "cities_pop_source_table was successfully preprocessed.";;
print (format_thousands (cities_pop_source_count - cities_pop_processed_count) +:+
  " records were dropped from the table.");;
print ("Total number of rows in preprocessed cities_pop_source_table - " +:+
  format_thousands cities_pop_processed_count +:+ ".");;
let airports_source_table := airports_clean_query airports_source in
let airports_processed_count := COUNT airports_source_table in
print "airports_source_table was successfully preprocessed.";;
print (format_thousands (airports_source_count - airports_processed_count) +:+
  " records were dropped from the table.");;
print ("Total number of rows in preprocessed airports_source_table - " +:+
  format_thousands airports_processed_count +:+ ".");;
let weather_source_table := weather_clean_query weather_source airports_source in
let weather_processed_count := COUNT weather_source_table in
print "weather_source_table was successfully preprocessed.";;
print (format_thousands (weather_source_count - weather_processed_count) +:+
  " records were dropped from the table.");;
print ("Total number of rows in preprocessed weather_source_table - " +:+
  format_thousands weather_processed_count +:+ ".");;
print "";;
print "Writing preprocessed source tables into the data lake...";;
write_parquet (output_data +:+ "preprocessed/i94/i94_records.parquet")
  (I94Data i94_full_source_table);;
print "i94_records.parquet was successfully saved in the data lake.";;
write_parquet (output_data +:+ "preprocessed/demographic/demographic.parquet")
  (DemographicData cities_pop_source_table);;
print "demographic.parquet was successfully saved in the data lake.";;
write_parquet (output_data +:+ "preprocessed/weather/weather.parquet")
  (WeatherData weather_source_table);;
print "weather.parquet was successfully saved in the data lake.";;
write_parquet (output_data +:+ "preprocessed/airports/airports.parquet")
  (AirportData airports_source_table);;
print "airports.parquet was successfully saved in the data lake.";;
print "Step 2 - Data cleaning, aligning and source quality checks - successfully completed.";;
print "".

(** Steps 2 and 3 of [main], from the tables of the source layer. *)
Definition clean_and_model (output_data : string)
  (i94_source : list I94.row) (cities_pop_source : list (Demo.row D))
  (weather_source : list (Weather.row D))
  (airports_source : list (Airport.row D)) : M D unit :=
process_source_data output_data i94_source cities_pop_source weather_source
  airports_source;;
build_data_model output_data.
End ProcessSourceData.

(** ** Vocabulary of the statements on stages 2 and 3 *)

Section Vocabulary.
Context {D : Type} `{Double D}.

(** The pivoted row [r] has the columns that the pivot copies from the
  source row [c]. *)
Definition copied_from (c : Demo.row D) (r : DemoWide.row D) : Prop :=
DemoWide.city r = Demo.city c ∧
DemoWide.state r = Demo.state c ∧
DemoWide.state_code r = Demo.state_code c ∧
DemoWide.median_age r = Demo.median_age c ∧
DemoWide.male_population r = Demo.male_population c ∧
DemoWide.female_population r = Demo.female_population c ∧
DemoWide.total_population r = Demo.total_population c ∧
DemoWide.number_of_veterans r = Demo.number_of_veterans c ∧
DemoWide.foreign_born r = Demo.foreign_born c ∧
DemoWide.avg_household_size r = Demo.avg_household_size c.

(** The value [v] of a race column of the pivoted row [r]: the count of a
  row of [t] of that race and of the city and state of [r], or NULL when
  the state of [r] is NULL or [t] has no such row. *)
Definition pivoted_count (t : list (Demo.row D)) (r : DemoWide.row D)
  (race : string) (v : option Z) : Prop :=
(∃ c, c ∈ t ∧ Demo.race c = Some race ∧
      Demo.city c = DemoWide.city r ∧ Demo.state c = DemoWide.state r ∧
      DemoWide.state r ≠ None ∧ v = Demo.count c) ∨
(v = None ∧
 (DemoWide.state r = None ∨
  ∀ c, c ∈ t → Demo.city c = DemoWide.city r →
       Demo.state c = DemoWide.state r → Demo.race c ≠ Some race)).

(** The airports of the city and state code of [dc]. *)
Definition airports_of (airports : list (Airport.row D)) (dc : DemoWide.row D)
: list (Airport.row D) :=
sql_where (λ a, sql_and (sql_eq (DemoWide.city dc) (Airport.municipality a))
                        (sql_eq (DemoWide.state_code dc) (Airport.iso_region a)))
  airports.

(** The four tables that stage 2 leaves for stage 3 are in the lake. *)
Definition has_preprocessed (output_data : string)
  (m : gmap string (dataset D)) (i94 : list I94.row)
  (demographic : list (DemoWide.row D)) (weather : list (WeatherClean.row D))
  (airports : list (Airport.row D)) : Prop :=
m !! (output_data +:+ "preprocessed/i94/i94_records.parquet")
  = Some (I94Data i94) ∧
m !! (output_data +:+ "preprocessed/demographic/demographic.parquet")
  = Some (DemographicData demographic) ∧
m !! (output_data +:+ "preprocessed/weather/weather.parquet")
  = Some (WeatherData weather) ∧
m !! (output_data +:+ "preprocessed/airports/airports.parquet")
  = Some (AirportData airports).

(** What is at the path of a table after its write: the table if it has a
  row, nothing otherwise. *)
Definition table_at {A} (kind : list A → dataset D) (t : list A)
: option (dataset D) :=
match t with
| [] => None
| _ => Some (kind t)
end.

(** The lake [m] after the four writes of stage 2. *)
Definition with_preprocessed (output_data : string) (i94 : list I94.row)
  (demographic : list (DemoWide.row D)) (weather : list (WeatherClean.row D))
  (airports : list (Airport.row D)) (m : gmap string (dataset D))
: gmap string (dataset D) :=
store (output_data +:+ "preprocessed/airports/airports.parquet")
  (AirportData airports)
  (store (output_data +:+ "preprocessed/weather/weather.parquet")
     (WeatherData weather)
     (store (output_data +:+ "preprocessed/demographic/demographic.parquet")
        (DemographicData demographic)
        (store (output_data +:+ "preprocessed/i94/i94_records.parquet")
           (I94Data i94) m))).

(** The lake [m] with the data model of the four tables written. *)
Definition with_data_model (output_data : string) (i94 : list I94.row)
  (demographic : list (DemoWide.row D)) (weather : list (WeatherClean.row D))
  (airports : list (Airport.row D)) (m : gmap string (dataset D))
: gmap string (dataset D) :=
<[output_data +:+ "analytics/dim_time/dim_time.parquet"
    := DimTimeData (dim_time_query i94 weather)]>
  (<[output_data +:+ "analytics/dim_cities/dim_cities.parquet"
       := DimCityData (dim_cities_query demographic airports)]>
     (<[output_data +:+ "analytics/fact_i94_history/fact_i94_history.parquet"
          := FactData (fact_i94_history_query i94 weather)]> m)).

(** The data model of the four tables passes the gate. *)
Definition model_passes (i94 : list I94.row)
  (demographic : list (DemoWide.row D)) (weather : list (WeatherClean.row D))
  (airports : list (Airport.row D)) : bool :=
bool_decide (fact_i94_history_query i94 weather ≠ [] ∧
             dim_cities_query demographic airports ≠ [] ∧
             dim_time_query i94 weather ≠ [] ∧
             check_query (fact_i94_history_query i94 weather)
               (dim_time_query i94 weather) = []).

(** The lake after a computation, if it returns. *)
Definition lake_after {A} (result : option (A * world D))
: option (gmap string (dataset D)) :=
(λ r, lake r.2) <$> result.
End Vocabulary.

(** ** More sample tables *)

Module Fixture.
(** A cast of decimal numerals to binary64: blanks, a sign, digits, a point
  and digits; the quotient of two integers that floats hold exactly is
  rounded once, as the cast of the numeral is. *)
Fixpoint skip_blanks (s : string) : string :=
match s with
| String " " s' => skip_blanks s'
| _ => s
end.

Fixpoint decimal_go (acc scale : Z) (after_point : bool) (s : string)
: option (Z * Z) :=
match s with
| EmptyString => Some (acc, scale)
| String c s' =>
  if Ascii.eqb c "." then
    if after_point then None else decimal_go acc scale true s'
  else
    d ← digit_of_ascii c;
    decimal_go (10 * acc + d) (if after_point then 10 * scale else scale)
      after_point s'
end.

Definition unsigned_decimal (s : string) : option float :=
match s with
| EmptyString => None
| _ => '(acc, scale) ← decimal_go 0 1 false s;
       Some (PrimFloat.div (float_of_Z acc) (float_of_Z scale))
end.

Definition decimal (s : string) : option float :=
match skip_blanks s with
| String "-" s' => PrimFloat.opp <$> unsigned_decimal s'
| s' => unsigned_decimal s'
end.

Definition airports_table : list RawAirport.row :=
[ RawAirport.mk (Some "small_airport") (Some "Lansing Municipal") (Some 620)
    (Some "US") (Some "US-IL") (Some "Chicago") (Some "KIGQ")
    (Some "-87.5, 42.0");
  RawAirport.mk (Some "closed") (Some "Meigs Field") (Some 593)
    (Some "US") (Some "US-IL") (Some "Chicago") None (Some "-87.6, 41.9");
  RawAirport.mk None (Some "Unknown") None
    (Some "US") (Some "US-IL") (Some "Chicago") None (Some "-87.6, 41.9");
  RawAirport.mk (Some "heliport") (Some "Toronto") None
    (Some "CA") (Some "CA-ON") (Some "Toronto") None (Some "-79.4, 43.6") ].

Definition weather_table : list (RawWeather.row float) :=
[ RawWeather.mk (to_date "2013-04-01") (Some 10.5%float) (Some "Chicago")
    (Some "United States") (Some "87.5W") (Some "41.5N");
  RawWeather.mk (to_date "1959-12-01") (Some 1.5%float) (Some "Chicago")
    (Some "United States") (Some "87.5W") (Some "41.5N");
  RawWeather.mk (to_date "2013-04-01") (Some 9.5%float) (Some "Toronto")
    (Some "Canada") (Some "79.4W") (Some "43.6N") ].
End Fixture.

(** * Properties *)

(** ** The relational operators *)

Lemma holds_sql_and a b : holds (sql_and a b) ↔ holds a ∧ holds b.
Proof. unfold holds. destruct a as [[]|], b as [[]|]; simpl; intuition congruence. Qed.

Lemma holds_sql_or a b : holds (sql_or a b) ↔ holds a ∨ holds b.
Proof. unfold holds. destruct a as [[]|], b as [[]|]; simpl; intuition congruence. Qed.

Lemma holds_is_not_null {A} (x : option A) : holds (IS_NOT_NULL x) ↔ x ≠ None.
Proof. unfold holds. destruct x; simpl; split; intros ?; done || congruence. Qed.

Lemma holds_is_null {A} (x : option A) : holds (IS_NULL x) ↔ x = None.
Proof. unfold holds. destruct x; simpl; split; intros ?; done || congruence. Qed.

Lemma holds_sql_lift2 {A B} (f : A → B → bool) x y :
  holds (sql_lift2 f x y) ↔ ∃ a b, x = Some a ∧ y = Some b ∧ f a b = true.
Proof.
  unfold holds, sql_lift2. destruct x as [a|], y as [b|]; simpl; split;
    try (intros (a' & b' & ? & ? & ?)); try congruence.
  intros [= Hf]. eauto.
Qed.

Lemma holds_sql_eq {A} `{EqDecision A} (x y : option A) :
  holds (sql_eq x y) ↔ ∃ a, x = Some a ∧ y = Some a.
Proof.
  unfold sql_eq. rewrite holds_sql_lift2. split.
  - intros (a & b & -> & -> & Hab). apply bool_decide_eq_true in Hab. subst. eauto.
  - intros (a & -> & ->). exists a, a. rewrite bool_decide_eq_true. auto.
Qed.

Lemma elem_of_sql_where {A} (c : A → sql_bool) t x :
  x ∈ sql_where c t ↔ holds (c x) ∧ x ∈ t.
Proof. apply (list_elem_of_filter (λ r, holds (c r))). Qed.

Lemma sql_where_nil {A} (c : A → sql_bool) t :
  sql_where c t = [] ↔ ∀ x, x ∈ t → ¬ holds (c x).
Proof.
  split.
  - intros E x Hx Hc. assert (x ∈ sql_where c t) as Hin
      by (apply elem_of_sql_where; done).
    rewrite E in Hin. by apply elem_of_nil in Hin.
  - intros Hno. destruct (sql_where c t) as [|y ys] eqn:E; [done|].
    assert (y ∈ sql_where c t) as Hin by (rewrite E; left).
    apply elem_of_sql_where in Hin as [Hc Hy]. destruct (Hno y Hy Hc).
Qed.

Lemma elem_of_sql_distinct {A} `{EqDecision A} (t : list A) x :
  x ∈ sql_distinct t ↔ x ∈ t.
Proof. apply elem_of_remove_dups. Qed.

Lemma NoDup_sql_distinct {A} `{EqDecision A} (t : list A) : NoDup (sql_distinct t).
Proof. apply NoDup_remove_dups. Qed.

Lemma elem_of_sql_union {A} `{EqDecision A} (t1 t2 : list A) x :
  x ∈ sql_union t1 t2 ↔ x ∈ t1 ∨ x ∈ t2.
Proof. unfold sql_union. rewrite elem_of_remove_dups. apply elem_of_app. Qed.

Lemma elem_of_inner_join {A B} (on : A → B → sql_bool) l r x y :
  (x, y) ∈ inner_join on l r ↔ x ∈ l ∧ y ∈ r ∧ holds (on x y).
Proof.
  unfold inner_join. rewrite list_elem_of_bind. split.
  - intros (x' & Hin & Hx'). apply list_elem_of_bind in Hin as (y' & Hin & Hy').
    apply list_elem_of_singleton in Hin. injection Hin as -> ->.
    apply elem_of_sql_where in Hy'. tauto.
  - intros (Hx & Hy & Hon). exists x. split; [|done].
    apply list_elem_of_bind. exists y. split; [apply list_elem_of_singleton; done|].
    apply elem_of_sql_where. done.
Qed.

(** A row of a left join pairs a left row with one of its matches, or with
    NULL when it has none. *)
Lemma elem_of_left_join {A B} (on : A → B → sql_bool) l r x o :
  (x, o) ∈ left_join on l r ↔
  x ∈ l ∧ match o with
          | Some y => y ∈ r ∧ holds (on x y)
          | None => ∀ y, y ∈ r → ¬ holds (on x y)
          end.
Proof.
  unfold left_join. rewrite list_elem_of_bind. split.
  - intros (x' & Hin & Hx'). destruct (sql_where (on x') r) as [|y0 ys] eqn:E.
    + apply list_elem_of_singleton in Hin. injection Hin as -> ->. split; [done|].
      by apply sql_where_nil.
    + apply list_elem_of_fmap in Hin as (y & Heq & Hy). injection Heq as -> ->.
      rewrite <- E in Hy. apply elem_of_sql_where in Hy. tauto.
  - intros (Hx & Ho). exists x. split; [|done].
    destruct o as [y|].
    + destruct Ho as (Hy & Hon).
      assert (y ∈ sql_where (on x) r) as Hin by (apply elem_of_sql_where; done).
      destruct (sql_where (on x) r) as [|y0 ys]; [by apply elem_of_nil in Hin|].
      apply list_elem_of_fmap. eauto.
    + apply sql_where_nil in Ho. rewrite Ho. by apply list_elem_of_singleton.
Qed.

Lemma left_join_fst {A B} (on : A → B → sql_bool) l r x o :
  (x, o) ∈ left_join on l r → x ∈ l.
Proof. intros Hin. apply elem_of_left_join in Hin. tauto. Qed.

(** Every left row is in the result at least once. *)
Lemma left_join_total {A B} (on : A → B → sql_bool) l r x :
  x ∈ l → ∃ o, (x, o) ∈ left_join on l r.
Proof.
  intros Hx. destruct (sql_where (on x) r) as [|y ys] eqn:E.
  - exists None. apply elem_of_left_join. split; [done|]. by apply sql_where_nil.
  - exists (Some y). apply elem_of_left_join. split; [done|].
    assert (y ∈ sql_where (on x) r) as Hin by (rewrite E; left).
    apply elem_of_sql_where in Hin. tauto.
Qed.

(** Where no left row has two matches, the left join keeps the left table
    as it is, row for row. *)
Lemma left_join_at_most_one {A B} (on : A → B → sql_bool) l r :
  (∀ x, x ∈ l → (length (sql_where (on x) r) ≤ 1)%nat) →
  fst <$> left_join on l r = l.
Proof.
  unfold left_join. induction l as [|x l IH]; intros Hone; [done|].
  rewrite bind_cons, fmap_app, IH by (intros; apply Hone; by right).
  pose proof (Hone x ltac:(left)) as Hx.
  destruct (sql_where (on x) r) as [|y [|y' ys]]; simpl in *; [done|done|lia].
Qed.

Lemma length_left_join {A B} (on : A → B → sql_bool) l r :
  length (left_join on l r)
  = foldr (λ x n, (Nat.max 1 (length (sql_where (on x) r)) + n)%nat) 0%nat l.
Proof.
  unfold left_join. induction l as [|x l IH]; [done|].
  rewrite bind_cons, length_app, IH. cbn [foldr]. f_equal.
  destruct (sql_where (on x) r) as [|y ys]; [done|].
  rewrite length_fmap. cbn [length]. lia.
Qed.

Lemma elem_of_group_by {A B} `{EqDecision B} (key : A → B) t k g :
  (k, g) ∈ group_by key t ↔
  (∃ x, x ∈ t ∧ key x = k) ∧ g = filter (λ r, key r = k) t.
Proof.
  unfold group_by. rewrite list_elem_of_fmap. split.
  - intros (k' & [= -> ->] & Hk). rewrite elem_of_remove_dups in Hk.
    apply list_elem_of_fmap in Hk as (x & -> & Hx). eauto.
  - intros ((x & Hx & <-) & ->). exists (key x). split; [done|].
    rewrite elem_of_remove_dups. apply list_elem_of_fmap. eauto.
Qed.

Lemma NoDup_group_by_keys {A B} `{EqDecision B} (key : A → B) t :
  NoDup (fst <$> group_by key t).
Proof.
  unfold group_by. rewrite <- list_fmap_compose.
  replace (fst ∘ _ <$> remove_dups (key <$> t)) with (remove_dups (key <$> t)).
  - apply NoDup_remove_dups.
  - induction (remove_dups (key <$> t)) as [|k ks IH]; [done|].
    cbn [fmap list_fmap]. f_equal. exact IH.
Qed.

(** Membership in a concrete table, settled by running the query. *)
Ltac by_computation := apply (bool_decide_unpack _); vm_compute; exact I.

(** ** Stage 1: dates *)

Lemma sas_epoch_eq : sas_epoch = Some (days_from_civil 1960 1 1).
Proof. vm_compute. reflexivity. Qed.

Lemma wrap_int32_id z : in_int32 z → wrap_int32 z = z.
Proof.
  unfold in_int32, wrap_int32. change (2 ^ 31) with 2147483648.
  change (2 ^ 32) with 4294967296. intros Hz.
  rewrite Z.mod_small by lia. lia.
Qed.

Lemma wrap_int32_range z : in_int32 (wrap_int32 z).
Proof.
  unfold in_int32, wrap_int32. change (2 ^ 31) with 2147483648.
  change (2 ^ 32) with 4294967296.
  pose proof (Z.mod_pos_bound (z + 2147483648) 4294967296). lia.
Qed.

Lemma wrap_int32_add a b : wrap_int32 (a + wrap_int32 b) = wrap_int32 (a + b).
Proof.
  unfold wrap_int32. f_equal.
  replace (a + ((b + 2 ^ 31) mod 2 ^ 32 - 2 ^ 31) + 2 ^ 31)
    with (a + (b + 2 ^ 31) mod 2 ^ 32) by lia.
  rewrite Zplus_mod_idemp_r. f_equal. lia.
Qed.

Lemma date_add_sas_epoch n :
  date_add sas_epoch n
  = (λ k, wrap_int32 (days_from_civil 1960 1 1 + k)) <$> n.
Proof.
  rewrite sas_epoch_eq. destruct n as [k|]; [|done]. cbn.
  by rewrite wrap_int32_add.
Qed.

(** C7, as the code has it: every row of the conformed fact table comes
    from a raw event; its arrival and departure dates are the raw day counts
    added to 1960-01-01 in 32 bits, that is, 1960-01-01 plus the day count
    whenever this is a day that a [DATE] holds; a NULL day count gives a
    NULL date.  The partition fields are the parts of the decoded arrival
    date. *)
Theorem i94_source_dates_decoded
    i94_table country_table port_table mode_table visa_table states_df r :
  r ∈ i94_source_query i94_table country_table port_table mode_table
        visa_table states_df →
  civil_from_days (days_from_civil 1960 1 1) = (1960, 1, 1) ∧
  ∃ i, i ∈ i94_table ∧
    I94.id r = Raw.cicid i ∧
    I94.arr_date r
    = (λ n, wrap_int32 (days_from_civil 1960 1 1 + n)) <$> Raw.arrdate i ∧
    I94.dep_date r
    = (λ n, wrap_int32 (days_from_civil 1960 1 1 + n)) <$> Raw.depdate i ∧
    (∀ n, Raw.arrdate i = Some n → in_int32 (days_from_civil 1960 1 1 + n) →
          I94.arr_date r = Some (days_from_civil 1960 1 1 + n)) ∧
    (∀ n, Raw.depdate i = Some n → in_int32 (days_from_civil 1960 1 1 + n) →
          I94.dep_date r = Some (days_from_civil 1960 1 1 + n)) ∧
    (Raw.arrdate i = None → I94.arr_date r = None) ∧
    (Raw.depdate i = None → I94.dep_date r = None) ∧
    I94.year r = YEAR (I94.arr_date r) ∧
    I94.month r = MONTH (I94.arr_date r) ∧
    I94.day r = DAY (I94.arr_date r).
Proof.
  intros Hr. split; [reflexivity|].
  unfold i94_source_query in Hr.
  apply list_elem_of_fmap in Hr as ([[[[[[i c1] c2] p] m] v] s] & -> & Hin).
  repeat (apply elem_of_inner_join in Hin as (Hin & _ & _)).
  exists i. cbn [I94.id I94.arr_date I94.dep_date I94.year I94.month I94.day].
  rewrite !date_add_sas_epoch.
  split_and!; try done.
  - intros n -> Hn. cbn. by rewrite wrap_int32_id.
  - intros n -> Hn. cbn. by rewrite wrap_int32_id.
  - by intros ->.
  - by intros ->.
Qed.

Lemma i94_source_dates_decoded_witness :
  civil_from_days (days_from_civil 1960 1 1) = (1960, 1, 1) ∧
  ∃ i, i ∈ Sample.i94_table ∧
    Some 5748517 = Raw.cicid i ∧
    Some (days_from_civil 2016 4 30)
      = (λ n, wrap_int32 (days_from_civil 1960 1 1 + n)) <$> Raw.arrdate i ∧
    None = (λ n, wrap_int32 (days_from_civil 1960 1 1 + n)) <$> Raw.depdate i ∧
    (∀ n, Raw.arrdate i = Some n → in_int32 (days_from_civil 1960 1 1 + n) →
          Some (days_from_civil 2016 4 30)
          = Some (days_from_civil 1960 1 1 + n)) ∧
    (∀ n, Raw.depdate i = Some n → in_int32 (days_from_civil 1960 1 1 + n) →
          None = Some (days_from_civil 1960 1 1 + n)) ∧
    (Raw.arrdate i = None → Some (days_from_civil 2016 4 30) = None) ∧
    (Raw.depdate i = None → @None date = None) ∧
    Some 2016 = YEAR (Some (days_from_civil 2016 4 30)) ∧
    Some 4 = MONTH (Some (days_from_civil 2016 4 30)) ∧
    Some 30 = DAY (Some (days_from_civil 2016 4 30)).
Proof.
  apply (i94_source_dates_decoded Sample.i94_table Sample.country_table
           Sample.port_table Sample.mode_table Sample.visa_table Sample.states_df
           (I94.mk (Some 5748517) (Some "AUSTRALIA") (Some "CHINA")
              (Some "LOS ANGELES") (Some "CA") (Some "CALIFORNIA") (Some "Air")
              (Some "Business") (Some "B1") (Some "F") (Some 40)
              (Some (days_from_civil 2016 4 30)) None
              (Some 2016) (Some 4) (Some 30))).
  by_computation.
Defined.

(** The claim C7 fails on a day count that 32 bits do not hold: 2^32 days
    after 1960-01-01 is decoded as 1960-01-01. *)
Lemma i94_source_date_wraps_around :
  let i := Raw.mk (Some 5748519) (Some 438) (Some 245) (Some "LOS") (Some 1)
             (Some 1) (Some "B1") (Some "F") (Some 40) (Some 4294967296) None in
  ∃ r,
    i94_source_query [i] Sample.country_table Sample.port_table
      Sample.mode_table Sample.visa_table Sample.states_df = [r] ∧
    I94.arr_date r = Some (days_from_civil 1960 1 1) ∧
    I94.arr_date r ≠ Some (days_from_civil 1960 1 1 + 4294967296).
Proof. eexists. split; [vm_compute; reflexivity|]. by split. Qed.

(** ** Stage 2: travel events *)

Lemma holds_i94_valid r :
  holds (i94_valid r) ↔
  I94.id r ≠ None ∧ I94.state_of_entry_code r ≠ None ∧
  I94.city_of_entry r ≠ None ∧
  ∃ arr, I94.arr_date r = Some arr ∧
    (I94.dep_date r = None ∨ ∃ dep, I94.dep_date r = Some dep ∧ arr ≤ dep).
Proof.
  unfold i94_valid.
  rewrite !holds_sql_and, holds_sql_or, !holds_is_not_null, holds_is_null,
    holds_sql_lift2.
  split.
  - intros ((((Hid & Hst) & Hc) & Ha) & Hd).
    destruct (I94.arr_date r) as [arr|] eqn:Ea; [|done].
    repeat split; try done. exists arr. split; [done|].
    destruct Hd as [Hd|(dep & arr' & Hd & [= <-] & Hge)]; [by left|].
    right. exists dep. split; [done|]. apply Z.geb_le in Hge. lia.
  - intros (Hid & Hst & Hc & arr & Ha & Hd). rewrite Ha.
    repeat split; try done.
    destruct Hd as [Hd|(dep & Hd & Hle)]; [by left|].
    right. exists dep, arr. repeat split; try done. apply Z.geb_le. lia.
Qed.

(** C6: a cleaned fact row is a source row with an id, a state and a city
    of entry and an arrival date, whose departure date is NULL or not before
    the arrival; no row occurs twice; two different rows can share an id. *)
Theorem i94_clean_invariant :
  (∀ i94_source_table,
     NoDup (i94_clean_query i94_source_table) ∧
     ∀ r, r ∈ i94_clean_query i94_source_table ↔
        r ∈ i94_source_table ∧
        I94.id r ≠ None ∧ I94.state_of_entry_code r ≠ None ∧
        I94.city_of_entry r ≠ None ∧
        ∃ arr, I94.arr_date r = Some arr ∧
          (I94.dep_date r = None ∨
           ∃ dep, I94.dep_date r = Some dep ∧ arr ≤ dep)) ∧
  (∃ i94_source_table r1 r2,
     r1 ∈ i94_clean_query i94_source_table ∧
     r2 ∈ i94_clean_query i94_source_table ∧
     r1 ≠ r2 ∧ I94.id r1 = I94.id r2).
Proof.
  split.
  - intros t. split; [apply NoDup_sql_distinct|]. intros r.
    unfold i94_clean_query.
    rewrite elem_of_sql_distinct, elem_of_sql_where, holds_i94_valid. tauto.
  - exists Sample.same_id_events, (Sample.event 1 "F" None),
      (Sample.event 1 "M" None).
    repeat split; [by_computation..|discriminate].
Qed.

(** ** Stage 2: weather *)

Section WeatherProperties.
Context {D : Type} `{Double D}.

Lemma elem_of_weather_dedup_query (t : list (Weather.row D)) w :
  w ∈ weather_dedup_query t ↔
  w ∈ t ∧ Weather.avg_temperature w ≠ None ∧ Weather.dt w ≠ None ∧
  Weather.city w ≠ None ∧ Weather.lat w ≠ None ∧ Weather.lon w ≠ None.
Proof.
  unfold weather_dedup_query.
  rewrite elem_of_sql_distinct, elem_of_sql_where, !holds_sql_and,
    !holds_is_not_null. tauto.
Qed.

Lemma elem_of_airports_clean_query (t : list (Airport.row D)) a :
  a ∈ airports_clean_query t ↔
  a ∈ t ∧ Airport.municipality a ≠ None ∧ Airport.iso_region a ≠ None ∧
  Airport.lat a ≠ None ∧ Airport.lon a ≠ None.
Proof.
  unfold airports_clean_query.
  rewrite elem_of_sql_where, !holds_sql_and, !holds_is_not_null. tauto.
Qed.

Lemma elem_of_tmp_loc_query (weather : list (Weather.row D)) l :
  l ∈ tmp_loc_query weather ↔
  ∃ w, w ∈ weather ∧ l = Loc.mk (Weather.city w) (Weather.lat w) (Weather.lon w).
Proof.
  unfold tmp_loc_query. rewrite elem_of_sql_distinct, list_elem_of_fmap.
  split; intros (w & ? & ?); eauto.
Qed.

Lemma elem_of_loc_state_query (locs : list (Loc.row D)) airports l :
  l ∈ loc_state_query locs airports ↔
  ∃ w1 a, w1 ∈ locs ∧ a ∈ airports ∧ holds (near_airport w1 a) ∧
    l = LocState.mk (Loc.city w1) (Airport.iso_region a) (Loc.lat w1) (Loc.lon w1).
Proof.
  unfold loc_state_query. rewrite elem_of_sql_distinct, list_elem_of_fmap. split.
  - intros ([w1 a] & -> & Hin). apply elem_of_inner_join in Hin. exists w1, a. tauto.
  - intros (w1 & a & ? & ? & ? & ->). exists (w1, a). split; [done|].
    apply elem_of_inner_join. tauto.
Qed.

Lemma holds_same_place (w : Weather.row D) (l : LocState.row D) :
  holds (same_place w l) ↔
  Weather.city w ≠ None ∧ Weather.lat w ≠ None ∧ Weather.lon w ≠ None ∧
  LocState.city l = Weather.city w ∧ LocState.lat l = Weather.lat w ∧
  LocState.lon l = Weather.lon w.
Proof.
  unfold same_place. rewrite !holds_sql_and, !holds_sql_eq. split.
  - intros (((c & Hc & Hc') & (la & Hla & Hla')) & (lo & Hlo & Hlo')).
    rewrite Hc, Hc', Hla, Hla', Hlo, Hlo'. done.
  - intros (Hc & Hla & Hlo & -> & -> & ->).
    destruct (Weather.city w) as [c|]; [|done].
    destruct (Weather.lat w) as [la|]; [|done].
    destruct (Weather.lon w) as [lo|]; [|done]. eauto 10.
Qed.

Lemma weather_clean_key_row (k : weather_key)
    (g : list (Weather.row D * LocState.row D)) :
  weather_clean_key (weather_group_row (k, g)) = k.
Proof. by destruct k as [[[[[[[? ?] ?] ?] ?] ?] ?] ?]. Qed.

Lemma weather_avg_row (k : weather_key)
    (g : list (Weather.row D * LocState.row D)) :
  WeatherClean.avg_temperature (weather_group_row (k, g))
  = AVG ((λ j, Weather.avg_temperature j.1) <$> g).
Proof. by destruct k as [[[[[[[? ?] ?] ?] ?] ?] ?] ?]. Qed.

(** The rows of the result, by their groups. *)
Lemma elem_of_weather_region_query weather locs (o : WeatherClean.row D) :
  o ∈ weather_region_query weather locs ↔
  ∃ g, (weather_clean_key o, g) ∈ weather_groups weather locs ∧
       o = weather_group_row (weather_clean_key o, g).
Proof.
  unfold weather_region_query. rewrite list_elem_of_fmap. split.
  - intros ([k g] & -> & Hin). exists g. by rewrite weather_clean_key_row.
  - intros (g & Hin & Ho). eauto.
Qed.

(** The groups of the result: one per observation and region of its place. *)
Lemma elem_of_weather_region_keys weather locs (k : weather_key) :
  (∃ o, o ∈ weather_region_query weather locs ∧ weather_clean_key o = k) ↔
  ∃ w l, w ∈ weather ∧ l ∈ locs ∧ holds (same_place w l) ∧
         k = weather_group_key (w, l).
Proof.
  split.
  - intros (o & Ho & <-). apply elem_of_weather_region_query in Ho as (g & Hg & _).
    apply elem_of_group_by in Hg as (([w l] & Hj & Hk) & _).
    apply elem_of_inner_join in Hj. exists w, l. rewrite Hk. tauto.
  - intros (w & l & Hw & Hl & Hon & ->).
    set (k := weather_group_key (w, l)).
    set (g := filter (λ j, weather_group_key j = k)
                (inner_join same_place weather locs)).
    exists (weather_group_row (k, g)). rewrite weather_clean_key_row.
    split; [|done]. apply elem_of_weather_region_query. exists g.
    rewrite weather_clean_key_row. split; [|done].
    apply elem_of_group_by. split; [|done].
    exists (w, l). split; [|done]. apply elem_of_inner_join. done.
Qed.

(** C8: an observation that passed the null filter is in the preprocessed
    weather table, with region [s], exactly when a retained airport of
    region [s] bears the name of its city and lies at a distance below the
    threshold; it is dropped exactly when no retained airport does.  An
    airport of that name farther away gives its region to no row. *)
Theorem weather_survives_iff_airport_near
    (weather_source_table : list (Weather.row D))
    (airports_source_table : list (Airport.row D)) (w : Weather.row D) :
  w ∈ weather_dedup_query weather_source_table →
  let close (a : Airport.row D) :=
    a ∈ airports_clean_query airports_source_table ∧
    Airport.municipality a = Weather.city w ∧
    holds (sql_lift2 double_ltb
             (sql_distance (Weather.lat w) (Weather.lon w)
                (Airport.lat a) (Airport.lon a))
             (Some (double_of_Z 1))) in
  let observed (o : WeatherClean.row D) :=
    o ∈ weather_clean_query weather_source_table airports_source_table ∧
    WeatherClean.dt o = Weather.dt w ∧ WeatherClean.year o = Weather.year w ∧
    WeatherClean.month o = Weather.month w ∧
    WeatherClean.day o = Weather.day w ∧
    WeatherClean.city o = Weather.city w ∧
    WeatherClean.lat o = Weather.lat w ∧ WeatherClean.lon o = Weather.lon w in
  ((∃ o, observed o) ↔ (∃ a, close a)) ∧
  (∀ s, (∃ o, observed o ∧ WeatherClean.state o = s) ↔
        (∃ a, close a ∧ Airport.iso_region a = s)).
Proof.
  intros Hw close observed.
  assert (∀ s, (∃ o, observed o ∧ WeatherClean.state o = s) ↔
               (∃ a, close a ∧ Airport.iso_region a = s)) as Hregion.
  { intros s. pose proof Hw as Hw'.
    apply elem_of_weather_dedup_query in Hw' as (_ & _ & _ & Hc & Hla & Hlo).
    split.
    - intros (o & (Ho & Hdt & Hy & Hm & Hd & Hcity & Hlat & Hlon) & Hs).
      unfold weather_clean_query in Ho.
      assert (∃ o', o' ∈ weather_region_query
                 (weather_dedup_query weather_source_table)
                 (loc_state_query
                    (tmp_loc_query (weather_dedup_query weather_source_table))
                    (airports_clean_query airports_source_table))
               ∧ weather_clean_key o' = weather_clean_key o) as Hk by eauto.
      apply elem_of_weather_region_keys in Hk as (w' & l & Hw' & Hl & Hon & Hk).
      apply elem_of_loc_state_query in Hl as (w1 & a & Hw1 & Ha & Hnear & ->).
      apply holds_same_place in Hon as (_ & _ & _ & Hc1 & Hla1 & Hlo1).
      cbn in Hc1, Hla1, Hlo1.
      injection Hk as _ _ _ _ Hkc Hks Hkla Hklo.
      cbn in Hkc, Hks, Hkla, Hklo.
      unfold near_airport in Hnear. apply holds_sql_and in Hnear as (Hdist & Hname).
      apply holds_sql_eq in Hname as (c & Hc2 & Hmun).
      exists a. split; [|congruence]. split; [done|]. split; [congruence|].
      replace (Weather.lat w) with (Loc.lat w1) by congruence.
      replace (Weather.lon w) with (Loc.lon w1) by congruence. done.
    - intros (a & (Ha & Hmun & Hdist) & Hs).
      set (w1 := Loc.mk (Weather.city w) (Weather.lat w) (Weather.lon w)).
      set (l := LocState.mk (Weather.city w) (Airport.iso_region a)
                  (Weather.lat w) (Weather.lon w)).
      assert (∃ o, o ∈ weather_clean_query weather_source_table
                         airports_source_table
                 ∧ weather_clean_key o = weather_group_key (w, l))
        as (o & Ho & Hk).
      { apply elem_of_weather_region_keys. exists w, l.
        split; [done|]. split; [|split; [|done]].
        - apply elem_of_loc_state_query. exists w1, a.
          split; [apply elem_of_tmp_loc_query; eauto|]. split; [done|].
          split; [|done]. unfold near_airport. apply holds_sql_and.
          split; [done|]. apply holds_sql_eq. cbn.
          destruct (Weather.city w) as [c|]; [eauto|done].
        - apply holds_same_place. done. }
      injection Hk as Hdt Hy Hm Hd Hcity Hstate Hlat Hlon.
      exists o. unfold observed. cbn in *. rewrite Hstate. tauto. }
  split; [|exact Hregion]. split.
  - intros (o & Ho). destruct (Hregion (WeatherClean.state o)) as [Hr _].
    destruct Hr as (a & Ha & _); eauto.
  - intros (a & Ha). destruct (Hregion (Airport.iso_region a)) as [_ Hr].
    destruct Hr as (o & Ho & _); eauto.
Qed.
End WeatherProperties.

(** The example of C8 on binary64 floats: Chicago's station gets the region
    of the airport 0.5 degrees away, and not the region of the airport 2.0
    degrees away. *)
Lemma weather_survives_iff_airport_near_witness :
  let w := Sample.chicago 1 10.5%float in
  let observed (o : WeatherClean.row float) :=
    o ∈ weather_clean_query Sample.weather_source_table
          Sample.airports_source_table ∧
    WeatherClean.dt o = Weather.dt w ∧ WeatherClean.year o = Weather.year w ∧
    WeatherClean.month o = Weather.month w ∧
    WeatherClean.day o = Weather.day w ∧
    WeatherClean.city o = Weather.city w ∧
    WeatherClean.lat o = Weather.lat w ∧ WeatherClean.lon o = Weather.lon w in
  distance 41.5%float (-87.5)%float 42.0%float (-87.5)%float = 0.5%float ∧
  distance 41.5%float (-87.5)%float 43.5%float (-87.5)%float = 2.0%float ∧
  (∃ o, observed o ∧ WeatherClean.state o = Some "IL") ∧
  ¬ (∃ o, observed o ∧ WeatherClean.state o = Some "IN").
Proof.
  intros w observed.
  assert (w ∈ weather_dedup_query Sample.weather_source_table) as Hw
    by by_computation.
  destruct (weather_survives_iff_airport_near Sample.weather_source_table
              Sample.airports_source_table w Hw) as [_ Hregion].
  split; [reflexivity|]. split; [reflexivity|]. split.
  - apply Hregion. exists (Sample.airport "A" "IL" 42.0%float).
    split; [|reflexivity]. split; [|split; reflexivity].
    apply elem_of_airports_clean_query. split; [left|done].
  - intros Ho. apply Hregion in Ho as (a & (Ha & _ & Hdist) & Hs).
    apply elem_of_airports_clean_query in Ha as [Ha _].
    apply elem_of_cons in Ha as [-> | Ha]; [discriminate Hs|].
    apply list_elem_of_singleton in Ha as ->.
    vm_compute in Hdist. discriminate Hdist.
Defined.

(** *** Re-ordering the weather table *)

Lemma Permutation_elem_of {A} (l k : list A) x : l ≡ₚ k → x ∈ l ↔ x ∈ k.
Proof. intros Hp. by rewrite Hp. Qed.

Lemma sql_where_Permutation {A} (c : A → sql_bool) l k :
  l ≡ₚ k → sql_where c l ≡ₚ sql_where c k.
Proof. intros Hp. unfold sql_where. by rewrite Hp. Qed.

Lemma sql_distinct_Permutation {A} `{EqDecision A} (l k : list A) :
  l ≡ₚ k → sql_distinct l ≡ₚ sql_distinct k.
Proof.
  intros Hp. apply NoDup_Permutation; try apply NoDup_sql_distinct.
  intros x. rewrite !elem_of_sql_distinct. by apply Permutation_elem_of.
Qed.

Lemma bind_Permutation_ext {A B} (f g : A → list B) l k :
  (∀ x, f x ≡ₚ g x) → l ≡ₚ k → l ≫= f ≡ₚ k ≫= g.
Proof.
  intros Hfg Hp. rewrite <- Hp. clear k Hp.
  induction l as [|x l IH]; [done|]. rewrite !bind_cons. by rewrite IH, Hfg.
Qed.

Lemma inner_join_Permutation {A B} (on : A → B → sql_bool) l l' r r' :
  l ≡ₚ l' → r ≡ₚ r' → inner_join on l r ≡ₚ inner_join on l' r'.
Proof.
  intros Hl Hr. unfold inner_join. apply bind_Permutation_ext; [|done].
  intros x. apply bind_Permutation_ext; [done|]. by apply sql_where_Permutation.
Qed.

Section WeatherPermutation.
Context {D : Type} `{Double D}.

Lemma weather_groups_Permutation (w1 w2 : list (Weather.row D)) locs1 locs2
    k g1 g2 :
  w1 ≡ₚ w2 → locs1 ≡ₚ locs2 →
  (k, g1) ∈ weather_groups w1 locs1 → (k, g2) ∈ weather_groups w2 locs2 →
  g1 ≡ₚ g2.
Proof.
  intros Hw Hl Hg1 Hg2.
  apply elem_of_group_by in Hg1 as [_ ->].
  apply elem_of_group_by in Hg2 as [_ ->].
  apply filter_Permutation. by apply inner_join_Permutation.
Qed.

Lemma weather_inputs_Permutation (w1 w2 : list (Weather.row D)) airports :
  w1 ≡ₚ w2 →
  weather_dedup_query w1 ≡ₚ weather_dedup_query w2 ∧
  loc_state_query (tmp_loc_query (weather_dedup_query w1)) airports
  ≡ₚ loc_state_query (tmp_loc_query (weather_dedup_query w2)) airports.
Proof.
  intros Hp.
  assert (weather_dedup_query w1 ≡ₚ weather_dedup_query w2) as Hd.
  { unfold weather_dedup_query.
    by apply sql_distinct_Permutation, sql_where_Permutation. }
  split; [done|]. unfold loc_state_query.
  apply sql_distinct_Permutation, fmap_Permutation, inner_join_Permutation;
    [|done].
  unfold tmp_loc_query. by apply sql_distinct_Permutation, fmap_Permutation.
Qed.

End WeatherPermutation.

Lemma Z_avg_Permutation (xs ys : list Z) : xs ≡ₚ ys → Z_avg xs = Z_avg ys.
Proof.
  intros Hp. unfold Z_avg. rewrite (Permutation_length Hp). f_equal.
  induction Hp as [|x l l' _ IH|x y l|l l' l'' _ IH1 _ IH2]; simpl; lia.
Qed.

(** Under exact arithmetic [AVG] does not depend on the order. *)
Lemma AVG_exact_Permutation (l l' : list (option Z)) :
  l ≡ₚ l' → AVG (H:=Z_double) l = AVG (H:=Z_double) l'.
Proof.
  intros Hp. unfold AVG.
  assert (omap id l ≡ₚ omap id l') as Hp' by by rewrite Hp.
  destruct (omap id l) as [|x xs], (omap id l') as [|y ys].
  - done.
  - by apply Permutation_nil_cons in Hp'.
  - symmetry in Hp'. by apply Permutation_nil_cons in Hp'.
  - f_equal. by apply Z_avg_Permutation.
Qed.



(** ** Stage 2: demographics *)

Lemma singleton_of_NoDup {A} (l : list A) :
  NoDup l → l ≠ [] → (∀ x y, x ∈ l → y ∈ l → x = y) → ∃ x, l = [x].
Proof.
  intros Hnd Hne Heq. destruct l as [|x [|y l]]; [done|eauto|].
  assert (x = y) as -> by (apply Heq; [left|right; left]).
  apply NoDup_cons in Hnd as [Hnd _]. destruct Hnd. left.
Qed.

Section DemographicProperties.
Context {D : Type} `{Double D}.

Lemma elem_of_cities_pop_filter_query (t : list (Demo.row D)) c :
  c ∈ cities_pop_filter_query t ↔
  c ∈ t ∧ Demo.city c ≠ None ∧ Demo.state_code c ≠ None.
Proof.
  unfold cities_pop_filter_query.
  rewrite elem_of_sql_where, holds_sql_and, !holds_is_not_null. tauto.
Qed.

Lemma elem_of_race_counts (t : list (Demo.row D)) race rc :
  rc ∈ race_counts t race ↔
  ∃ c, c ∈ t ∧ Demo.race c = Some race ∧
       rc = RaceCount.mk (Demo.city c) (Demo.state c) (Demo.count c).
Proof.
  unfold race_counts. rewrite list_elem_of_fmap. split.
  - intros (c & -> & Hc). apply elem_of_sql_where in Hc as [Hr Hc].
    apply holds_sql_eq in Hr as (r & Hr & [= <-]). eauto.
  - intros (c & Hc & Hr & ->). exists c. split; [done|].
    apply elem_of_sql_where. split; [|done]. apply holds_sql_eq. eauto.
Qed.

Lemma holds_on_city_state (c : Demo.row D) rc :
  holds (on_city_state c rc) ↔
  Demo.city c ≠ None ∧ Demo.state c ≠ None ∧
  RaceCount.city rc = Demo.city c ∧ RaceCount.state rc = Demo.state c.
Proof.
  unfold on_city_state. rewrite holds_sql_and, !holds_sql_eq. split.
  - intros ((ci & -> & ->) & (st & -> & ->)). done.
  - intros (Hc & Hs & -> & ->).
    destruct (Demo.city c); [|done]. destruct (Demo.state c); [|done].
    split; eauto.
Qed.

Lemma attached_total (t : list (Demo.row D)) c race :
  ∃ o, attached t c race o.
Proof.
  destruct (sql_where (on_city_state c) (race_counts t race)) as [|rc rcs] eqn:E.
  - exists None. simpl. by apply (sql_where_nil (on_city_state c)).
  - exists (Some rc). assert (rc ∈ sql_where (on_city_state c) (race_counts t race))
      as Hin by (rewrite E; left).
    apply elem_of_sql_where in Hin. simpl. tauto.
Qed.

Lemma elem_of_cities_pop_pivot_query (t : list (Demo.row D)) r :
  r ∈ cities_pop_pivot_query t ↔
  ∃ c c1 c2 c3 c4 c5,
    c ∈ t ∧
    attached t c "American Indian and Alaska Native" c1 ∧
    attached t c "Asian" c2 ∧ attached t c "White" c3 ∧
    attached t c "Hispanic or Latino" c4 ∧
    attached t c "Black or African-American" c5 ∧
    r = {| DemoWide.city := Demo.city c;
           DemoWide.state := Demo.state c;
           DemoWide.state_code := Demo.state_code c;
           DemoWide.median_age := Demo.median_age c;
           DemoWide.male_population := Demo.male_population c;
           DemoWide.female_population := Demo.female_population c;
           DemoWide.total_population := Demo.total_population c;
           DemoWide.number_of_veterans := Demo.number_of_veterans c;
           DemoWide.foreign_born := Demo.foreign_born c;
           DemoWide.avg_household_size := Demo.avg_household_size c;
           DemoWide.american_indian_and_alaska_native := c1 ≫= RaceCount.count;
           DemoWide.asian := c2 ≫= RaceCount.count;
           DemoWide.white := c3 ≫= RaceCount.count;
           DemoWide.hispanic_or_latino := c4 ≫= RaceCount.count;
           DemoWide.black_or_african_american := c5 ≫= RaceCount.count |}.
Proof.
  unfold cities_pop_pivot_query. rewrite elem_of_sql_distinct, list_elem_of_fmap.
  split.
  - intros ([[[[[c c1] c2] c3] c4] c5] & -> & Hin).
    apply elem_of_left_join in Hin as [Hin H5].
    apply elem_of_left_join in Hin as [Hin H4].
    apply elem_of_left_join in Hin as [Hin H3].
    apply elem_of_left_join in Hin as [Hin H2].
    apply elem_of_left_join in Hin as [Hin H1].
    exists c, c1, c2, c3, c4, c5. done.
  - intros (c & c1 & c2 & c3 & c4 & c5 & Hc & H1 & H2 & H3 & H4 & H5 & ->).
    exists (c, c1, c2, c3, c4, c5). split; [done|].
    apply elem_of_left_join. split; [|exact H5].
    apply elem_of_left_join. split; [|exact H4].
    apply elem_of_left_join. split; [|exact H3].
    apply elem_of_left_join. split; [|exact H2].
    apply elem_of_left_join. split; [|exact H1]. done.
Qed.

Section Consistent.
Variable t : list (Demo.row D).
Variable c0 : Demo.row D.
Hypothesis city_known : Demo.city c0 ≠ None.
Hypothesis state_known : Demo.state c0 ≠ None.
Hypothesis one_count : ∀ c c',
  c ∈ t → c' ∈ t → same_city_state c0 c → same_city_state c0 c' →
  Demo.race c = Demo.race c' →
  Demo.race c ∈ Some <$> pivot_races → Demo.count c = Demo.count c'.

Lemma attached_source_count c race o :
  c ∈ t → same_city_state c0 c → race ∈ pivot_races → attached t c race o →
  source_count t c race (o ≫= RaceCount.count).
Proof.
  intros Hc [Hc0 Hs0] Hrace Ho. split.
  - intros c' Hc' [Hcity Hstate] Hr. destruct o as [rc|]; simpl in *.
    + destruct Ho as [Hrc Hon].
      apply elem_of_race_counts in Hrc as (c'' & Hc'' & Hr'' & ->).
      apply holds_on_city_state in Hon as (_ & _ & Hci & Hst). simpl in *.
      apply one_count; try done.
      * split; congruence.
      * split; congruence.
      * congruence.
      * rewrite Hr''. exact (list_elem_of_fmap_2 Some pivot_races race Hrace).
    + exfalso. apply (Ho (RaceCount.mk (Demo.city c') (Demo.state c')
                            (Demo.count c'))).
      * apply elem_of_race_counts. eauto.
      * apply holds_on_city_state. simpl. rewrite <- Hc0, <- Hs0.
        split_and!; congruence.
  - intros Hnone. destruct o as [rc|]; [|done]. simpl in *.
    destruct Ho as [Hrc Hon].
    apply elem_of_race_counts in Hrc as (c'' & Hc'' & Hr'' & ->).
    apply holds_on_city_state in Hon as (_ & _ & Hci & Hst). simpl in *.
    destruct (Hnone c'' Hc''); [by split|done].
Qed.

Lemma source_count_unique c c' race v v' :
  c ∈ t → c' ∈ t → same_city_state c0 c → same_city_state c0 c' →
  race ∈ pivot_races →
  (∃ o, attached t c race o ∧ v = o ≫= RaceCount.count) →
  (∃ o, attached t c' race o ∧ v' = o ≫= RaceCount.count) →
  v = v'.
Proof.
  intros Hc Hc' [Hcity Hstate] [Hcity' Hstate'] Hrace
    (o & Ho & ->) (o' & Ho' & ->).
  destruct o as [rc|], o' as [rc'|]; simpl in *; [| | |done].
  - destruct Ho as [Hrc Hon], Ho' as [Hrc' Hon'].
    apply elem_of_race_counts in Hrc as (d & Hd & Hr & ->).
    apply elem_of_race_counts in Hrc' as (d' & Hd' & Hr' & ->).
    apply holds_on_city_state in Hon as (_ & _ & Hci & Hst).
    apply holds_on_city_state in Hon' as (_ & _ & Hci' & Hst').
    simpl in *. apply one_count; try done.
    + split; congruence.
    + split; congruence.
    + congruence.
    + rewrite Hr. exact (list_elem_of_fmap_2 Some pivot_races race Hrace).
  - destruct Ho as [Hrc Hon]. destruct (Ho' rc Hrc).
    apply holds_on_city_state in Hon as (_ & _ & Hci & Hst).
    apply holds_on_city_state. rewrite <- Hcity', <- Hstate'.
    split_and!; congruence.
  - destruct Ho' as [Hrc Hon]. destruct (Ho rc' Hrc).
    apply holds_on_city_state in Hon as (_ & _ & Hci & Hst).
    apply holds_on_city_state. rewrite <- Hcity, <- Hstate.
    split_and!; congruence.
Qed.
End Consistent.
End DemographicProperties.


Section Pivot.
Context {D : Type} `{Double D}.

Lemma source_count_same_city_state (t : list (Demo.row D)) c c' race v :
  same_city_state c c' → source_count t c' race v → source_count t c race v.
Proof.
  intros [Hcity Hstate] [Hsome Hnone]. split.
  - intros d Hd [Hc Hs] Hr. apply Hsome; [done| |done]. split; congruence.
  - intros Hno. apply Hnone. intros d Hd [Hc Hs]. apply Hno; [done|].
    split; congruence.
Qed.

(** X22: the pivot on a city whose rows are consistent: when the state
    of the row [c] is known and the rows of its city and state agree on
    the statistics of the city and hold one count per race, the pivoted
    table has exactly one row for that city and state, and each race
    column of that row is the count of the source for that race, or NULL
    when the source has no row of that race.  Nothing is asked of the
    other cities. *)
Theorem cities_pop_pivot_one_row
    (cities_pop_source_table : list (Demo.row D)) (c : Demo.row D) :
  let t := cities_pop_filter_query cities_pop_source_table in
  c ∈ t →
  Demo.state c ≠ None →
  (∀ c', c' ∈ t → same_city_state c c' → same_statistics c c') →
  (∀ c' c'', c' ∈ t → c'' ∈ t →
             same_city_state c c' → same_city_state c c'' →
             Demo.race c' = Demo.race c'' →
             Demo.race c' ∈ Some <$> pivot_races →
             Demo.count c' = Demo.count c'') →
  ∃ r,
    filter (λ r, DemoWide.city r = Demo.city c ∧ DemoWide.state r = Demo.state c)
      (cities_pop_clean_query cities_pop_source_table) = [r] ∧
    source_count t c "American Indian and Alaska Native"
      (DemoWide.american_indian_and_alaska_native r) ∧
    source_count t c "Asian" (DemoWide.asian r) ∧
    source_count t c "White" (DemoWide.white r) ∧
    source_count t c "Hispanic or Latino" (DemoWide.hispanic_or_latino r) ∧
    source_count t c "Black or African-American"
      (DemoWide.black_or_african_american r).
Proof.
  intros t Hc Hstate Hstats Hcount.
  assert (Demo.city c ≠ None) as Hcity.
  { apply elem_of_cities_pop_filter_query in Hc. tauto. }
  set (rows := filter (λ r, DemoWide.city r = Demo.city c
                            ∧ DemoWide.state r = Demo.state c)
                 (cities_pop_clean_query cities_pop_source_table)).
  assert (∀ r, r ∈ rows ↔
            r ∈ cities_pop_pivot_query t ∧
            DemoWide.city r = Demo.city c ∧ DemoWide.state r = Demo.state c)
    as Hrows.
  { intros r. unfold rows. rewrite list_elem_of_filter.
    unfold cities_pop_clean_query. fold t. tauto. }
  assert (∃ r, rows = [r]) as [r Hr].
  { apply singleton_of_NoDup.
    - apply NoDup_filter, NoDup_sql_distinct.
    - destruct (attached_total t c "American Indian and Alaska Native") as [c1 H1].
      destruct (attached_total t c "Asian") as [c2 H2].
      destruct (attached_total t c "White") as [c3 H3].
      destruct (attached_total t c "Hispanic or Latino") as [c4 H4].
      destruct (attached_total t c "Black or African-American") as [c5 H5].
      intros Hnil.
      assert (∃ r, r ∈ rows) as [r Hr]; [|rewrite Hnil in Hr; by apply elem_of_nil in Hr].
      eexists. apply Hrows. split.
      * apply elem_of_cities_pop_pivot_query.
        exists c, c1, c2, c3, c4, c5. done.
      * done.
    - intros r1 r2 Hr1 Hr2.
      apply Hrows in Hr1 as (Hr1 & Hc1 & Hs1).
      apply Hrows in Hr2 as (Hr2 & Hc2 & Hs2).
      apply elem_of_cities_pop_pivot_query in Hr1
        as (d & a1 & a2 & a3 & a4 & a5 & Hd & A1 & A2 & A3 & A4 & A5 & ->).
      apply elem_of_cities_pop_pivot_query in Hr2
        as (e & b1 & b2 & b3 & b4 & b5 & He & B1 & B2 & B3 & B4 & B5 & ->).
      cbn in Hc1, Hs1, Hc2, Hs2.
      assert (same_city_state c d) as Hcd by (split; congruence).
      assert (same_city_state c e) as Hce by (split; congruence).
      assert (∀ race a b, race ∈ pivot_races →
                attached t d race a → attached t e race b →
                a ≫= RaceCount.count = b ≫= RaceCount.count) as Huniq.
      { intros race a b Hrace Ha Hb.
        apply (source_count_unique t c Hcity Hstate Hcount d e race); eauto. }
      destruct (Hstats d Hd Hcd) as (? & ? & ? & ? & ? & ? & ? & ?).
      destruct (Hstats e He Hce) as (? & ? & ? & ? & ? & ? & ? & ?).
      destruct Hcd as [? ?], Hce as [? ?].
      f_equal; try congruence;
        (eapply Huniq; [|eassumption|eassumption]);
        unfold pivot_races; repeat (first [left | right]). }
  exists r. split; [exact Hr|].
  assert (r ∈ rows) as Hin by (rewrite Hr; left).
  apply Hrows in Hin as (Hin & Hc1 & Hs1).
  apply elem_of_cities_pop_pivot_query in Hin
    as (d & a1 & a2 & a3 & a4 & a5 & Hd & A1 & A2 & A3 & A4 & A5 & ->).
  cbn in Hc1, Hs1. cbn.
  assert (same_city_state c d) as Hcd by (split; congruence).
  assert (∀ race a, race ∈ pivot_races → attached t d race a →
            source_count t c race (a ≫= RaceCount.count)) as Hcol.
  { intros race a Hrace Ha. apply (source_count_same_city_state t c d); [done|].
    apply (attached_source_count t c Hcity Hstate Hcount); done. }
  repeat apply conj;
    try (eapply Hcol; [|eassumption]; unfold pivot_races;
         repeat (first [left | right])).
Qed.
End Pivot.

Ltac split_elem_of H :=
  repeat (apply elem_of_cons in H as [-> | H]); [..| by apply elem_of_nil in H].

Lemma cities_pop_pivot_one_row_witness :
  let c := Sample.chicago_population 2720000 "Asian" 500 in
  let t := cities_pop_filter_query Sample.demographic in
  ∃ r,
    filter (λ r, DemoWide.city r = Demo.city c ∧ DemoWide.state r = Demo.state c)
      (cities_pop_clean_query Sample.demographic) = [r] ∧
    source_count t c "American Indian and Alaska Native"
      (DemoWide.american_indian_and_alaska_native r) ∧
    source_count t c "Asian" (DemoWide.asian r) ∧
    source_count t c "White" (DemoWide.white r) ∧
    source_count t c "Hispanic or Latino" (DemoWide.hispanic_or_latino r) ∧
    source_count t c "Black or African-American"
      (DemoWide.black_or_african_american r).
Proof.
  assert (cities_pop_filter_query Sample.demographic = Sample.demographic) as Hf
    by (vm_compute; reflexivity).
  apply (cities_pop_pivot_one_row Sample.demographic
           (Sample.chicago_population 2720000 "Asian" 500)); rewrite ?Hf.
  - left.
  - discriminate.
  - intros c' Hc' _. split_elem_of Hc'; repeat split.
  - intros c' c'' Hc' Hc'' _ _ Hrace _.
    split_elem_of Hc'; split_elem_of Hc''; done || discriminate Hrace.
Defined.

(** C2: the pivot does not drop the rows with a duplicate combination of
    city and state code.  On a source that holds two figures for the total
    population of one city, the pivoted table has two rows for that city and
    state, of the same city and state code. *)
Lemma cities_pop_pivot_two_rows :
  let c := Sample.chicago_population 2720000 "Asian" 500 in
  c ∈ cities_pop_filter_query Sample.demographic_two_totals ∧
  length
    (filter (λ r, DemoWide.city r = Demo.city c ∧ DemoWide.state r = Demo.state c)
       (cities_pop_clean_query Sample.demographic_two_totals)) = 2%nat ∧
  (λ r, (DemoWide.city r, DemoWide.state_code r, DemoWide.total_population r))
    <$> cities_pop_clean_query Sample.demographic_two_totals
  = [ (Some "CHICAGO", Some "IL", Some 2720000);
      (Some "CHICAGO", Some "IL", Some 2720001) ].
Proof. split; [left|split; vm_compute; reflexivity]. Qed.

(** ** The calendar *)

Lemma forall_from_spec (P : Z → bool) n z0 :
  forall_from P n z0 = true → ∀ z, z0 ≤ z < z0 + Z.of_nat n → P z = true.
Proof.
  revert z0. induction n as [|n IH]; intros z0 Hall z Hz; [lia|].
  cbn [forall_from] in Hall. apply andb_true_iff in Hall as [Hz0 Hall].
  destruct (decide (z = z0)) as [->|Hne]; [done|].
  apply (IH (z0 + 1)); [done|lia].
Qed.

Lemma eqb_day_eq a b : eqb_day a b = true → a = b.
Proof.
  destruct a as [[y m] d], b as [[y' m'] d']. unfold eqb_day. cbn.
  rewrite !andb_true_iff, !Z.eqb_eq. intros [[-> ->] ->]. done.
Qed.

Lemma civil_from_days_shift z k :
  civil_from_days (z + k * 146097) = shift_years k (civil_from_days z).
Proof.
  unfold civil_from_days, shift_years. cbv zeta.
  replace (z + k * 146097 + 719468) with (z + 719468 + k * 146097) by lia.
  rewrite Z.div_add by lia.
  replace (z + 719468 + k * 146097 - ((z + 719468) / 146097 + k) * 146097)
    with (z + 719468 - (z + 719468) / 146097 * 146097) by lia.
  set (doe := z + 719468 - (z + 719468) / 146097 * 146097).
  set (yoe := (doe - doe / 1460 + doe / 36524 - doe / 146096) / 365).
  set (doy := doe - (365 * yoe + yoe / 4 - yoe / 100)).
  set (mp := (5 * doy + 2) / 153).
  destruct ((if mp <? 10 then mp + 3 else mp - 9) <=? 2); cbn; f_equal; f_equal; lia.
Qed.

Lemma days_from_civil_shift y m d k :
  days_from_civil (y + 400 * k) m d = days_from_civil y m d + k * 146097.
Proof.
  unfold days_from_civil. cbv zeta.
  replace (if m <=? 2 then y + 400 * k - 1 else y + 400 * k)
    with ((if m <=? 2 then y - 1 else y) + k * 400)
    by (destruct (m <=? 2); lia).
  set (y' := if m <=? 2 then y - 1 else y).
  rewrite Z.div_add by lia.
  replace (y' + k * 400 - (y' / 400 + k) * 400) with (y' - y' / 400 * 400) by lia.
  lia.
Qed.

Lemma is_leap_year_shift y k : is_leap_year (y + 400 * k) = is_leap_year y.
Proof.
  unfold is_leap_year.
  replace (y + 400 * k) with (y + (100 * k) * 4) at 1 by lia.
  replace (y + 400 * k) with (y + (4 * k) * 100) at 1 by lia.
  replace (y + 400 * k) with (y + k * 400) by lia.
  by rewrite !Z_mod_plus_full.
Qed.

Lemma days_in_month_shift y m k :
  days_in_month (y + 400 * k) m = days_in_month y m.
Proof. unfold days_in_month. by rewrite is_leap_year_shift. Qed.

Lemma next_day_shift k c : next_day (shift_years k c) = shift_years k (next_day c).
Proof.
  destruct c as [[y m] d]. unfold next_day, shift_years. cbn [fst snd].
  rewrite days_in_month_shift.
  destruct (d <? days_in_month y m); [done|].
  destruct (m <? 12); cbn; f_equal; f_equal; lia.
Qed.

Lemma valid_day_shift k c : valid_day (shift_years k c) = valid_day c.
Proof.
  destruct c as [[y m] d]. unfold valid_day, shift_years. cbn [fst snd].
  by rewrite days_in_month_shift.
Qed.

(** A day count is a day of the period from 0 on, some periods away. *)
Lemma day_of_period z :
  ∃ k r, z = r + k * 146097 ∧ 0 ≤ r < 0 + Z.of_nat (Z.to_nat 146097).
Proof.
  exists (z / 146097), (z mod 146097).
  pose proof (Z.div_mod z 146097). pose proof (Z.mod_pos_bound z 146097). lia.
Qed.

(** A Monday is a Monday of the period from day 4 on, some periods away. *)
Lemma monday_of_period z :
  (z + 4) mod 7 + 1 = 2 →
  ∃ k j, z = 4 + 7 * j + k * 146097 ∧ 0 ≤ j < 0 + Z.of_nat (Z.to_nat 20871).
Proof.
  intros Hdow. exists ((z - 4) / 7 / 20871), ((z - 4) / 7 mod 20871).
  pose proof (Z.div_mod (z + 4) 7). pose proof (Z.mod_pos_bound (z + 4) 7).
  pose proof (Z.div_mod (z - 4) 7). pose proof (Z.mod_pos_bound (z - 4) 7).
  pose proof (Z.div_mod ((z - 4) / 7) 20871).
  pose proof (Z.mod_pos_bound ((z - 4) / 7) 20871). lia.
Qed.

Lemma dayofweek_of_shift z k : dayofweek_of (z + k * 146097) = dayofweek_of z.
Proof.
  unfold dayofweek_of.
  replace (z + k * 146097 + 4) with (z + 4 + (k * 20871) * 7) by lia.
  by rewrite Z_mod_plus_full.
Qed.

Lemma weekofyear_of_shift z k : weekofyear_of (z + k * 146097) = weekofyear_of z.
Proof.
  unfold weekofyear_of. cbv zeta.
  replace (z + k * 146097 + 3) with (z + 3 + (k * 20871) * 7) by lia.
  rewrite Z_mod_plus_full.
  set (iso_dow := (z + 3) mod 7 + 1).
  replace (z + k * 146097 - iso_dow + 4) with (z - iso_dow + 4 + k * 146097) by lia.
  unfold year_of. rewrite civil_from_days_shift. unfold shift_years. cbn [fst snd].
  rewrite days_from_civil_shift. f_equal. f_equal. lia.
Qed.

Lemma has_4_january_shift z k :
  has_4_january civil_from_days (z + k * 146097)
  = has_4_january civil_from_days z.
Proof.
  unfold has_4_january. cbn [existsb].
  repeat (match goal with
          | |- context [civil_from_days (z + k * 146097 + ?i)] =>
            replace (z + k * 146097 + i) with (z + i + k * 146097) by lia;
            rewrite (civil_from_days_shift (z + i) k)
          end).
  unfold shift_years.
  repeat (match goal with
          | |- context [civil_from_days ?x] =>
            destruct (civil_from_days x) as [[? ?] ?]
          end).
  reflexivity.
Qed.

(** From Tuesday to Sunday the week is the week of the day before. *)
Lemma weekofyear_of_within_week z :
  dayofweek_of z ≠ 2 → weekofyear_of z = weekofyear_of (z - 1).
Proof.
  unfold dayofweek_of, weekofyear_of. cbv zeta. intros Hdow.
  assert ((z - 1 + 3) mod 7 = (z + 3) mod 7 - 1) as ->.
  { revert Hdow. Z.div_mod_to_equations. lia. }
  replace (z - 1 - ((z + 3) mod 7 - 1 + 1) + 4)
    with (z - ((z + 3) mod 7 + 1) + 4) by lia.
  reflexivity.
Qed.

Section Period.
Hypothesis calendar_checked :
  forall_from (calendar_step civil_from_days) (Z.to_nat 146097) 0 = true.
Hypothesis mondays_checked :
  forall_from (monday_step civil_from_days weekofyear_of) (Z.to_nat 20871) 0
  = true.

Lemma gregorian_calendar_of_period : gregorian_calendar civil_from_days.
Proof.
  split; [reflexivity|]. intros z.
  destruct (day_of_period z) as (k & r & -> & Hr).
  pose proof (forall_from_spec _ _ _ calendar_checked r Hr) as Hstep.
  apply andb_true_iff in Hstep as [Hvalid Hnext]. apply eqb_day_eq in Hnext.
  replace (r + k * 146097 + 1) with (r + 1 + k * 146097) by lia.
  rewrite !civil_from_days_shift, valid_day_shift, next_day_shift, Hnext.
  split; [exact Hvalid|reflexivity].
Qed.

Lemma iso_8601_weeks_of_period :
  iso_8601_weeks civil_from_days dayofweek_of weekofyear_of.
Proof.
  intros z. destruct (dayofweek_of z =? 2) eqn:Hdow.
  - apply Z.eqb_eq in Hdow. unfold dayofweek_of in Hdow.
    destruct (monday_of_period z Hdow) as (k & j & -> & Hj).
    pose proof (forall_from_spec _ _ _ mondays_checked j Hj) as Hstep.
    apply Z.eqb_eq in Hstep. cbv zeta in Hstep.
    replace (4 + 7 * j + k * 146097 - 1) with (4 + 7 * j - 1 + k * 146097)
      by lia.
    rewrite !weekofyear_of_shift, has_4_january_shift. exact Hstep.
  - apply Z.eqb_neq in Hdow. exact (weekofyear_of_within_week z Hdow).
Qed.
End Period.

Lemma dayofweek_of_days_of_week : days_of_week dayofweek_of.
Proof.
  split; [reflexivity|]. intros z. unfold dayofweek_of.
  pose proof (Z.mod_pos_bound (z + 4) 7).
  split; [lia|].
  destruct ((z + 4) mod 7 + 1 =? 7) eqn:E.
  - apply Z.eqb_eq in E.
    replace (z + 1 + 4) with (z + 4 + 1) by lia.
    rewrite <- Zplus_mod_idemp_l. replace ((z + 4) mod 7) with 6 by lia. done.
  - apply Z.eqb_neq in E.
    replace (z + 1 + 4) with (z + 4 + 1) by lia.
    rewrite <- Zplus_mod_idemp_l. rewrite Z.mod_small by lia. done.
Qed.

(** The period of 400 years, checked day by day. *)
Lemma civil_from_days_gregorian : gregorian_calendar civil_from_days.
Proof.
  apply gregorian_calendar_of_period. vm_cast_no_check (eq_refl true).
Qed.

Lemma weekofyear_of_iso_8601 :
  iso_8601_weeks civil_from_days dayofweek_of weekofyear_of.
Proof.
  apply iso_8601_weeks_of_period. vm_cast_no_check (eq_refl true).
Qed.

(** ** Stage 3: the time dimension *)

Lemma time_row_dt d : DimTime.dt (time_row d) = d.
Proof. reflexivity. Qed.

Section TimeDimension.
Context {D : Type} `{Double D}.

Lemma elem_of_dim_time_query (i94 : list I94.row)
    (weather : list (WeatherClean.row D)) t :
  t ∈ dim_time_query i94 weather ↔
  ∃ d, t = time_row d ∧
    (d ∈ I94.arr_date <$> i94 ∨
     (d ≠ None ∧ d ∈ I94.dep_date <$> i94) ∨
     d ∈ WeatherClean.dt <$> weather).
Proof.
  unfold dim_time_query.
  rewrite !elem_of_sql_union, !elem_of_sql_distinct, !list_elem_of_fmap. split.
  - intros [[(i & -> & Hi) | (i & -> & Hi)] | (w & -> & Hw)]; eexists;
      (split; [reflexivity|]).
    + left. apply list_elem_of_fmap. eauto.
    + apply elem_of_sql_where in Hi as [Hd Hi].
      apply holds_is_not_null in Hd.
      right; left. split; [done|]. apply list_elem_of_fmap. eauto.
    + right; right. apply list_elem_of_fmap. eauto.
  - intros (d & -> & [Hd | [[Hn Hd] | Hd]]);
      apply list_elem_of_fmap in Hd as (x & -> & Hx).
    + left; left. eauto.
    + left; right. exists x. split; [done|].
      apply elem_of_sql_where. split; [|done]. by apply holds_is_not_null.
    + right. eauto.
Qed.

End TimeDimension.

Lemma fmap_nil_iff {A B} (f : A → B) (l : list A) : f <$> l = [] ↔ l = [].
Proof. by destruct l. Qed.

(** ** Running a computation *)

Section Run.
Context {D : Type}.

Lemma run_bind {A B} (m : M D A) (f : A → M D B) σ :
  (m ≫= f) σ = match m σ with Some (x, σ') => f x σ' | None => None end.
Proof. reflexivity. Qed.

End Run.

(** One step of a computation: the binds and the effects on the console and
    on the lake are unfolded, reads are left to [run_read_i94] and the
    like. *)
Ltac run :=
  cbv beta iota zeta delta [mbind M_bind mret M_ret print write_parquet];
  cbn [lake stdout].

(** ** The quality gate *)

Section QualityGate.
Context {D : Type} `{Double D}.

Lemma holds_same_month (f : Fact.row D) (t : DimTime.row) :
  holds (same_month f t) ↔
  ∃ a d, Event.arr_date (Fact.base f) = Some a ∧ DimTime.dt t = Some d ∧
         year_of a = year_of d ∧ month_of a = month_of d.
Proof.
  unfold same_month. rewrite holds_sql_and, !holds_sql_eq. unfold YEAR, MONTH.
  split.
  - intros [(y & Hy & Hy') (m & Hm & Hm')].
    destruct (Event.arr_date (Fact.base f)) as [a|]; [|done].
    destruct (DimTime.dt t) as [d|]; [|done].
    simpl in *. exists a, d. repeat split; congruence.
  - intros (a & d & -> & -> & Hy & Hm). simpl. rewrite Hy, Hm. split; eauto.
Qed.

(** The check query is empty when every fact row has a [dim_time] row of
    its month. *)
Lemma check_query_nil (fact : list (Fact.row D)) (dim_time : list DimTime.row) :
  check_query fact dim_time = [] ↔
  ∀ f, f ∈ fact → ∃ t, t ∈ dim_time ∧ holds (same_month f t).
Proof.
  unfold check_query. rewrite fmap_nil_iff, sql_where_nil. split.
  - intros Hall f Hf.
    destruct (left_join_total same_month fact dim_time f Hf) as [o Ho].
    pose proof (Hall _ Ho) as Hnot. rewrite holds_is_null in Hnot.
    apply elem_of_left_join in Ho as [_ Ho].
    destruct o as [t|]; [eauto|done].
  - intros Hcov [f o] Ho Hnull. apply holds_is_null in Hnull.
    apply elem_of_left_join in Ho as [Hf Ho]. destruct o as [t|].
    + destruct Ho as [_ Hon]. apply holds_same_month in Hon
        as (a & d & _ & Hd & _). simpl in Hnull. congruence.
    + destruct (Hcov f Hf) as (t & Ht & Hon). by destruct (Ho t Ht).
Qed.

Lemma check_model_quality_run (fact : list (Fact.row D)) dim_cities dim_time σ :
  ∃ lines,
    check_model_quality (fact, dim_cities, dim_time) σ
    = Some (bool_decide (fact ≠ [] ∧ dim_cities ≠ [] ∧ dim_time ≠ [] ∧
                         check_query fact dim_time = []),
            World (lake σ) (stdout σ ++ lines)).
Proof.
  assert (∀ A (l : list A), bool_decide (COUNT l = 0) = bool_decide (l = []))
    as Hcount.
  { intros A l. apply bool_decide_ext. unfold COUNT. destruct l; simpl; [done|].
    split; [lia|done]. }
  assert (∀ A (l : list A), bool_decide (COUNT l > 0) = bool_decide (l ≠ []))
    as Hpos.
  { intros A l. apply bool_decide_ext. unfold COUNT. destruct l; simpl; [|].
    - split; [lia|done].
    - split; [done|lia]. }
  assert (bool_decide (fact ≠ [] ∧ dim_cities ≠ [] ∧ dim_time ≠ [] ∧
                       check_query fact dim_time = [])
          = negb (bool_decide (fact = [])) && negb (bool_decide (dim_cities = []))
            && negb (bool_decide (dim_time = []))
            && negb (bool_decide (check_query fact dim_time ≠ []))) as ->.
  { repeat case_bool_decide; cbn [negb andb]; first [done | exfalso; tauto]. }
  unfold check_model_quality. cbn [fst snd]. rewrite !Hcount, Hpos. run.
  destruct (bool_decide (fact = [])), (bool_decide (dim_cities = [])),
    (bool_decide (dim_time = [])),
    (bool_decide (check_query fact dim_time ≠ []));
    cbn [orb negb andb]; run; rewrite <- ?app_assoc; eauto.
Qed.

(** C4: the gate prints, leaves the lake as it is and returns [false]
    when one of the three tables is empty, [false] when a fact row has no
    [dim_time] row of the year and month of its arrival, and [true]
    otherwise. *)
Theorem check_model_quality_verdict
    (fact_i94_history : list (Fact.row D)) (dim_cities : list (DimCity.row D))
    (dim_time : list DimTime.row) (σ : world D) :
  let covered (f : Fact.row D) :=
    ∃ t a d, t ∈ dim_time ∧
      Event.arr_date (Fact.base f) = Some a ∧ DimTime.dt t = Some d ∧
      year_of a = year_of d ∧ month_of a = month_of d in
  ∃ check_res σ',
    check_model_quality (fact_i94_history, dim_cities, dim_time) σ
    = Some (check_res, σ') ∧
    lake σ' = lake σ ∧
    (fact_i94_history = [] ∨ dim_cities = [] ∨ dim_time = [] →
     check_res = false) ∧
    ((∃ f, f ∈ fact_i94_history ∧ ¬ covered f) → check_res = false) ∧
    (fact_i94_history ≠ [] → dim_cities ≠ [] → dim_time ≠ [] →
     (∀ f, f ∈ fact_i94_history → covered f) → check_res = true).
Proof.
  intros covered.
  destruct (check_model_quality_run fact_i94_history dim_cities dim_time σ)
    as [lines Hrun].
  assert (check_query fact_i94_history dim_time = [] ↔
          ∀ f, f ∈ fact_i94_history → covered f) as Hq.
  { rewrite check_query_nil. unfold covered.
    split; intros Hcov f Hf; destruct (Hcov f Hf) as (t & Ht).
    - destruct Ht as [Ht Hon]. apply holds_same_month in Hon as (a & d & Hon).
      exists t, a, d. tauto.
    - destruct Ht as (a & d & Ht & Hon). exists t. split; [done|].
      apply holds_same_month. eauto. }
  eexists _, _. split; [exact Hrun|]. split; [done|]. split; [|split].
  - intros Hempty. apply bool_decide_eq_false_2. tauto.
  - intros (f & Hf & Hno). apply bool_decide_eq_false_2.
    intros (_ & _ & _ & Hnil). apply Hno, Hq; done.
  - intros Hf Hc Ht Hcov. apply bool_decide_eq_true_2. tauto.
Qed.
End QualityGate.

(** ** [build_data_model] *)

Section BuildDataModelProperties.
Context {D : Type} `{Double D}.

Lemma run_read_i94 path t (σ : world D) :
  lake σ !! path = Some (I94Data t) → read_i94 path σ = Some (t, σ).
Proof. intros Hp. unfold read_i94, read_parquet. rewrite run_bind, Hp. done. Qed.

Lemma run_read_demographic path t (σ : world D) :
  lake σ !! path = Some (DemographicData t) →
  read_demographic path σ = Some (t, σ).
Proof.
  intros Hp. unfold read_demographic, read_parquet. rewrite run_bind, Hp. done.
Qed.

Lemma run_read_weather path t (σ : world D) :
  lake σ !! path = Some (WeatherData t) → read_weather path σ = Some (t, σ).
Proof.
  intros Hp. unfold read_weather, read_parquet. rewrite run_bind, Hp. done.
Qed.

Lemma run_read_airports path t (σ : world D) :
  lake σ !! path = Some (AirportData t) → read_airports path σ = Some (t, σ).
Proof.
  intros Hp. unfold read_airports, read_parquet. rewrite run_bind, Hp. done.
Qed.

(** A table with a row is there after its write. *)
Lemma store_FactData path (t : list (Fact.row D)) m :
  t ≠ [] → store path (FactData t) m = <[path := FactData t]> m.
Proof. by destruct t. Qed.

Lemma store_DimCityData path (t : list (DimCity.row D)) m :
  t ≠ [] → store path (DimCityData t) m = <[path := DimCityData t]> m.
Proof. by destruct t. Qed.

Lemma store_DimTimeData path (t : list DimTime.row)
    (m : gmap string (dataset D)) :
  t ≠ [] → store path (DimTimeData t) m = <[path := DimTimeData t]> m.
Proof. by destruct t. Qed.

Lemma check_model_quality_same_verdict
    (model_data : list (Fact.row D) * list (DimCity.row D) * list DimTime.row)
    (σ1 σ2 : world D) :
  fst <$> check_model_quality model_data σ1
  = fst <$> check_model_quality model_data σ2.
Proof.
  destruct model_data as [[fact dim_cities] dim_time].
  destruct (check_model_quality_run fact dim_cities dim_time σ1) as [l1 ->].
  destruct (check_model_quality_run fact dim_cities dim_time σ2) as [l2 ->].
  done.
Qed.

(** C5: with the four preprocessed tables in the lake, [build_data_model]
    returns; when the gate returns [false] the lake is left as it was and
    the last line on the console is the error message; when the gate
    returns [true] the lake is the former lake with the three analytical
    tables written, and each of the three is there to read. *)
Theorem build_data_model_all_or_nothing (output_data : string) (σ : world D)
    (i94 : list I94.row) (demographic : list (DemoWide.row D))
    (weather : list (WeatherClean.row D)) (airports : list (Airport.row D)) :
  lake σ !! (output_data +:+ "preprocessed/i94/i94_records.parquet")
    = Some (I94Data i94) →
  lake σ !! (output_data +:+ "preprocessed/demographic/demographic.parquet")
    = Some (DemographicData demographic) →
  lake σ !! (output_data +:+ "preprocessed/weather/weather.parquet")
    = Some (WeatherData weather) →
  lake σ !! (output_data +:+ "preprocessed/airports/airports.parquet")
    = Some (AirportData airports) →
  let fact := fact_i94_history_query i94 weather in
  let dim_cities := dim_cities_query demographic airports in
  let dim_time := dim_time_query i94 weather in
  let fact_path :=
    output_data +:+ "analytics/fact_i94_history/fact_i94_history.parquet" in
  let dim_cities_path :=
    output_data +:+ "analytics/dim_cities/dim_cities.parquet" in
  let dim_time_path := output_data +:+ "analytics/dim_time/dim_time.parquet" in
  ∃ (check_res : bool) σ',
    build_data_model output_data σ = Some (tt, σ') ∧
    (∀ σ0, fst <$> check_model_quality (fact, dim_cities, dim_time) σ0
           = Some check_res) ∧
    (∃ lines, stdout σ' = (stdout σ ++ lines)%list) ∧
    if check_res then
      lake σ' = <[dim_time_path := DimTimeData dim_time]>
                  (<[dim_cities_path := DimCityData dim_cities]>
                     (<[fact_path := FactData fact]> (lake σ))) ∧
      lake σ' !! fact_path = Some (FactData fact) ∧
      lake σ' !! dim_cities_path = Some (DimCityData dim_cities) ∧
      lake σ' !! dim_time_path = Some (DimTimeData dim_time)
    else
      lake σ' = lake σ ∧
      last (stdout σ')
      = Some "ERROR! Quality checks on the data model have failed!!!".
Proof.
  intros Hi94 Hdemo Hweather Hairports fact dim_cities dim_time
    fact_path dim_cities_path dim_time_path.
  unfold build_data_model. run.
  rewrite (run_read_i94 _ i94) by exact Hi94. run.
  rewrite (run_read_demographic _ demographic) by exact Hdemo. run.
  rewrite (run_read_weather _ weather) by exact Hweather. run.
  rewrite (run_read_airports _ airports) by exact Hairports. run.
  fold fact dim_cities dim_time.
  match goal with
  | |- context [check_model_quality _ ?σ1] =>
    destruct (check_model_quality_run fact dim_cities dim_time σ1)
      as [lines Hrun];
    pose proof (check_model_quality_same_verdict
                  (fact, dim_cities, dim_time) σ1) as Hsame;
    rewrite Hrun in *
  end.
  cbn [fmap option_fmap option_map fst] in Hsame.
  destruct (decide (fact ≠ [] ∧ dim_cities ≠ [] ∧ dim_time ≠ [] ∧
                    check_query fact dim_time = [])) as [Hpass|Hfail];
    [rewrite bool_decide_eq_true_2 in * by done; exists true
    |rewrite bool_decide_eq_false_2 in * by done; exists false].
  - destruct Hpass as (Hfact & Hcities & Htime & _). run.
    rewrite store_FactData, store_DimCityData, store_DimTimeData by done.
    eexists. split; [reflexivity|]. split; [by intros σ0; rewrite <- Hsame|].
    cbn [lake stdout]. split; [rewrite <- !app_assoc; eauto|].
    fold fact_path dim_cities_path dim_time_path.
    assert (fact_path ≠ dim_cities_path ∧ fact_path ≠ dim_time_path
            ∧ dim_cities_path ≠ dim_time_path) as (Hfc & Hft & Hct).
    { unfold fact_path, dim_cities_path, dim_time_path.
      repeat split; intros Heq; apply (inj (String.app output_data)) in Heq;
        discriminate Heq. }
    split; [done|]. split; [|split].
    + rewrite !lookup_insert_ne by done. apply lookup_insert_eq.
    + rewrite lookup_insert_ne by done. apply lookup_insert_eq.
    + apply lookup_insert_eq.
  - run. eexists. split; [reflexivity|]. split; [by intros σ0; rewrite <- Hsame|].
    cbn [lake stdout]. split; [rewrite <- !app_assoc; eauto|].
    split; [done|]. apply last_snoc.
Qed.
End BuildDataModelProperties.

(** ** The fact table *)

Section FactTable.
Context {D : Type} `{Double D}.

Lemma elem_of_event_query (i94 : list I94.row) e :
  e ∈ event_query i94 →
  ∃ i, i ∈ i94 ∧ Event.arr_date e = I94.arr_date i.
Proof.
  unfold event_query. intros He.
  apply list_elem_of_fmap in He as (i & -> & Hi). eauto.
Qed.

Lemma elem_of_fact_i94_history_query (i94 : list I94.row)
    (weather : list (WeatherClean.row D)) f :
  f ∈ fact_i94_history_query i94 weather → Fact.base f ∈ event_query i94.
Proof.
  unfold fact_i94_history_query, fact_weather_query. intros Hf.
  apply list_elem_of_fmap in Hf as ([e o] & -> & Hin).
  by apply left_join_fst in Hin.
Qed.

Lemma fact_i94_history_base (i94 : list I94.row)
    (weather : list (WeatherClean.row D)) :
  Fact.base <$> fact_i94_history_query i94 weather
  = fst <$> left_join same_month_and_city (event_query i94) weather.
Proof.
  unfold fact_i94_history_query, fact_weather_query.
  rewrite <- list_fmap_compose. apply list_fmap_ext. by intros i [e o] _.
Qed.

(** Every event is in the fact table at least once. *)
Lemma fact_i94_history_keeps_events (i94 : list I94.row)
    (weather : list (WeatherClean.row D)) e :
  e ∈ event_query i94 →
  ∃ f, f ∈ fact_i94_history_query i94 weather ∧ Fact.base f = e.
Proof.
  intros He.
  destruct (left_join_total same_month_and_city _ weather e He) as [o Ho].
  exists (Fact.mk e (o ≫= WeatherClean.avg_temperature)). split; [|done].
  unfold fact_i94_history_query, fact_weather_query.
  apply list_elem_of_fmap. by exists (e, o).
Qed.

(** C1, as the code has it: when no event matches two rows of the
    preprocessed weather table on the city, the state and the year and
    month of the arrival, the fact table is the table of the cleaned events,
    row for row, each with its temperature: one row per event. *)
Theorem fact_one_row_per_event (i94_clean_source_table : list I94.row)
    (weather_clean_source_table : list (WeatherClean.row D)) :
  (∀ f, f ∈ event_query i94_clean_source_table →
     (length (sql_where (same_month_and_city f) weather_clean_source_table)
      ≤ 1)%nat) →
  Fact.base <$>
    fact_i94_history_query i94_clean_source_table weather_clean_source_table
  = event_query i94_clean_source_table ∧
  length (fact_i94_history_query i94_clean_source_table
            weather_clean_source_table)
  = length i94_clean_source_table.
Proof.
  intros Hone.
  assert (Fact.base <$> fact_i94_history_query i94_clean_source_table
                          weather_clean_source_table
          = event_query i94_clean_source_table) as Hbase.
  { rewrite fact_i94_history_base. by apply left_join_at_most_one. }
  split; [done|].
  rewrite <- (length_fmap Fact.base), Hbase. unfold event_query.
  apply length_fmap.
Qed.

(** C10: from a cleaned fact table, where every arrival date is known,
    [dim_time] holds the arrival date of every fact row, the check query
    of the gate finds no row, and the gate returns [false] only when one
    of the three tables is empty. *)
Theorem gate_fails_only_on_empty_table (i94_clean_source_table : list I94.row)
    (cities_pop : list (DemoWide.row D))
    (weather : list (WeatherClean.row D)) (airports : list (Airport.row D)) :
  (∀ i, i ∈ i94_clean_source_table → I94.arr_date i ≠ None) →
  let fact := fact_i94_history_query i94_clean_source_table weather in
  let dim_cities := dim_cities_query cities_pop airports in
  let dim_time := dim_time_query i94_clean_source_table weather in
  (∀ f, f ∈ fact →
     ∃ t a, t ∈ dim_time ∧ Event.arr_date (Fact.base f) = Some a ∧
            DimTime.dt t = Some a) ∧
  check_query fact dim_time = [] ∧
  ∀ σ, fst <$> check_model_quality (fact, dim_cities, dim_time) σ = Some false
       ↔ fact = [] ∨ dim_cities = [] ∨ dim_time = [].
Proof.
  intros Harr fact dim_cities dim_time.
  assert (∀ f, f ∈ fact →
     ∃ t a, t ∈ dim_time ∧ Event.arr_date (Fact.base f) = Some a ∧
            DimTime.dt t = Some a) as Hcov.
  { intros f Hf. apply elem_of_fact_i94_history_query in Hf.
    apply elem_of_event_query in Hf as (i & Hi & Hdate).
    destruct (I94.arr_date i) as [a|] eqn:Ea; [|by destruct (Harr i Hi)].
    exists (time_row (Some a)), a. split; [|done].
    apply elem_of_dim_time_query. exists (Some a). split; [done|].
    left. rewrite <- Ea. by apply list_elem_of_fmap_2. }
  assert (check_query fact dim_time = []) as Hq.
  { apply check_query_nil. intros f Hf.
    destruct (Hcov f Hf) as (t & a & Ht & Ha & Hd). exists t. split; [done|].
    apply holds_same_month. exists a, a. done. }
  split; [exact Hcov|]. split; [exact Hq|]. intros σ.
  destruct (check_model_quality_run fact dim_cities dim_time σ) as [lines ->].
  cbn [fmap option_fmap option_map fst].
  destruct (decide (fact ≠ [] ∧ dim_cities ≠ [] ∧ dim_time ≠ [] ∧
                    check_query fact dim_time = [])) as [Hall|Hnot].
  - rewrite bool_decide_eq_true_2 by done. split; [done|]. tauto.
  - rewrite bool_decide_eq_false_2 by done. split; [|done]. intros _.
    destruct (decide (fact = [])); [tauto|].
    destruct (decide (dim_cities = [])); [tauto|].
    destruct (decide (dim_time = [])); tauto.
Qed.
End FactTable.

Lemma fact_one_row_per_event_witness :
  Fact.base <$> fact_i94_history_query Sample.i94_clean Sample.weather_april_1
  = event_query Sample.i94_clean ∧
  length (fact_i94_history_query Sample.i94_clean Sample.weather_april_1)
  = length Sample.i94_clean.
Proof.
  apply (fact_one_row_per_event Sample.i94_clean Sample.weather_april_1).
  intros f Hf. apply list_elem_of_fmap in Hf as (i & -> & Hi).
  apply (list_elem_of_singleton i (Sample.event 1 "F" None)) in Hi as ->.
  vm_compute. constructor.
Defined.

(** The claim C1 fails when the weather table holds two days of the month
    of an arrival: the event is in the fact table twice. *)
Lemma fact_two_rows_for_one_event :
  length Sample.i94_clean = 1%nat ∧
  length (fact_i94_history_query Sample.i94_clean Sample.weather_clean) = 2%nat ∧
  Fact.base <$> fact_i94_history_query Sample.i94_clean Sample.weather_clean
  = (event_query Sample.i94_clean ++ event_query Sample.i94_clean)%list.
Proof. repeat split; vm_compute; reflexivity. Qed.

Lemma gate_fails_only_on_empty_table_witness :
  let fact := fact_i94_history_query Sample.i94_clean Sample.weather_clean in
  let dim_cities :=
    dim_cities_query Sample.demographic_clean Sample.airports_clean in
  let dim_time := dim_time_query Sample.i94_clean Sample.weather_clean in
  (∀ f, f ∈ fact →
     ∃ t a, t ∈ dim_time ∧ Event.arr_date (Fact.base f) = Some a ∧
            DimTime.dt t = Some a) ∧
  check_query fact dim_time = [] ∧
  ∀ σ, fst <$> check_model_quality (fact, dim_cities, dim_time) σ = Some false
       ↔ fact = [] ∨ dim_cities = [] ∨ dim_time = [].
Proof.
  apply (gate_fails_only_on_empty_table Sample.i94_clean Sample.demographic_clean
           Sample.weather_clean Sample.airports_clean).
  intros i Hi. apply (list_elem_of_singleton i (Sample.event 1 "F" None)) in Hi as ->.
  discriminate.
Defined.

Lemma build_data_model_all_or_nothing_witness :
  let σ := World Sample.preprocessed_lake [] in
  let fact := fact_i94_history_query Sample.i94_clean Sample.weather_clean in
  let dim_cities :=
    dim_cities_query Sample.demographic_clean Sample.airports_clean in
  let dim_time := dim_time_query Sample.i94_clean Sample.weather_clean in
  let fact_path := "analytics/fact_i94_history/fact_i94_history.parquet" in
  let dim_cities_path := "analytics/dim_cities/dim_cities.parquet" in
  let dim_time_path := "analytics/dim_time/dim_time.parquet" in
  ∃ (check_res : bool) σ',
    build_data_model "" σ = Some (tt, σ') ∧
    (∀ σ0, fst <$> check_model_quality (fact, dim_cities, dim_time) σ0
           = Some check_res) ∧
    (∃ lines, stdout σ' = (stdout σ ++ lines)%list) ∧
    if check_res then
      lake σ' = <[dim_time_path := DimTimeData dim_time]>
                  (<[dim_cities_path := DimCityData dim_cities]>
                     (<[fact_path := FactData fact]> (lake σ))) ∧
      lake σ' !! fact_path = Some (FactData fact) ∧
      lake σ' !! dim_cities_path = Some (DimCityData dim_cities) ∧
      lake σ' !! dim_time_path = Some (DimTimeData dim_time)
    else
      lake σ' = lake σ ∧
      last (stdout σ')
      = Some "ERROR! Quality checks on the data model have failed!!!".
Proof.
  apply (build_data_model_all_or_nothing "" (World Sample.preprocessed_lake [])
           Sample.i94_clean Sample.demographic_clean Sample.weather_clean
           Sample.airports_clean); reflexivity.
Defined.

(** ** The examples of the specification, run *)

Example departure_before_arrival_is_dropped :
  i94_clean_query
    [ Sample.event 1 "F" (Some (days_from_civil 2016 3 1));
      Sample.event 2 "F" None ]
  = [ Sample.event 2 "F" None ].
Proof. vm_compute. reflexivity. Qed.

Example chicago_pivots_into_one_row :
  ∃ r, cities_pop_clean_query Sample.demographic = [r] ∧
       DemoWide.asian r = Some 500 ∧ DemoWide.white r = Some 1000 ∧
       DemoWide.american_indian_and_alaska_native r = None ∧
       DemoWide.hispanic_or_latino r = None ∧
       DemoWide.black_or_african_american r = None.
Proof. eexists. split; [vm_compute; reflexivity|]. repeat split. Qed.

Example chicago_gets_the_region_of_the_near_airport :
  WeatherClean.state <$>
    weather_clean_query Sample.weather_source_table Sample.airports_source_table
  = [ Some "IL"; Some "IL" ].
Proof. vm_compute. reflexivity. Qed.

Example parts_of_2016_04_05 :
  time_row (to_date "2016-04-05")
  = DimTime.mk (Some 16896) (Some 2016) (Some 4) (Some 5) (Some 3) (Some 14).
Proof. vm_compute. reflexivity. Qed.

Example count_with_commas : format_thousands 3096313 = "3,096,313".
Proof. vm_compute. reflexivity. Qed.

(** * Further properties *)

(** ** More on the relational operators *)

Lemma inner_join_app {A B} (on : A → B → sql_bool) l1 l2 r :
  inner_join on (l1 ++ l2) r
  = (inner_join on l1 r ++ inner_join on l2 r)%list.
Proof. unfold inner_join. apply bind_app. Qed.

Lemma length_inner_join_le {A B} (on : A → B → sql_bool) l r :
  (∀ x, (length (sql_where (on x) r) ≤ 1)%nat) →
  (length (inner_join on l r) ≤ length l)%nat.
Proof.
  intros Hone. unfold inner_join. induction l as [|x l IH]; [done|].
  rewrite bind_cons, length_app. cbn [length].
  assert (length (sql_where (on x) r ≫= λ y, [(x, y)])
          = length (sql_where (on x) r)) as ->.
  { induction (sql_where (on x) r) as [|y ys IHy]; [done|].
    rewrite bind_cons. cbn. by rewrite IHy. }
  specialize (Hone x). lia.
Qed.

Lemma length_filter_key_le {A B} `{EqDecision B} (key : A → B) (v : B) l :
  NoDup (key <$> l) → (length (filter (λ x, key x = v) l) ≤ 1)%nat.
Proof.
  intros Hnd.
  assert (NoDup (key <$> filter (λ x, key x = v) l)) as Hnd'.
  { apply (sublist_NoDup _ (key <$> l)); [exact Hnd|].
    apply fmap_sublist, sublist_filter. }
  destruct (filter (λ x, key x = v) l) as [|x [|y ys]] eqn:E; cbn; [lia|lia|].
  assert (x ∈ filter (λ x, key x = v) l) as Hx by (rewrite E; left).
  assert (y ∈ filter (λ x, key x = v) l) as Hy by (rewrite E; right; left).
  apply list_elem_of_filter in Hx as [Hx _].
  apply list_elem_of_filter in Hy as [Hy _].
  cbn in Hnd'. apply NoDup_cons in Hnd' as [Hnot _]. destruct Hnot.
  rewrite Hx, <- Hy. left.
Qed.

(** A key that is the key of one row at most matches one row at most. *)
Lemma length_sql_where_code_le {A K} `{EqDecision K} (code : A → option K)
    (k : option K) (t : list A) :
  NoDup (code <$> t) →
  (length (sql_where (λ c, sql_eq k (code c)) t) ≤ 1)%nat.
Proof.
  intros Hnd. destruct k as [k|].
  - unfold sql_where.
    rewrite (list_filter_iff _ (λ c, code c = Some k)).
    + by apply length_filter_key_le.
    + intros c. rewrite holds_sql_eq. split.
      * intros (a & [= <-] & ->). done.
      * intros ->. eauto.
  - assert (sql_where (λ c, sql_eq None (code c)) t = []) as ->; [|cbn; lia].
    apply sql_where_nil. intros c _ Hc. apply holds_sql_eq in Hc as (a & [=] & _).
Qed.

Lemma remove_dups_NoDup {A} `{EqDecision A} (l : list A) :
  NoDup l → remove_dups l = l.
Proof.
  induction 1 as [|x l Hx Hnd IH]; [done|]. cbn.
  case_decide; [done|]. by rewrite IH.
Qed.

Lemma filter_all {A} (P : A → Prop) `{∀ x, Decision (P x)} (l : list A) :
  (∀ x, x ∈ l → P x) → filter P l = l.
Proof.
  induction l as [|x l IH]; intros Hall; [done|].
  rewrite filter_cons_True by (apply Hall; left).
  rewrite IH; [done|]. intros y Hy. apply Hall. by right.
Qed.

Lemma sublist_remove_dups {A} `{EqDecision A} (l : list A) :
  remove_dups l `sublist_of` l.
Proof.
  induction l as [|x l IH]; [done|]. cbn. case_decide.
  - by apply sublist_cons.
  - by apply sublist_skip.
Qed.

Lemma list_nil_iff {A} (l : list A) : l = [] ↔ ∀ x, x ∉ l.
Proof.
  split; [intros -> x Hx; by apply elem_of_nil in Hx|apply elem_of_nil_inv].
Qed.

(** ** Stage 1: the travel events *)

Section ConformedEvents.
Variable country_table : list Country.row.
Variable port_table : list Port.row.
Variable mode_table : list Mode.row.
Variable visa_table : list Visa.row.
Variable states_df : list States.row.

Let conformed (i94_table : list Raw.row) : list I94.row :=
i94_source_query i94_table country_table port_table mode_table visa_table
  states_df.

Lemma i94_source_query_app t1 t2 :
conformed (t1 ++ t2) = (conformed t1 ++ conformed t2)%list.
Proof.
unfold conformed, i94_source_query.
by rewrite !inner_join_app, fmap_app.
Qed.

Lemma i94_source_query_nil_iff t :
conformed t = [] ↔
∀ i, i ∈ t →
  ¬ resolves country_table port_table mode_table visa_table states_df i.
Proof.
unfold conformed, i94_source_query. rewrite fmap_nil_iff, list_nil_iff. split.
- intros Hnone i Hi (c1 & c2 & p & m & v & s & H1 & E1 & H2 & E2 & H3 & E3
                     & H4 & E4 & H5 & E5 & H6 & E6).
  apply (Hnone (i, c1, c2, p, m, v, s)).
  repeat (apply elem_of_inner_join; split; [|split; [eassumption|done]]).
  done.
- intros Hnone [[[[[[i c1] c2] p] m] v] s] Hin.
  apply elem_of_inner_join in Hin as (Hin & H6 & E6).
  apply elem_of_inner_join in Hin as (Hin & H5 & E5).
  apply elem_of_inner_join in Hin as (Hin & H4 & E4).
  apply elem_of_inner_join in Hin as (Hin & H3 & E3).
  apply elem_of_inner_join in Hin as (Hin & H2 & E2).
  apply elem_of_inner_join in Hin as (Hin & H1 & E1).
  apply (Hnone i Hin). exists c1, c2, p, m, v, s. done.
Qed.

(** X1: the conformed table is made event by event, and an event gives no
  row exactly when one of its codes does not resolve: it is left out, and
  the rows of the other events are what they are without it. *)
Theorem i94_source_unresolved_event_is_left_out (t1 t2 : list Raw.row)
  (i : Raw.row) :
conformed (t1 ++ i :: t2) = (conformed t1 ++ conformed [i] ++ conformed t2)%list ∧
(conformed [i] = [] ↔
 ¬ resolves country_table port_table mode_table visa_table states_df i) ∧
(¬ resolves country_table port_table mode_table visa_table states_df i →
 conformed (t1 ++ i :: t2) = conformed (t1 ++ t2)).
Proof.
assert (conformed [i] = [] ↔
        ¬ resolves country_table port_table mode_table visa_table states_df i)
  as Hnil.
{ rewrite i94_source_query_nil_iff. split.
  - intros Hall. apply Hall. left.
  - intros Hno j Hj. by apply list_elem_of_singleton in Hj as ->. }
assert (conformed (t1 ++ i :: t2)
        = (conformed t1 ++ conformed [i] ++ conformed t2)%list) as Happ.
{ rewrite (i94_source_query_app t1 (i :: t2)).
  change (i :: t2) with ([i] ++ t2)%list.
  by rewrite (i94_source_query_app [i] t2). }
split; [exact Happ|]. split; [exact Hnil|].
intros Hno. rewrite Happ, (proj2 Hnil Hno), i94_source_query_app. done.
Qed.

(** X2: when no dictionary holds a code twice, an event is conformed into
  one row at most: the conformed table has no more rows than the raw
  one. *)
Theorem i94_source_one_row_per_event_at_most (i94_table : list Raw.row) :
NoDup (Country.code <$> country_table) →
NoDup (Port.code <$> port_table) →
NoDup (Mode.code <$> mode_table) →
NoDup (Visa.code <$> visa_table) →
NoDup (States.code <$> states_df) →
(length (conformed i94_table) ≤ length i94_table)%nat.
Proof.
intros Hc Hp Hm Hv Hs. unfold conformed, i94_source_query.
rewrite length_fmap.
repeat (etransitivity; [apply length_inner_join_le|]);
  try reflexivity.
- intros [[[[[i c1] c2] p] m] v]. by apply length_sql_where_code_le.
- intros [[[[i c1] c2] p] m]. by apply length_sql_where_code_le.
- intros [[[i c1] c2] p]. by apply length_sql_where_code_le.
- intros [[i c1] c2]. by apply length_sql_where_code_le.
- intros [i c1]. by apply length_sql_where_code_le.
- intros i. by apply length_sql_where_code_le.
Qed.
End ConformedEvents.

Lemma i94_source_one_row_per_event_at_most_witness :
  (length (i94_source_query Sample.i94_table Sample.country_table
             Sample.port_table Sample.mode_table Sample.visa_table
             Sample.states_df) ≤ length Sample.i94_table)%nat.
Proof.
  apply (i94_source_one_row_per_event_at_most Sample.country_table
           Sample.port_table Sample.mode_table Sample.visa_table
           Sample.states_df Sample.i94_table); by_computation.
Defined.

(** ** Stage 1: capital letters *)

Lemma upper_ascii_capital c : is_ascii_lowercase (upper_ascii c) = false.
Proof. destruct c as [[] [] [] [] [] [] [] []]; reflexivity. Qed.

Lemma upper_string_capitals s : has_ascii_lowercase (upper_string s) = false.
Proof.
  induction s as [|c s IH]; [done|].
  cbn [upper_string has_ascii_lowercase]. by rewrite upper_ascii_capital, IH.
Qed.

Lemma UPPER_in_capitals s : in_capitals (UPPER s).
Proof.
  intros s' Hs. destruct s as [s|]; [|done]. injection Hs as <-.
  apply upper_string_capitals.
Qed.

Section CapitalLetters.
Context {D : Type} `{Double D}.
Variable cast_double : string → option D.

(** X3: the names that later joins compare hold no small letter of the
  ASCII alphabet in the four source tables, whatever the case of the raw
  names. *)
Theorem source_tables_hold_capital_letters
  (i94_table : list Raw.row) (country_table : list Country.row)
  (port_table : list Port.row) (mode_table : list Mode.row)
  (visa_table : list Visa.row) (states_df : list States.row)
  (cities_pop_table : list (Demo.row D))
  (airports_table : list RawAirport.row)
  (weather_table : list (RawWeather.row D)) :
Forall (λ r, in_capitals (I94.country_of_residence r) ∧
             in_capitals (I94.country_of_citizenship r) ∧
             in_capitals (I94.city_of_entry r) ∧
             in_capitals (I94.state_of_entry_code r) ∧
             in_capitals (I94.state_of_entry_full r))
  (i94_source_query i94_table country_table port_table mode_table visa_table
     states_df) ∧
Forall (λ c, in_capitals (Demo.city c) ∧ in_capitals (Demo.state c) ∧
             in_capitals (Demo.state_code c))
  (cities_pop_source_query cities_pop_table) ∧
Forall (λ a, in_capitals (Airport.iso_region a) ∧
             in_capitals (Airport.municipality a))
  (airports_source_query cast_double airports_table) ∧
Forall (λ w, in_capitals (Weather.city w) ∧ in_capitals (Weather.country w))
  (weather_source_query cast_double weather_table).
Proof.
split_and!; apply Forall_forall; intros r Hr.
- unfold i94_source_query in Hr.
  apply list_elem_of_fmap in Hr as ([[[[[[i c1] c2] p] m] v] s] & -> & _).
  cbn. split_and!; apply UPPER_in_capitals.
- unfold cities_pop_source_query in Hr.
  apply list_elem_of_fmap in Hr as (c & -> & _).
  cbn. split_and!; apply UPPER_in_capitals.
- unfold airports_source_query in Hr.
  apply list_elem_of_fmap in Hr as (a & -> & _).
  cbn. split_and!; apply UPPER_in_capitals.
- unfold weather_source_query in Hr.
  apply list_elem_of_fmap in Hr as (w & -> & _).
  cbn. split_and!; apply UPPER_in_capitals.
Qed.
End CapitalLetters.

(** ** Stage 1: airports and weather *)

Lemma split_on_no_separator sep s :
  occurs sep s = false → split_on sep s = [s].
Proof.
  induction s as [|c s IH]; [done|]. cbn [occurs split_on]. intros Hocc.
  apply orb_false_iff in Hocc as [Hc Hs]. rewrite Hc, (IH Hs). done.
Qed.

Lemma split_on_separator sep a b :
  occurs sep a = false →
  split_on sep (a +:+ String sep b) = a :: split_on sep b.
Proof.
  induction a as [|c a IH]; cbn [occurs]; intros Hocc.
  - change ("" +:+ String sep b) with (String sep b). cbn [split_on].
    by rewrite Ascii.eqb_refl.
  - apply orb_false_iff in Hocc as [Hc Ha].
    change (String c a +:+ String sep b) with (String c (a +:+ String sep b)).
    cbn [split_on]. by rewrite Hc, (IH Ha).
Qed.

Lemma split_on_nonempty sep s : split_on sep s ≠ [].
Proof.
  destruct s as [|c s]; [done|]. cbn [split_on].
  destruct (Ascii.eqb c sep); [done|]. by destruct (split_on sep s).
Qed.

(** A second token is there only after a separator. *)
Lemma split_on_second sep s tok :
  split_on sep s !! 1%nat = Some tok →
  ∃ a b, s = a +:+ String sep b ∧ occurs sep a = false.
Proof.
  induction s as [|c s IH]; [done|]. cbn [split_on].
  destruct (Ascii.eqb c sep) eqn:Ec.
  - intros _. apply Ascii.eqb_eq in Ec as ->. by exists "", s.
  - pose proof (split_on_nonempty sep s) as Hne.
    destruct (split_on sep s) as [|t ts] eqn:Es; [done|].
    cbn [lookup list_lookup]. intros Htok.
    destruct (IH Htok) as (a & b & -> & Ha). exists (String c a), b.
    split; [done|]. cbn [occurs]. by rewrite Ec, Ha.
Qed.

Lemma substring_prefix s t :
  String.substring 0 (String.length s) (s +:+ t) = s.
Proof.
  induction s as [|c s IH].
  - change ("" +:+ t) with t. by destruct t.
  - change (String c s +:+ t) with (String c (s +:+ t)).
    cbn [String.length String.substring]. by rewrite IH.
Qed.

Lemma length_append_one s c :
  String.length (s +:+ String c "") = S (String.length s).
Proof.
  induction s as [|c' s IH]; [done|].
  change (String c' s +:+ String c "") with (String c' (s +:+ String c "")).
  cbn [String.length]. by rewrite IH.
Qed.

Lemma substring_without_last s c :
  SUBSTRING_WITHOUT_LAST (Some (s +:+ String c "")) = Some s.
Proof.
  unfold SUBSTRING_WITHOUT_LAST. cbn [fmap option_fmap option_map]. f_equal.
  rewrite length_append_one.
  replace (S (String.length s) - 1)%nat with (String.length s) by lia.
  apply substring_prefix.
Qed.

Section AirportsAndWeather.
Context {D : Type} `{Double D}.
Variable cast_double : string → option D.

Lemma elem_of_airports_source_query (t : list RawAirport.row) a :
a ∈ airports_source_query cast_double t ↔
∃ raw ty, raw ∈ t ∧ RawAirport.iso_country raw = Some "US" ∧
  RawAirport.type raw = Some ty ∧ ty ≠ "closed" ∧
  a = {| Airport.type := Some ty;
         Airport.name := RawAirport.name raw;
         Airport.elevation_ft := RawAirport.elevation_ft raw;
         Airport.iso_region :=
           UPPER (SPLIT_AT (RawAirport.iso_region raw) "-" 1);
         Airport.municipality := UPPER (RawAirport.municipality raw);
         Airport.gps_code := RawAirport.gps_code raw;
         Airport.lon :=
           CAST_DOUBLE cast_double (SPLIT_AT (RawAirport.coordinates raw) "," 0);
         Airport.lat :=
           CAST_DOUBLE cast_double (SPLIT_AT (RawAirport.coordinates raw) "," 1)
      |}.
Proof.
unfold airports_source_query. rewrite list_elem_of_fmap.
assert (∀ raw, holds (sql_and (sql_eq (RawAirport.iso_country raw) (Some "US"))
                        (sql_ne (RawAirport.type raw) (Some "closed")))
               ↔ RawAirport.iso_country raw = Some "US" ∧
                 ∃ ty, RawAirport.type raw = Some ty ∧ ty ≠ "closed") as Hcond.
{ intros raw. rewrite holds_sql_and, holds_sql_eq. unfold sql_ne, sql_not, sql_eq.
  destruct (RawAirport.type raw) as [ty|]; cbn.
  - unfold holds. destruct (decide (ty = "closed")) as [->|Hne].
    + rewrite bool_decide_eq_true_2 by done. cbn. split.
      * intros [_ [=]].
      * intros [_ (ty & [= <-] & Hne)]. done.
    + rewrite bool_decide_eq_false_2 by done. cbn. split.
      * intros [(c & -> & [= <-]) _]. eauto.
      * intros [-> _]. eauto.
  - unfold holds. split; [intros [_ [=]]|intros [_ (ty & [=] & _)]]. }
split.
- intros (raw & -> & Hraw). apply elem_of_sql_where in Hraw as [Hc Hraw].
  apply Hcond in Hc as (Hus & ty & Hty & Hne). exists raw, ty.
  rewrite Hty. done.
- intros (raw & ty & Hraw & Hus & Hty & Hne & ->). exists raw.
  rewrite Hty. split; [done|]. apply elem_of_sql_where. split; [|done].
  apply Hcond. eauto.
Qed.

(** X4: an airport of the source table comes from a raw airport of the US
  whose type is known and is not "closed"; it has a region only if the raw
  region holds a hyphen, and a latitude only if the raw coordinates hold a
  comma.  So an airport that the cleaning of stage 2 keeps had a raw
  region with a hyphen, raw coordinates with a comma and a municipality. *)
Theorem airports_source_keeps_open_us_airports (airports_table : list RawAirport.row) :
Forall (λ a, ∃ raw ty,
          raw ∈ airports_table ∧ RawAirport.iso_country raw = Some "US" ∧
          RawAirport.type raw = Some ty ∧ ty ≠ "closed" ∧
          Airport.type a = Some ty ∧
          (Airport.iso_region a ≠ None →
           ∃ country rest, RawAirport.iso_region raw
                           = Some (country +:+ String "-" rest)) ∧
          (Airport.lat a ≠ None →
           ∃ first rest, RawAirport.coordinates raw
                         = Some (first +:+ String "," rest)))
  (airports_source_query cast_double airports_table) ∧
Forall (λ a, ∃ raw country rest first rest',
          raw ∈ airports_table ∧
          RawAirport.iso_region raw = Some (country +:+ String "-" rest) ∧
          RawAirport.coordinates raw = Some (first +:+ String "," rest') ∧
          RawAirport.municipality raw ≠ None)
  (airports_clean_query (airports_source_query cast_double airports_table)).
Proof.
assert (∀ a, a ∈ airports_source_query cast_double airports_table →
          ∃ raw ty,
            raw ∈ airports_table ∧ RawAirport.iso_country raw = Some "US" ∧
            RawAirport.type raw = Some ty ∧ ty ≠ "closed" ∧
            Airport.type a = Some ty ∧
            Airport.municipality a = UPPER (RawAirport.municipality raw) ∧
            (Airport.iso_region a ≠ None →
             ∃ country rest, RawAirport.iso_region raw
                             = Some (country +:+ String "-" rest)) ∧
            (Airport.lat a ≠ None →
             ∃ first rest, RawAirport.coordinates raw
                           = Some (first +:+ String "," rest))) as Hsrc.
{ intros a Ha.
  apply elem_of_airports_source_query in Ha
    as (raw & ty & Hraw & Hus & Hty & Hne & ->).
  exists raw, ty. cbn. repeat split; try done.
  - unfold SPLIT_AT. destruct (RawAirport.iso_region raw) as [s|]; [|done].
    cbn. destruct (split_on "-" s !! 1%nat) as [tok|] eqn:E; [|done].
    intros _. destruct (split_on_second _ _ _ E) as (a & b & -> & _). eauto.
  - unfold CAST_DOUBLE, SPLIT_AT.
    destruct (RawAirport.coordinates raw) as [s|]; [|done].
    cbn. destruct (split_on "," s !! 1%nat) as [tok|] eqn:E; [|done].
    intros _. destruct (split_on_second _ _ _ E) as (a & b & -> & _). eauto. }
split; apply Forall_forall; intros a Ha.
- destruct (Hsrc a Ha) as (raw & ty & ? & ? & ? & ? & ? & ? & ? & ?).
  exists raw, ty. done.
- apply elem_of_airports_clean_query in Ha as (Ha & Hm & Hr & Hlat & Hlon).
  destruct (Hsrc a Ha) as (raw & ty & Hraw & _ & _ & _ & _ & Hmun & Hreg & Hco).
  destruct (Hreg Hr) as (country & rest & Hregion).
  destruct (Hco Hlat) as (first & rest' & Hcoord).
  exists raw, country, rest, first, rest'. repeat split; try done.
  intros Hnone. rewrite Hnone in Hmun. by rewrite Hmun in Hm.
Qed.

(** X5: for a raw airport of the US that is not closed, whose region is a
  country, a hyphen and a state and whose coordinates are two numerals
  around a comma, the source table holds the state in capital letters, the
  cast of the first numeral as longitude and the cast of the second as
  latitude. *)
Theorem airports_source_decodes_region_and_coordinates
  (raw : RawAirport.row) (ty country state first second : string) :
RawAirport.iso_country raw = Some "US" →
RawAirport.type raw = Some ty → ty ≠ "closed" →
RawAirport.iso_region raw = Some (country +:+ String "-" state) →
occurs "-" country = false → occurs "-" state = false →
RawAirport.coordinates raw = Some (first +:+ String "," second) →
occurs "," first = false → occurs "," second = false →
airports_source_query cast_double [raw]
= [ {| Airport.type := Some ty;
       Airport.name := RawAirport.name raw;
       Airport.elevation_ft := RawAirport.elevation_ft raw;
       Airport.iso_region := Some (upper_string state);
       Airport.municipality := UPPER (RawAirport.municipality raw);
       Airport.gps_code := RawAirport.gps_code raw;
       Airport.lon := cast_double first;
       Airport.lat := cast_double second |} ].
Proof.
intros Hus Hty Hne Hreg Hc Hs Hco Hf Hsnd.
unfold airports_source_query, sql_where.
rewrite filter_cons_True, filter_nil.
- cbn [fmap list_fmap]. f_equal. unfold SPLIT_AT, CAST_DOUBLE.
  rewrite Hty, Hreg, Hco. cbn [mbind option_bind].
  rewrite !split_on_separator, !split_on_no_separator by done. done.
- rewrite holds_sql_and, holds_sql_eq, Hus, Hty. split; [eauto|].
  unfold sql_ne, sql_not, sql_eq, holds. cbn.
  by rewrite bool_decide_eq_false_2.
Qed.

Lemma elem_of_weather_source_query (t : list (RawWeather.row D)) w :
w ∈ weather_source_query cast_double t ↔
∃ raw d, raw ∈ t ∧ RawWeather.country raw = Some "United States" ∧
  RawWeather.dt raw = Some d ∧ 1960 ≤ year_of d ∧
  w = {| Weather.dt := Some d;
         Weather.year := Some (year_of d);
         Weather.month := Some (month_of d);
         Weather.day := Some (day_of d);
         Weather.avg_temperature := RawWeather.AverageTemperature raw;
         Weather.city := UPPER (RawWeather.city raw);
         Weather.country := Some "UNITED STATES";
         Weather.lon :=
           sql_lift2 double_mul
             (CAST_DOUBLE cast_double
                (SUBSTRING_WITHOUT_LAST (RawWeather.longitude raw)))
             (Some (double_of_Z (-1)));
         Weather.lat :=
           CAST_DOUBLE cast_double
             (SUBSTRING_WITHOUT_LAST (RawWeather.latitude raw)) |}.
Proof.
unfold weather_source_query. rewrite list_elem_of_fmap.
assert (∀ raw : RawWeather.row D,
           holds (sql_and (sql_eq (RawWeather.country raw)
                                 (Some "United States"))
                        (sql_lift2 Z.geb (YEAR (RawWeather.dt raw)) (Some 1960)))
               ↔ RawWeather.country raw = Some "United States" ∧
                 ∃ d, RawWeather.dt raw = Some d ∧ 1960 ≤ year_of d) as Hcond.
{ intros raw. rewrite holds_sql_and, holds_sql_eq, holds_sql_lift2. split.
  - intros [(c & -> & [= <-]) (y & y' & Hy & [= <-] & Hge)]. split; [done|].
    destruct (RawWeather.dt raw) as [d|]; [|done]. injection Hy as <-.
    exists d. split; [done|]. apply Z.geb_le in Hge. done.
  - intros [-> (d & -> & Hge)]. split; [eauto|].
    exists (year_of d), 1960. repeat split. by apply Z.geb_le. }
split.
- intros (raw & -> & Hraw). apply elem_of_sql_where in Hraw as [Hc Hraw].
  apply Hcond in Hc as (Hus & d & Hd & Hge). exists raw, d.
  rewrite Hd, Hus. done.
- intros (raw & d & Hraw & Hus & Hd & Hge & ->). exists raw.
  rewrite Hd, Hus. split; [done|]. apply elem_of_sql_where. split; [|done].
  apply Hcond. eauto.
Qed.

(** X6: every row of the weather source table is an observation of the
  United States, dated, of 1960 or later, with the year, month and day of
  its date; its latitude is the cast of the raw latitude without its last
  character, and its longitude the cast of the raw longitude without its
  last character, times -1, whatever these characters are. *)
Theorem weather_source_rows (weather_table : list (RawWeather.row D)) :
Forall (λ w, ∃ raw d,
          raw ∈ weather_table ∧
          RawWeather.country raw = Some "United States" ∧
          Weather.country w = Some "UNITED STATES" ∧
          Weather.dt w = Some d ∧ RawWeather.dt raw = Some d ∧
          1960 ≤ year_of d ∧
          Weather.year w = Some (year_of d) ∧
          Weather.month w = Some (month_of d) ∧
          Weather.day w = Some (day_of d) ∧
          ∀ lon lat (a b : ascii),
            RawWeather.longitude raw = Some (lon +:+ String a "") →
            RawWeather.latitude raw = Some (lat +:+ String b "") →
            Weather.lon w
            = (λ x, double_mul x (double_of_Z (-1))) <$> cast_double lon ∧
            Weather.lat w = cast_double lat)
  (weather_source_query cast_double weather_table).
Proof.
apply Forall_forall. intros w Hw.
apply elem_of_weather_source_query in Hw as (raw & d & Hraw & Hus & Hd & Hge & ->).
exists raw, d. cbn. split_and!; try done.
intros lon lat a b Hlon Hlat.
rewrite Hlon, Hlat, !substring_without_last. unfold CAST_DOUBLE. cbn.
by destruct (cast_double lon).
Qed.
End AirportsAndWeather.

Lemma airports_source_decodes_region_and_coordinates_witness :
  airports_source_query Fixture.decimal
    [ RawAirport.mk (Some "small_airport") (Some "Lansing Municipal") (Some 620)
        (Some "US") (Some "US-IL") (Some "Chicago") (Some "KIGQ")
        (Some "-87.5, 42.0") ]
  = [ Airport.mk (Some "small_airport") (Some "Lansing Municipal") (Some 620)
        (Some "IL") (Some "CHICAGO") (Some "KIGQ") (Some (-87.5)%float)
        (Some 42.0%float) ].
Proof.
  apply (airports_source_decodes_region_and_coordinates Fixture.decimal
           (RawAirport.mk (Some "small_airport") (Some "Lansing Municipal")
              (Some 620) (Some "US") (Some "US-IL") (Some "Chicago")
              (Some "KIGQ") (Some "-87.5, 42.0"))
           "small_airport" "US" "IL" "-87.5" " 42.0");
    reflexivity || discriminate.
Defined.

(** ** Stage 2: what cleaning does to a table *)

Lemma sql_where_idemp {A} (c : A → sql_bool) (t : list A) :
  sql_where c (sql_where c t) = sql_where c t.
Proof.
  unfold sql_where. apply filter_all. intros x Hx.
  by apply list_elem_of_filter in Hx as [Hx _].
Qed.

Lemma sql_distinct_where_idemp {A} `{EqDecision A} (c : A → sql_bool) (t : list A) :
  sql_distinct (sql_where c (sql_distinct (sql_where c t)))
  = sql_distinct (sql_where c t).
Proof.
  assert (sql_where c (sql_distinct (sql_where c t))
          = sql_distinct (sql_where c t)) as ->.
  { unfold sql_where at 1. apply filter_all. intros x Hx.
    apply elem_of_sql_distinct, elem_of_sql_where in Hx as [Hx _]. done. }
  unfold sql_distinct at 1. apply remove_dups_NoDup, NoDup_sql_distinct.
Qed.

Lemma sql_where_sublist {A} (c : A → sql_bool) (t : list A) :
  sql_where c t `sublist_of` t.
Proof. apply sublist_filter. Qed.

Lemma sql_distinct_where_sublist {A} `{EqDecision A} (c : A → sql_bool)
    (t : list A) :
  sql_distinct (sql_where c t) `sublist_of` t.
Proof.
  transitivity (sql_where c t); [apply sublist_remove_dups|apply sublist_filter].
Qed.

Lemma COUNT_sublist {A} (l k : list A) :
  l `sublist_of` k → 0 ≤ COUNT k - COUNT l.
Proof. intros Hsub. apply sublist_length in Hsub. unfold COUNT. lia. Qed.

Section Cleaning.
Context {D : Type} `{Double D}.

(** X7: cleaning a cleaned table changes nothing: the filters of stage 2 on
  the events, the demographics, the airports and the weather keep every
  row of their own result, and leave no duplicate for [DISTINCT] to
  remove. *)
Theorem cleaning_a_clean_table_changes_nothing
  (i94_source : list I94.row) (cities_pop_source : list (Demo.row D))
  (airports_source : list (Airport.row D))
  (weather_source : list (Weather.row D)) :
i94_clean_query (i94_clean_query i94_source) = i94_clean_query i94_source ∧
cities_pop_filter_query (cities_pop_filter_query cities_pop_source)
= cities_pop_filter_query cities_pop_source ∧
airports_clean_query (airports_clean_query airports_source)
= airports_clean_query airports_source ∧
weather_dedup_query (weather_dedup_query weather_source)
= weather_dedup_query weather_source.
Proof.
split_and!.
- apply sql_distinct_where_idemp.
- apply sql_where_idemp.
- apply sql_where_idemp.
- apply (sql_distinct_where_idemp _ weather_source).
Qed.

(** X8: the cleaned events, the filtered demographics, the cleaned airports
  and the filtered weather are the source tables with rows left out: the
  rows that stay keep their order, and the number of dropped records that
  stage 2 prints for the events and for the airports is not negative. *)
Theorem cleaning_only_drops_rows
  (i94_source : list I94.row) (cities_pop_source : list (Demo.row D))
  (airports_source : list (Airport.row D))
  (weather_source : list (Weather.row D)) :
i94_clean_query i94_source `sublist_of` i94_source ∧
cities_pop_filter_query cities_pop_source `sublist_of` cities_pop_source ∧
airports_clean_query airports_source `sublist_of` airports_source ∧
weather_dedup_query weather_source `sublist_of` weather_source ∧
0 ≤ COUNT i94_source - COUNT (i94_clean_query i94_source) ∧
0 ≤ COUNT airports_source - COUNT (airports_clean_query airports_source).
Proof.
assert (i94_clean_query i94_source `sublist_of` i94_source) as Hi94
  by apply sql_distinct_where_sublist.
assert (airports_clean_query airports_source `sublist_of` airports_source)
  as Hairports by apply sql_where_sublist.
split_and!; try done.
- apply sql_where_sublist.
- apply (sql_distinct_where_sublist _ weather_source).
- by apply COUNT_sublist.
- by apply COUNT_sublist.
Qed.

Lemma AVG_is_Some (l : list (option D)) x :
Some x ∈ l → AVG l ≠ None.
Proof.
intros Hx. unfold AVG.
assert (x ∈ omap id l) as Hin by (apply list_elem_of_omap; eauto).
destruct (omap id l); [by apply elem_of_nil in Hin|done].
Qed.

(** The rows of the preprocessed weather table, by where they come from. *)
Lemma elem_of_weather_clean_query (weather_source : list (Weather.row D))
  (airports_source : list (Airport.row D)) (o : WeatherClean.row D) :
o ∈ weather_clean_query weather_source airports_source →
∃ w a,
  w ∈ weather_dedup_query weather_source ∧
  a ∈ airports_clean_query airports_source ∧
  Airport.municipality a = Weather.city w ∧
  weather_clean_key o
  = (Weather.dt w, Weather.year w, Weather.month w, Weather.day w,
     Weather.city w, Airport.iso_region a, Weather.lat w, Weather.lon w) ∧
  WeatherClean.avg_temperature o ≠ None.
Proof.
unfold weather_clean_query. intros Ho.
apply elem_of_weather_region_query in Ho as (g & Hg & Ho).
apply elem_of_group_by in Hg as (([w l] & Hj & Hk) & Hgroup).
pose proof Hj as Hj'. apply elem_of_inner_join in Hj' as (Hw & Hl & Hon).
apply elem_of_loc_state_query in Hl as (w1 & a & Hw1 & Ha & Hnear & El).
apply holds_same_place in Hon as (_ & _ & _ & Hc & _).
apply holds_sql_and in Hnear as [_ Hname].
apply holds_sql_eq in Hname as (c & Hc1 & Hmun).
pose proof Hk as Hkey. rewrite El in Hc, Hk.
unfold weather_group_key in Hk. cbn in Hc, Hk.
exists w, a. split_and!; try done.
- congruence.
- rewrite Ho, weather_avg_row, Hgroup.
  pose proof Hw as Hw2.
  apply elem_of_weather_dedup_query in Hw2 as (_ & Ht & _).
  destruct (Weather.avg_temperature w) as [x|] eqn:Ex; [|done].
  apply (AVG_is_Some _ x). apply list_elem_of_fmap. exists (w, l).
  split; [done|]. apply list_elem_of_filter. done.
Qed.

(** X9: every row of the preprocessed weather table has a date, a city, a
  region, a latitude, a longitude and a temperature: its date, its parts
  of the date and its place are those of an observation of the source
  table, and its region is the region of a retained airport of the name
  of that city. *)
Theorem weather_clean_rows_are_complete (weather_source : list (Weather.row D))
  (airports_source : list (Airport.row D)) :
Forall (λ o,
          (∃ w a, w ∈ weather_source ∧ a ∈ airports_source ∧
             Airport.municipality a = Weather.city w ∧
             WeatherClean.dt o = Weather.dt w ∧
             WeatherClean.year o = Weather.year w ∧
             WeatherClean.month o = Weather.month w ∧
             WeatherClean.day o = Weather.day w ∧
             WeatherClean.city o = Weather.city w ∧
             WeatherClean.state o = Airport.iso_region a ∧
             WeatherClean.lat o = Weather.lat w ∧
             WeatherClean.lon o = Weather.lon w) ∧
          WeatherClean.dt o ≠ None ∧ WeatherClean.city o ≠ None ∧
          WeatherClean.state o ≠ None ∧ WeatherClean.lat o ≠ None ∧
          WeatherClean.lon o ≠ None ∧ WeatherClean.avg_temperature o ≠ None)
  (weather_clean_query weather_source airports_source).
Proof.
apply Forall_forall. intros o Ho.
apply elem_of_weather_clean_query in Ho as (w & a & Hw & Ha & Hmun & Hk & Havg).
apply elem_of_weather_dedup_query in Hw as (Hw & _ & Hdt & Hc & Hla & Hlo).
apply elem_of_airports_clean_query in Ha as (Ha & _ & Hr & _).
injection Hk as Hkdt Hky Hkm Hkd Hkc Hks Hkla Hklo.
split; [exists w, a; done|]. rewrite Hkdt, Hkc, Hks, Hkla, Hklo. done.
Qed.
End Cleaning.

(** ** Stage 2: the pivot of the demographics *)

Section PivotRows.
Context {D : Type} `{Double D}.

Lemma attached_pivoted_count (t : list (Demo.row D)) c r race o :
Demo.city c ≠ None →
DemoWide.city r = Demo.city c → DemoWide.state r = Demo.state c →
attached t c race o → pivoted_count t r race (o ≫= RaceCount.count).
Proof.
intros Hcity Hrc Hrs Ho. destruct o as [rc|]; cbn in *.
- destruct Ho as [Hin Hon]. left.
  apply elem_of_race_counts in Hin as (c' & Hc' & Hrace & ->).
  apply holds_on_city_state in Hon as (_ & Hstate & Hci & Hst). cbn in *.
  exists c'. rewrite Hrc, Hrs. done.
- right. split; [done|].
  destruct (Demo.state c) as [st|] eqn:Est; [right|by left].
  intros c' Hc' Hci Hst Hrace.
  apply (Ho (RaceCount.mk (Demo.city c') (Demo.state c') (Demo.count c'))).
  + apply elem_of_race_counts. eauto.
  + apply holds_on_city_state. cbn. rewrite Est. split_and!; congruence.
Qed.

(** X10: every row of the preprocessed demographics has a city and a state
  code and the copied columns of a source row; each of its five race
  columns is the count of a filtered source row of that race, city and
  state, and is NULL when there is no such row or when the state is NULL
  (the joins compare the states, and NULL equals nothing). *)
Theorem cities_pop_pivot_rows_come_from_the_source
  (cities_pop_source : list (Demo.row D)) :
Forall (λ r,
          DemoWide.city r ≠ None ∧ DemoWide.state_code r ≠ None ∧
          (∃ c, c ∈ cities_pop_source ∧ copied_from c r) ∧
          let count_of := pivoted_count (cities_pop_filter_query cities_pop_source) r in
          count_of "American Indian and Alaska Native"
            (DemoWide.american_indian_and_alaska_native r) ∧
          count_of "Asian" (DemoWide.asian r) ∧
          count_of "White" (DemoWide.white r) ∧
          count_of "Hispanic or Latino" (DemoWide.hispanic_or_latino r) ∧
          count_of "Black or African-American"
            (DemoWide.black_or_african_american r))
  (cities_pop_clean_query cities_pop_source).
Proof.
apply Forall_forall. intros r Hr. unfold cities_pop_clean_query in Hr.
apply elem_of_cities_pop_pivot_query in Hr
  as (c & c1 & c2 & c3 & c4 & c5 & Hc & H1 & H2 & H3 & H4 & H5 & ->).
apply elem_of_cities_pop_filter_query in Hc as (Hc & Hcity & Hcode).
cbn. split_and!; try done.
- exists c. split; [done|]. unfold copied_from. cbn. done.
- by apply (attached_pivoted_count _ c).
- by apply (attached_pivoted_count _ c).
- by apply (attached_pivoted_count _ c).
- by apply (attached_pivoted_count _ c).
- by apply (attached_pivoted_count _ c).
Qed.

Lemma cities_pop_filter_row_is_kept (cities_pop_source : list (Demo.row D)) c :
c ∈ cities_pop_filter_query cities_pop_source →
∃ r, r ∈ cities_pop_clean_query cities_pop_source ∧ copied_from c r.
Proof.
intros Hc. set (t := cities_pop_filter_query cities_pop_source) in *.
destruct (attached_total t c "American Indian and Alaska Native") as [c1 H1].
destruct (attached_total t c "Asian") as [c2 H2].
destruct (attached_total t c "White") as [c3 H3].
destruct (attached_total t c "Hispanic or Latino") as [c4 H4].
destruct (attached_total t c "Black or African-American") as [c5 H5].
eexists. split.
- apply elem_of_cities_pop_pivot_query.
  exists c, c1, c2, c3, c4, c5. split_and!; try done.
- unfold copied_from. cbn. done.
Qed.

Lemma cities_pop_clean_query_nil (cities_pop_source : list (Demo.row D)) :
cities_pop_clean_query cities_pop_source = [] ↔
cities_pop_filter_query cities_pop_source = [].
Proof.
rewrite !list_nil_iff. split.
- intros Hnone c Hc.
  destruct (cities_pop_filter_row_is_kept _ c Hc) as (r & Hr & _).
  by destruct (Hnone r).
- intros Hnone r Hr. unfold cities_pop_clean_query in Hr.
  apply elem_of_cities_pop_pivot_query in Hr as (c & _ & _ & _ & _ & _ & Hc & _).
  by destruct (Hnone c).
Qed.

(** X11: the pivot loses no city: no row of the preprocessed demographics
  occurs twice, every source row with a city and a state code has a row
  with its copied columns, and the table is empty only when the filter
  leaves no row. *)
Theorem cities_pop_pivot_keeps_every_city
  (cities_pop_source : list (Demo.row D)) :
NoDup (cities_pop_clean_query cities_pop_source) ∧
Forall (λ c, Demo.city c ≠ None → Demo.state_code c ≠ None →
             ∃ r, r ∈ cities_pop_clean_query cities_pop_source ∧
                  copied_from c r)
  cities_pop_source ∧
(cities_pop_clean_query cities_pop_source = [] ↔
 cities_pop_filter_query cities_pop_source = []).
Proof.
split_and!.
- apply NoDup_sql_distinct.
- apply Forall_forall. intros c Hc Hcity Hcode.
  apply cities_pop_filter_row_is_kept.
  by apply elem_of_cities_pop_filter_query.
- apply cities_pop_clean_query_nil.
Qed.
End PivotRows.

(** ** Stage 3: the city dimension *)

Section CityDimension.
Context {D : Type} `{Double D}.

Lemma holds_same_city (dc : DemoWide.row D) (p : AirportPivot.row) :
holds (same_city dc p) ↔
DemoWide.city dc ≠ None ∧ DemoWide.state_code dc ≠ None ∧
AirportPivot.municipality p = DemoWide.city dc ∧
AirportPivot.iso_region p = DemoWide.state_code dc.
Proof.
unfold same_city. rewrite holds_sql_and, !holds_sql_eq. split.
- intros ((ci & -> & ->) & (st & -> & ->)). done.
- intros (Hc & Hs & -> & ->).
  destruct (DemoWide.city dc); [|done].
  destruct (DemoWide.state_code dc); [|done]. split; eauto.
Qed.

Lemma elem_of_airports_of (airports : list (Airport.row D)) dc a :
a ∈ airports_of airports dc ↔
a ∈ airports ∧ DemoWide.city dc ≠ None ∧ DemoWide.state_code dc ≠ None ∧
Airport.municipality a = DemoWide.city dc ∧
Airport.iso_region a = DemoWide.state_code dc.
Proof.
unfold airports_of. rewrite elem_of_sql_where, holds_sql_and, !holds_sql_eq.
split.
- intros (((ci & -> & ->) & (st & -> & ->)) & Ha). done.
- intros (Ha & Hc & Hs & -> & ->).
  destruct (DemoWide.city dc); [|done].
  destruct (DemoWide.state_code dc); [|done]. split; [split|]; eauto.
Qed.

Lemma elem_of_airports_pivot_query (airports : list (Airport.row D)) p :
p ∈ airports_pivot_query airports ↔
(∃ a, a ∈ airports ∧ Airport.iso_region a = AirportPivot.iso_region p ∧
      Airport.municipality a = AirportPivot.municipality p) ∧
AirportPivot.number_of_airports p
= Some (COUNT (filter (λ a, (Airport.iso_region a, Airport.municipality a)
                            = (AirportPivot.iso_region p,
                               AirportPivot.municipality p)) airports)).
Proof.
unfold airports_pivot_query. rewrite list_elem_of_fmap. split.
- intros ([[region municipality] g] & -> & Hg).
  apply elem_of_group_by in Hg as ((a & Ha & [= Hr Hm]) & ->). cbn. eauto.
- intros ((a & Ha & Hr & Hm) & Hn).
  exists ((AirportPivot.iso_region p, AirportPivot.municipality p),
          filter (λ a, (Airport.iso_region a, Airport.municipality a)
                       = (AirportPivot.iso_region p,
                          AirportPivot.municipality p)) airports).
  split.
  + destruct p as [r m n]. cbn in *. by rewrite Hn.
  + apply elem_of_group_by. split; [|done]. exists a. by rewrite Hr, Hm.
Qed.

(** The pivot of the airports has one row per region and city. *)
Lemma airports_pivot_query_keys (airports : list (Airport.row D)) :
NoDup ((λ p, (AirportPivot.iso_region p, AirportPivot.municipality p))
         <$> airports_pivot_query airports).
Proof.
unfold airports_pivot_query. rewrite <- list_fmap_compose.
set (groups := group_by _ airports).
assert (NoDup (fst <$> groups)) as Hnd by apply NoDup_group_by_keys.
replace (_ <$> groups) with (fst <$> groups); [done|].
apply list_fmap_ext. by intros i [[region municipality] g] _.
Qed.

Lemma same_city_at_most_one (airports : list (Airport.row D))
  (dc : DemoWide.row D) :
(length (sql_where (same_city dc) (airports_pivot_query airports)) ≤ 1)%nat.
Proof.
unfold sql_where.
rewrite (list_filter_iff _
  (λ p, (AirportPivot.iso_region p, AirportPivot.municipality p)
        = (DemoWide.state_code dc, DemoWide.city dc)
        ∧ DemoWide.city dc ≠ None ∧ DemoWide.state_code dc ≠ None)).
- destruct (decide (DemoWide.city dc ≠ None ∧ DemoWide.state_code dc ≠ None))
    as [Hk|Hk].
  + rewrite (list_filter_iff _
      (λ p, (AirportPivot.iso_region p, AirportPivot.municipality p)
            = (DemoWide.state_code dc, DemoWide.city dc))) by (intros p; tauto).
    apply length_filter_key_le, airports_pivot_query_keys.
  + rewrite (list_filter_iff _ (λ _, False)) by (intros p; tauto).
    induction (airports_pivot_query airports) as [|p ps IH]; [cbn; lia|].
    rewrite filter_cons_False by tauto. exact IH.
- intros p. rewrite holds_same_city. split.
  + intros (? & ? & -> & ->). done.
  + intros ([= -> ->] & ? & ?). done.
Qed.

Lemma dim_cities_query_base (cities_pop : list (DemoWide.row D))
  (airports : list (Airport.row D)) :
DimCity.base <$> dim_cities_query cities_pop airports = cities_pop.
Proof.
unfold dim_cities_query. rewrite <- list_fmap_compose.
rewrite <- (left_join_at_most_one same_city cities_pop
              (airports_pivot_query airports)) at 2
  by (intros dc _; apply same_city_at_most_one).
apply list_fmap_ext. by intros i [dc o] _.
Qed.

(** X12: the city dimension is the preprocessed demographics, row for row
  and in their order, each row with its number of airports: the number of
  airports of its city and state code in the preprocessed airports, and
  NULL (not 0) when there is none. *)
Theorem dim_cities_one_row_per_city (cities_pop : list (DemoWide.row D))
  (airports : list (Airport.row D)) :
DimCity.base <$> dim_cities_query cities_pop airports = cities_pop ∧
length (dim_cities_query cities_pop airports) = length cities_pop ∧
Forall (λ r, DimCity.number_of_airports r
             = match airports_of airports (DimCity.base r) with
               | [] => None
               | a :: matching => Some (COUNT (a :: matching))
               end)
  (dim_cities_query cities_pop airports).
Proof.
split_and!.
- apply dim_cities_query_base.
- by rewrite <- (length_fmap DimCity.base), dim_cities_query_base.
- apply Forall_forall. intros r Hr. unfold dim_cities_query in Hr.
  apply list_elem_of_fmap in Hr as ([dc o] & -> & Hin). cbn.
  apply elem_of_left_join in Hin as [Hdc Ho]. destruct o as [p|]; cbn.
  + destruct Ho as [Hp Hon].
    apply elem_of_airports_pivot_query in Hp as [(a & Ha & Hr & Hm) ->].
    apply holds_same_city in Hon as (Hc & Hs & Hpm & Hpr).
    assert (filter (λ a, (Airport.iso_region a, Airport.municipality a)
                         = (AirportPivot.iso_region p,
                            AirportPivot.municipality p)) airports
            = airports_of airports dc) as ->.
    { unfold airports_of, sql_where. apply list_filter_iff. intros a'.
      rewrite holds_sql_and, !holds_sql_eq, Hpm, Hpr. split.
      - intros [= -> ->].
        destruct (DemoWide.city dc); [|done].
        destruct (DemoWide.state_code dc); [|done]. split; eauto.
      - intros ((ci & -> & ->) & (st & -> & ->)). done. }
    assert (a ∈ airports_of airports dc) as Hin.
    { apply elem_of_airports_of. split_and!; congruence. }
    destruct (airports_of airports dc); [by apply elem_of_nil in Hin|done].
  + destruct (airports_of airports dc) as [|a matching] eqn:E; [done|].
    assert (a ∈ airports_of airports dc) as Hin by (rewrite E; left).
    apply elem_of_airports_of in Hin as (Ha & Hc & Hs & Hm & Hr).
    exfalso.
    apply (Ho (AirportPivot.mk (Airport.iso_region a) (Airport.municipality a)
                 (Some (COUNT (filter
                    (λ a', (Airport.iso_region a', Airport.municipality a')
                           = (Airport.iso_region a, Airport.municipality a))
                    airports))))).
    * apply elem_of_airports_pivot_query. cbn. split; [eauto|done].
    * apply holds_same_city. cbn. done.
Qed.
End CityDimension.

(** ** Stage 3: the fact table *)

Section FactRows.
Context {D : Type} `{Double D}.

Lemma holds_same_month_and_city (e : Event.row) (w : WeatherClean.row D) :
holds (same_month_and_city e w) ↔
∃ a d, Event.arr_date e = Some a ∧ WeatherClean.dt w = Some d ∧
       year_of a = year_of d ∧ month_of a = month_of d ∧
       Event.city_of_entry e ≠ None ∧ Event.state_of_entry_code e ≠ None ∧
       WeatherClean.city w = Event.city_of_entry e ∧
       WeatherClean.state w = Event.state_of_entry_code e.
Proof.
unfold same_month_and_city. rewrite !holds_sql_and, !holds_sql_eq.
unfold YEAR, MONTH. split.
- intros ((((y & Hy & Hy') & (m & Hm & Hm')) & (c & -> & ->)) & (s & -> & ->)).
  destruct (Event.arr_date e) as [a|]; [|done].
  destruct (WeatherClean.dt w) as [d|]; [|done].
  cbn in *. exists a, d. split_and!; congruence.
- intros (a & d & -> & -> & Hy & Hm & Hc & Hs & -> & ->).
  cbn [fmap option_fmap option_map]. rewrite Hy, Hm.
  destruct (Event.city_of_entry e); [|done].
  destruct (Event.state_of_entry_code e); [|done]. split_and!; eauto.
Qed.

(** X13: the fact table holds every event at least once: an event is in it
  once per preprocessed weather row of its city, state, year and month,
  with the temperature of that row, and once with a NULL temperature when
  there is no such row; the year, month and day of a fact row are those of
  its arrival date. *)
Theorem fact_rows_are_events_with_temperatures (i94 : list I94.row)
  (weather : list (WeatherClean.row D)) :
(∀ f, f ∈ fact_i94_history_query i94 weather ↔
      Fact.base f ∈ event_query i94 ∧
      ((∃ w, w ∈ weather ∧ holds (same_month_and_city (Fact.base f) w) ∧
             Fact.avg_temperature f = WeatherClean.avg_temperature w) ∨
       (Fact.avg_temperature f = None ∧
        ∀ w, w ∈ weather → ¬ holds (same_month_and_city (Fact.base f) w)))) ∧
length (fact_i94_history_query i94 weather)
= foldr (λ e n, (Nat.max 1 (length (sql_where (same_month_and_city e) weather))
                 + n)%nat) 0%nat (event_query i94) ∧
(length i94 ≤ length (fact_i94_history_query i94 weather))%nat ∧
Forall (λ f, Event.year (Fact.base f) = YEAR (Event.arr_date (Fact.base f)) ∧
             Event.month (Fact.base f) = MONTH (Event.arr_date (Fact.base f)) ∧
             Event.day (Fact.base f) = DAY (Event.arr_date (Fact.base f)))
  (fact_i94_history_query i94 weather).
Proof.
assert (length (fact_i94_history_query i94 weather)
        = foldr (λ e n, (Nat.max 1 (length (sql_where (same_month_and_city e)
                                              weather)) + n)%nat)
            0%nat (event_query i94)) as Hlen.
{ unfold fact_i94_history_query, fact_weather_query.
  rewrite length_fmap. apply length_left_join. }
split_and!.
- intros f. unfold fact_i94_history_query, fact_weather_query.
  rewrite list_elem_of_fmap. split.
  + intros ([e o] & -> & Hin). apply elem_of_left_join in Hin as [He Ho].
    cbn. split; [done|]. destruct o as [w|]; cbn.
    * left. exists w. tauto.
    * right. done.
  + intros [He Hw]. destruct f as [e t]. cbn in *.
    destruct Hw as [(w & Hw & Hon & ->)|[-> Hno]].
    * exists (e, Some w). split; [done|]. apply elem_of_left_join. done.
    * exists (e, None). split; [done|]. apply elem_of_left_join. done.
- exact Hlen.
- rewrite Hlen.
  assert (length i94 = length (event_query i94)) as ->
    by (unfold event_query; by rewrite length_fmap).
  clear Hlen.
  induction (event_query i94) as [|e es IH]; cbn [foldr length]; lia.
- apply Forall_forall. intros f Hf.
  apply elem_of_fact_i94_history_query in Hf. unfold event_query in Hf.
  apply list_elem_of_fmap in Hf as (i & -> & _). done.
Qed.
End FactRows.

(** ** The stages, run *)

(** As [run], with the reads unfolded down to the lookup in the lake. *)
Ltac run_reads :=
  cbv beta iota zeta delta
    [mbind M_bind mret M_ret print write_parquet read_i94 read_demographic
     read_weather read_airports read_parquet raise];
  cbn [lake stdout].

(** As [run], on a world given by its lake and its console: every step
    leaves a world of this form. *)
Ltac run_world :=
  cbv beta iota zeta delta
    [mbind M_bind mret M_ret print write_parquet lake stdout].

Lemma preprocessed_path_ne_analytics (output_data a b : string) :
  output_data +:+ String "p" a ≠ output_data +:+ String "a" b.
Proof. intros Heq. apply (inj (String.app output_data)) in Heq. discriminate Heq. Qed.

Section Pipeline.
Context {D : Type} `{Double D}.

(** With its four tables in the lake, stage 3 returns: the lake is the
  former lake, with the data model written when the gate passes. *)
Lemma build_data_model_run (output_data : string) (σ : world D)
  (i94 : list I94.row) (demographic : list (DemoWide.row D))
  (weather : list (WeatherClean.row D)) (airports : list (Airport.row D)) :
has_preprocessed output_data (lake σ) i94 demographic weather airports →
∃ lines,
  build_data_model output_data σ
  = Some (tt, World (if model_passes i94 demographic weather airports
                     then with_data_model output_data i94 demographic weather
                            airports (lake σ)
                     else lake σ)
                (stdout σ ++ lines)) ∧
  (model_passes i94 demographic weather airports = false →
   last lines = Some "ERROR! Quality checks on the data model have failed!!!").
Proof.
intros (Hi94 & Hdemo & Hweather & Hairports).
unfold build_data_model. run.
rewrite (run_read_i94 _ i94) by exact Hi94. run.
rewrite (run_read_demographic _ demographic) by exact Hdemo. run.
rewrite (run_read_weather _ weather) by exact Hweather. run.
rewrite (run_read_airports _ airports) by exact Hairports. run.
match goal with
| |- context [check_model_quality _ ?σ1] =>
  destruct (check_model_quality_run (fact_i94_history_query i94 weather)
              (dim_cities_query demographic airports)
              (dim_time_query i94 weather) σ1) as [lines Hrun];
  rewrite Hrun
end.
fold (model_passes i94 demographic weather airports).
destruct (model_passes i94 demographic weather airports) eqn:Hpasses.
- apply bool_decide_eq_true in Hpasses as (Hfact & Hcities & Htime & _).
  run. rewrite store_FactData, store_DimCityData, store_DimTimeData by done.
  rewrite <- !app_assoc. eexists. split; [reflexivity|done].
- run. rewrite <- !app_assoc. eexists. split; [reflexivity|].
  intros _. rewrite !app_assoc. apply last_snoc.
Qed.

(** Stage 3 returns only with its four tables in the lake. *)
Lemma build_data_model_inputs (output_data : string) (σ : world D) r :
build_data_model output_data σ = Some r →
∃ i94 demographic weather airports,
  has_preprocessed output_data (lake σ) i94 demographic weather airports.
Proof.
unfold build_data_model, has_preprocessed. run_reads.
destruct (lake σ !! (output_data +:+ "preprocessed/i94/i94_records.parquet"))
  as [[i94| | | | | |]|]; run_reads; try discriminate.
destruct (lake σ !! (output_data
                     +:+ "preprocessed/demographic/demographic.parquet"))
  as [[|demographic| | | | |]|]; run_reads; try discriminate.
destruct (lake σ !! (output_data +:+ "preprocessed/weather/weather.parquet"))
  as [[| |weather| | | |]|]; run_reads; try discriminate.
destruct (lake σ !! (output_data +:+ "preprocessed/airports/airports.parquet"))
  as [[| | |airports| | |]|]; run_reads; try discriminate.
intros _. exists i94, demographic, weather, airports. done.
Qed.

Lemma insert_data_model_twice (output_data : string) (i94 : list I94.row)
  (demographic : list (DemoWide.row D)) (weather : list (WeatherClean.row D))
  (airports : list (Airport.row D)) (m : gmap string (dataset D)) :
with_data_model output_data i94 demographic weather airports
  (with_data_model output_data i94 demographic weather airports m)
= with_data_model output_data i94 demographic weather airports m.
Proof.
unfold with_data_model. apply map_eq. intros path.
repeat (rewrite lookup_insert_eq
        || (rewrite lookup_insert_ne by done)
        || match goal with
           | |- context [<[?k := _]> _ !! path] =>
             destruct (decide (k = path)) as [->|?]
           end);
  done.
Qed.

Lemma has_preprocessed_with_data_model (output_data : string)
  (m : gmap string (dataset D)) i94 demographic weather airports
  i94' demographic' weather' airports' :
has_preprocessed output_data m i94 demographic weather airports →
has_preprocessed output_data
  (with_data_model output_data i94' demographic' weather' airports' m)
  i94 demographic weather airports.
Proof.
unfold has_preprocessed, with_data_model.
intros (Hi94 & Hdemo & Hweather & Hairports).
rewrite !lookup_insert_ne by (symmetry; apply preprocessed_path_ne_analytics).
done.
Qed.

(** X15: stage 3 run a second time leaves the lake as the first run left
  it, and raises if the first run did: its writes do not touch the tables
  it reads. *)
Theorem build_data_model_twice (output_data : string) (σ : world D) :
lake_after ((build_data_model output_data;; build_data_model output_data) σ)
= lake_after (build_data_model output_data σ).
Proof.
rewrite run_bind.
destruct (build_data_model output_data σ) as [[[] σ']|] eqn:Hfirst; [|done].
destruct (build_data_model_inputs _ _ _ Hfirst)
  as (i94 & demographic & weather & airports & Hin).
destruct (build_data_model_run _ _ _ _ _ _ Hin) as (lines & Hrun & _).
rewrite Hfirst in Hrun. injection Hrun as ->.
set (passes := model_passes i94 demographic weather airports) in *.
match goal with
| |- lake_after (build_data_model _ ?σ1) = _ =>
  assert (has_preprocessed output_data (lake σ1) i94 demographic weather
            airports) as Hin'
end.
{ cbn [lake]. destruct passes; [|done].
  by apply has_preprocessed_with_data_model. }
destruct (build_data_model_run _ _ _ _ _ _ Hin') as (lines' & -> & _).
unfold lake_after. cbn [fmap option_fmap option_map snd lake]. f_equal.
fold passes. destruct passes; [|done]. apply insert_data_model_twice.
Qed.

Lemma lookup_store path (t : dataset D) (m : gmap string (dataset D)) :
store path t m !! path = if is_empty t then None else Some t.
Proof.
unfold store. destruct (is_empty t).
- apply lookup_delete_eq.
- apply lookup_insert_eq.
Qed.

Lemma lookup_store_ne path path' (t : dataset D)
  (m : gmap string (dataset D)) :
path ≠ path' → store path t m !! path' = m !! path'.
Proof.
intros Hne. unfold store. destruct (is_empty t).
- by apply lookup_delete_ne.
- by apply lookup_insert_ne.
Qed.

(** After stage 2 each of its four paths holds its table, if the table has
  a row, and nothing otherwise. *)
Lemma lookup_with_preprocessed (output_data : string)
  (m : gmap string (dataset D)) i94 demographic weather airports :
let m' := with_preprocessed output_data i94 demographic weather airports m in
m' !! (output_data +:+ "preprocessed/i94/i94_records.parquet")
= table_at I94Data i94 ∧
m' !! (output_data +:+ "preprocessed/demographic/demographic.parquet")
= table_at DemographicData demographic ∧
m' !! (output_data +:+ "preprocessed/weather/weather.parquet")
= table_at WeatherData weather ∧
m' !! (output_data +:+ "preprocessed/airports/airports.parquet")
= table_at AirportData airports.
Proof.
intros m'. unfold m', with_preprocessed.
assert (∀ a b : string, a ≠ b → output_data +:+ a ≠ output_data +:+ b)
  as Hne.
{ intros a b Hab Heq. by apply (inj (String.app output_data)) in Heq. }
split_and!.
- rewrite !lookup_store_ne by (apply Hne; discriminate).
  rewrite lookup_store. by destruct i94.
- rewrite !lookup_store_ne by (apply Hne; discriminate).
  rewrite lookup_store. by destruct demographic.
- rewrite !lookup_store_ne by (apply Hne; discriminate).
  rewrite lookup_store. by destruct weather.
- rewrite lookup_store. by destruct airports.
Qed.

Lemma process_source_data_run (output_data : string)
  (i94_source : list I94.row) (cities_pop_source : list (Demo.row D))
  (weather_source : list (Weather.row D))
  (airports_source : list (Airport.row D)) (σ : world D) :
∃ lines,
  process_source_data output_data i94_source cities_pop_source
    weather_source airports_source σ
  = Some (tt, World (with_preprocessed output_data
                       (i94_clean_query i94_source)
                       (cities_pop_clean_query cities_pop_source)
                       (weather_clean_query weather_source airports_source)
                       (airports_clean_query airports_source) (lake σ))
                (stdout σ ++ lines)).
Proof.
destruct σ as [m out]. unfold process_source_data. run_world.
rewrite <- !app_assoc. eexists. reflexivity.
Qed.

(** X16: stage 2 returns on every source; afterwards each of the four
  cleaned tables is at the path where stage 3 reads it if it has a row,
  the path of a cleaned table without a row holds nothing, whatever it
  held before, no other path of the lake is touched, and the console only
  grows. *)
Theorem process_source_data_writes_four_tables (output_data : string)
  (i94_source : list I94.row) (cities_pop_source : list (Demo.row D))
  (weather_source : list (Weather.row D))
  (airports_source : list (Airport.row D)) (σ : world D) :
∃ σ' lines,
  process_source_data output_data i94_source cities_pop_source
    weather_source airports_source σ = Some (tt, σ') ∧
  stdout σ' = (stdout σ ++ lines)%list ∧
  lake σ' !! (output_data +:+ "preprocessed/i94/i94_records.parquet")
  = table_at I94Data (i94_clean_query i94_source) ∧
  lake σ' !! (output_data +:+ "preprocessed/demographic/demographic.parquet")
  = table_at DemographicData (cities_pop_clean_query cities_pop_source) ∧
  lake σ' !! (output_data +:+ "preprocessed/weather/weather.parquet")
  = table_at WeatherData (weather_clean_query weather_source airports_source) ∧
  lake σ' !! (output_data +:+ "preprocessed/airports/airports.parquet")
  = table_at AirportData (airports_clean_query airports_source) ∧
  ∀ path,
    path ∉ [ output_data +:+ "preprocessed/i94/i94_records.parquet";
             output_data +:+ "preprocessed/demographic/demographic.parquet";
             output_data +:+ "preprocessed/weather/weather.parquet";
             output_data +:+ "preprocessed/airports/airports.parquet" ] →
    lake σ' !! path = lake σ !! path.
Proof.
destruct (process_source_data_run output_data i94_source cities_pop_source
            weather_source airports_source σ) as [lines Hrun].
eexists _, lines. split; [exact Hrun|]. cbn [lake stdout].
destruct (lookup_with_preprocessed output_data (lake σ)
            (i94_clean_query i94_source)
            (cities_pop_clean_query cities_pop_source)
            (weather_clean_query weather_source airports_source)
            (airports_clean_query airports_source)) as (? & ? & ? & ?).
split_and!; try done.
intros path Hpath. unfold with_preprocessed.
rewrite !not_elem_of_cons in Hpath.
destruct Hpath as (? & ? & ? & ? & _).
by rewrite !lookup_store_ne by done.
Qed.

Lemma i94_clean_query_arr_date (i94_source : list I94.row) i :
i ∈ i94_clean_query i94_source → I94.arr_date i ≠ None.
Proof.
unfold i94_clean_query. rewrite elem_of_sql_distinct, elem_of_sql_where.
intros [Hvalid _]. apply holds_i94_valid in Hvalid as (_ & _ & _ & a & -> & _).
done.
Qed.

Lemma fact_i94_history_query_nil (i94 : list I94.row)
  (weather : list (WeatherClean.row D)) :
fact_i94_history_query i94 weather = [] ↔ i94 = [].
Proof.
split.
- intros Hnil. destruct i94 as [|i i94]; [done|].
  destruct (fact_i94_history_keeps_events (i :: i94) weather
              (Event.mk (I94.id i) (I94.country_of_residence i)
                 (I94.country_of_citizenship i) (I94.city_of_entry i)
                 (I94.state_of_entry_code i) (I94.border_cross_method i)
                 (I94.type_of_visa i) (I94.class_of_admission i)
                 (I94.gender i) (I94.age i) (I94.arr_date i)
                 (I94.dep_date i) (YEAR (I94.arr_date i))
                 (MONTH (I94.arr_date i)) (DAY (I94.arr_date i))))
    as (f & Hf & _); [left|].
  rewrite Hnil in Hf. by apply elem_of_nil in Hf.
- intros ->. done.
Qed.

Lemma dim_cities_query_nil (cities_pop : list (DemoWide.row D))
  (airports : list (Airport.row D)) :
dim_cities_query cities_pop airports = [] ↔ cities_pop = [].
Proof.
rewrite <- (dim_cities_query_base cities_pop airports) at 2.
by rewrite fmap_nil_iff.
Qed.

(** On events with an arrival date, as the cleaned events are, the check
  query of the gate finds nothing. *)
Lemma check_query_on_dated_events (i94 : list I94.row)
  (weather : list (WeatherClean.row D)) :
(∀ i, i ∈ i94 → I94.arr_date i ≠ None) →
check_query (fact_i94_history_query i94 weather) (dim_time_query i94 weather)
= [].
Proof.
intros Harr. apply check_query_nil. intros f Hf.
apply elem_of_fact_i94_history_query in Hf.
apply elem_of_event_query in Hf as (i & Hi & Hdate).
destruct (I94.arr_date i) as [a|] eqn:Ea; [|by destruct (Harr i Hi)].
exists (time_row (Some a)). split.
- apply elem_of_dim_time_query. exists (Some a). split; [done|].
  left. rewrite <- Ea. by apply list_elem_of_fmap_2.
- apply holds_same_month. exists a, a. done.
Qed.

Lemma dim_time_query_not_nil (i94 : list I94.row)
  (weather : list (WeatherClean.row D)) :
i94 ≠ [] → dim_time_query i94 weather ≠ [].
Proof.
destruct i94 as [|i i94]; [done|]. intros _ Hnil.
assert (time_row (I94.arr_date i) ∈ dim_time_query (i :: i94) weather) as Hin.
{ apply elem_of_dim_time_query. exists (I94.arr_date i). split; [done|].
  left. apply list_elem_of_fmap_2. left. }
rewrite Hnil in Hin. by apply elem_of_nil in Hin.
Qed.

(** After stage 2 the gate looks at two things only: that an event is left,
  and a city. *)
Lemma model_passes_after_cleaning (i94_source : list I94.row)
  (cities_pop_source : list (Demo.row D))
  (weather : list (WeatherClean.row D)) (airports : list (Airport.row D)) :
model_passes (i94_clean_query i94_source)
  (cities_pop_clean_query cities_pop_source) weather airports
= bool_decide (i94_clean_query i94_source ≠ [] ∧
               cities_pop_filter_query cities_pop_source ≠ []).
Proof.
unfold model_passes. apply bool_decide_ext.
rewrite fact_i94_history_query_nil, dim_cities_query_nil,
  cities_pop_clean_query_nil.
rewrite check_query_on_dated_events
  by (intros i; apply i94_clean_query_arr_date).
split; [tauto|]. intros [Hi94 Hcities]. split_and!; try done.
by apply dim_time_query_not_nil.
Qed.

(** A weather row of stage 2 has the region of a retained airport. *)
Lemma weather_clean_query_airports (weather_source : list (Weather.row D))
  (airports_source : list (Airport.row D)) :
airports_clean_query airports_source = [] →
weather_clean_query weather_source airports_source = [].
Proof.
intros Hnil. destruct (weather_clean_query _ _) as [|o os] eqn:E; [done|].
assert (o ∈ weather_clean_query weather_source airports_source) as Ho
  by (rewrite E; left).
apply elem_of_weather_clean_query in Ho as (w & a & _ & Ha & _).
rewrite Hnil in Ha. by apply elem_of_nil in Ha.
Qed.

(** X17: stages 2 and 3 in a row, as [main] runs them.  When one of the
  four cleaned tables has no row (the airports, if the weather has one,
  have one), stage 2 leaves nothing at its path and stage 3 raises at the
  read.  Otherwise the run returns with the data model written: on the
  tables of stage 2 the gate always passes, so the branch of the error
  message is never taken. *)
Theorem clean_and_model_returns_iff_every_table_has_a_row
  (output_data : string) (i94_source : list I94.row)
  (cities_pop_source : list (Demo.row D))
  (weather_source : list (Weather.row D))
  (airports_source : list (Airport.row D)) (σ : world D) :
let i94 := i94_clean_query i94_source in
let demographic := cities_pop_clean_query cities_pop_source in
let weather := weather_clean_query weather_source airports_source in
let airports := airports_clean_query airports_source in
let run :=
  clean_and_model output_data i94_source cities_pop_source weather_source
    airports_source σ in
(run = None ↔ i94 = [] ∨ demographic = [] ∨ weather = []) ∧
(weather ≠ [] → airports ≠ []) ∧
(∀ σ', run = Some (tt, σ') →
   model_passes i94 demographic weather airports = true ∧
   lake σ'
   = with_data_model output_data i94 demographic weather airports
       (with_preprocessed output_data i94 demographic weather airports
          (lake σ)) ∧
   has_preprocessed output_data (lake σ') i94 demographic weather airports).
Proof.
intros i94 demographic weather airports run.
assert (weather ≠ [] → airports ≠ []) as Hairports.
{ intros Hw Ha. apply Hw. by apply weather_clean_query_airports. }
unfold run, clean_and_model. rewrite run_bind.
destruct (process_source_data_run output_data i94_source cities_pop_source
            weather_source airports_source σ) as [lines ->].
fold i94 demographic weather airports.
set (σ1 := World _ _).
destruct (lookup_with_preprocessed output_data (lake σ) i94 demographic
            weather airports) as (Hi & Hd & Hw & Ha).
destruct (decide (i94 = [] ∨ demographic = [] ∨ weather = []))
  as [Hempty|Hfull].
- assert (build_data_model output_data σ1 = None) as ->.
  { destruct (build_data_model output_data σ1) as [r|] eqn:Hrun; [|done].
    apply build_data_model_inputs in Hrun
      as (i94' & demographic' & weather' & airports' & Hi' & Hd' & Hw' & _).
    cbn [lake σ1] in Hi', Hd', Hw'.
    rewrite Hi in Hi'. rewrite Hd in Hd'. rewrite Hw in Hw'.
    destruct Hempty as [Hnil|[Hnil|Hnil]]; rewrite Hnil in *; done. }
  split_and!; [done|exact Hairports|done].
- assert (i94 ≠ [] ∧ demographic ≠ [] ∧ weather ≠ []) as (Hi94 & Hdemo & Hwe).
  { destruct i94, demographic, weather; split_and!; try done;
      exfalso; apply Hfull; auto. }
  assert (has_preprocessed output_data (lake σ1) i94 demographic weather
            airports) as Hin.
  { cbn [lake σ1]. pose proof (Hairports Hwe) as Hap.
    split_and!.
    - rewrite Hi. by destruct i94.
    - rewrite Hd. by destruct demographic.
    - rewrite Hw. by destruct weather.
    - rewrite Ha. by destruct airports. }
  destruct (build_data_model_run output_data σ1 i94 demographic weather
              airports Hin) as (lines' & Hrun & _).
  assert (model_passes i94 demographic weather airports = true) as Hpasses.
  { unfold i94 at 1, demographic at 1.
    rewrite model_passes_after_cleaning. apply bool_decide_eq_true_2.
    split; [done|]. intros Hnil.
    by apply cities_pop_clean_query_nil in Hnil. }
  rewrite Hpasses in Hrun. rewrite Hrun.
  split_and!; [split; [done|tauto]|exact Hairports|].
  intros σ' [= <-]. cbn [lake σ1]. split_and!; [done|done|].
  by apply has_preprocessed_with_data_model.
Qed.
End Pipeline.

(** ** Stages 1 and 2 on the weather *)

Section WeatherPipeline.
Context {D : Type} `{Double D}.
Variable cast_double : string → option D.

(** X18: from the raw tables to the preprocessed weather: every row is
  dated in 1960 or later, its year, month and day are those of its date
  (the columns the table is partitioned by), and its city and region hold
  no small letter of the ASCII alphabet. *)
Theorem weather_pipeline_rows (weather_table : list (RawWeather.row D))
  (airports_table : list RawAirport.row) :
Forall (λ o, ∃ d,
          WeatherClean.dt o = Some d ∧ 1960 ≤ year_of d ∧
          WeatherClean.year o = Some (year_of d) ∧
          WeatherClean.month o = Some (month_of d) ∧
          WeatherClean.day o = Some (day_of d) ∧
          in_capitals (WeatherClean.city o) ∧
          in_capitals (WeatherClean.state o))
  (weather_clean_query (weather_source_query cast_double weather_table)
     (airports_source_query cast_double airports_table)).
Proof.
apply Forall_forall. intros o Ho.
apply elem_of_weather_clean_query in Ho as (w & a & Hw & Ha & _ & Hk & _).
apply elem_of_weather_dedup_query in Hw as (Hw & _).
apply elem_of_airports_clean_query in Ha as (Ha & _).
apply elem_of_weather_source_query in Hw as (raw & d & _ & _ & _ & Hge & ->).
apply elem_of_airports_source_query in Ha as (raw' & ty & _ & _ & _ & _ & ->).
injection Hk as Hdt Hy Hm Hd Hc Hs _ _. cbn in *.
exists d. rewrite Hdt, Hy, Hm, Hd, Hc, Hs.
split_and!; try done; apply UPPER_in_capitals.
Qed.
End WeatherPipeline.

(** ** Stage 3: the airports of a city, counted *)

Lemma length_filter_keys {A K} `{EqDecision K} (key : A → K) (ks : list K)
    (t : list A) :
  NoDup ks → (∀ x, x ∈ t → key x ∈ ks) →
  foldr Z.add 0 ((λ k, COUNT (filter (λ x, key x = k) t)) <$> ks) = COUNT t.
Proof.
  intros Hnd. induction t as [|x t IH]; intros Hin.
  - clear. induction ks as [|k ks IH]; [done|]. cbn in *. by rewrite IH.
  - assert (foldr Z.add 0 ((λ k, COUNT (filter (λ y, key y = k) (x :: t))) <$> ks)
            = 1 + foldr Z.add 0 ((λ k, COUNT (filter (λ y, key y = k) t)) <$> ks))
      as ->.
    { assert (key x ∈ ks) as Hx by (apply Hin; left).
      clear IH Hin. induction Hnd as [|k ks Hk Hnd IH].
      - by apply elem_of_nil in Hx.
      - cbn [fmap list_fmap foldr]. apply elem_of_cons in Hx as [Hx|Hx].
        + rewrite filter_cons_True by done. subst k.
          assert (foldr Z.add 0
                    ((λ k, COUNT (filter (λ y, key y = k) (x :: t))) <$> ks)
                  = foldr Z.add 0
                      ((λ k, COUNT (filter (λ y, key y = k) t)) <$> ks)) as ->.
          { f_equal. apply list_fmap_ext. intros i k Hi.
            rewrite filter_cons_False; [done|]. intros <-.
            apply Hk. by apply list_elem_of_lookup_2 in Hi. }
          unfold COUNT. cbn [length]. lia.
        + rewrite filter_cons_False by (intros <-; done).
          rewrite (IH Hx). lia. }
    rewrite IH by (intros y Hy; apply Hin; by right).
    unfold COUNT. cbn [length]. lia.
Qed.

Section AirportsCounted.
Context {D : Type} `{Double D}.

(** X19: the pivot of the airports has one row per region and city of the
  preprocessed airports, each with a number of airports of one at least,
  and the numbers add up to the number of preprocessed airports: every
  airport is counted once. *)
Theorem airports_pivot_counts_every_airport_once
  (airports : list (Airport.row D)) :
NoDup ((λ p, (AirportPivot.iso_region p, AirportPivot.municipality p))
         <$> airports_pivot_query airports) ∧
Forall (λ p, ∃ n, AirportPivot.number_of_airports p = Some n ∧ 1 ≤ n)
  (airports_pivot_query airports) ∧
foldr Z.add 0
  (omap AirportPivot.number_of_airports (airports_pivot_query airports))
= COUNT airports.
Proof.
split_and!.
- apply airports_pivot_query_keys.
- apply Forall_forall. intros p Hp.
  apply elem_of_airports_pivot_query in Hp as [(a & Ha & Hr & Hm) Hn].
  eexists. split; [exact Hn|].
  assert (a ∈ filter (λ a, (Airport.iso_region a, Airport.municipality a)
                           = (AirportPivot.iso_region p,
                              AirportPivot.municipality p)) airports) as Hin.
  { apply list_elem_of_filter. split; [congruence|done]. }
  destruct (filter _ airports); [by apply elem_of_nil in Hin|].
  unfold COUNT. cbn [length]. lia.
- unfold airports_pivot_query, group_by.
  rewrite <- list_fmap_compose.
  set (key := λ a : Airport.row D, (Airport.iso_region a, Airport.municipality a)).
  set (ks := remove_dups (key <$> airports)).
  rewrite <- (length_filter_keys key ks airports).
  + f_equal. induction ks as [|[region municipality] ks IH]; [done|].
    cbn. by rewrite IH.
  + apply NoDup_remove_dups.
  + intros a Ha. apply elem_of_remove_dups. by apply list_elem_of_fmap_2.
Qed.
End AirportsCounted.

(** ** Stages 1 and 2 on the travel events *)

(** X20: from the raw events to the preprocessed events: every row comes
    from a raw event with an id and a day of arrival; its dates are the day
    counts added to 1960-01-01 in 32 bits, its departure is unknown or not
    before its arrival, which is the order of the raw day counts when both
    dates are days that a [DATE] holds; its year, month and day (the columns
    the table is partitioned by) are known and are those of the arrival, and
    its city and state of entry are known. *)
Theorem i94_pipeline_rows (i94_table : list Raw.row)
    (country_table : list Country.row) (port_table : list Port.row)
    (mode_table : list Mode.row) (visa_table : list Visa.row)
    (states_df : list States.row) :
  Forall (λ r, ∃ i id arrdate arr,
            i ∈ i94_table ∧
            Raw.cicid i = Some id ∧ I94.id r = Some id ∧
            Raw.arrdate i = Some arrdate ∧
            arr = wrap_int32 (days_from_civil 1960 1 1 + arrdate) ∧
            I94.arr_date r = Some arr ∧
            I94.dep_date r
            = (λ n, wrap_int32 (days_from_civil 1960 1 1 + n)) <$> Raw.depdate i ∧
            (I94.dep_date r = None ∨
             ∃ dep, I94.dep_date r = Some dep ∧ arr ≤ dep) ∧
            (∀ depdate, Raw.depdate i = Some depdate →
               in_int32 (days_from_civil 1960 1 1 + arrdate) →
               in_int32 (days_from_civil 1960 1 1 + depdate) →
               arrdate ≤ depdate) ∧
            I94.year r = Some (year_of arr) ∧
            I94.month r = Some (month_of arr) ∧
            I94.day r = Some (day_of arr) ∧
            I94.city_of_entry r ≠ None ∧ I94.state_of_entry_code r ≠ None)
    (i94_clean_query
       (i94_source_query i94_table country_table port_table mode_table
          visa_table states_df)).
Proof.
  apply Forall_forall. intros r Hr. unfold i94_clean_query in Hr.
  apply elem_of_sql_distinct, elem_of_sql_where in Hr as [Hvalid Hr].
  apply holds_i94_valid in Hvalid as (Hid & Hstate & Hcity & arr & Harr & Hdep).
  unfold i94_source_query in Hr.
  apply list_elem_of_fmap in Hr as ([[[[[[i c1] c2] p] m] v] s] & -> & Hin).
  repeat (apply elem_of_inner_join in Hin as (Hin & _ & _)).
  cbn [I94.id I94.arr_date I94.dep_date I94.year I94.month I94.day
       I94.city_of_entry I94.state_of_entry_code] in *.
  rewrite !date_add_sas_epoch in *.
  destruct (Raw.cicid i) as [id|] eqn:Ecicid; [|done].
  destruct (Raw.arrdate i) as [arrdate|] eqn:Earrdate; [|done].
  injection Harr as <-.
  exists i, id, arrdate, (wrap_int32 (days_from_civil 1960 1 1 + arrdate)).
  split_and!; try done.
  intros depdate Hdepdate Ha Hd. rewrite Hdepdate in Hdep.
  destruct Hdep as [Hdep|(dep & [= <-] & Hle)]; [done|].
  rewrite !wrap_int32_id in Hle by done. lia.
Qed.

(** ** Stages 2 and 3 on the temperatures *)

Section Temperatures.
Context {D : Type} `{Double D}.

(** X21: in the fact table built on the weather of stage 2, a NULL
  temperature means one thing only: the preprocessed weather has no row of
  the city and state of entry in the year and month of the arrival. *)
Theorem fact_temperature_is_null_iff_no_weather (i94 : list I94.row)
  (weather_source : list (Weather.row D))
  (airports_source : list (Airport.row D)) :
let weather := weather_clean_query weather_source airports_source in
Forall (λ f, Fact.avg_temperature f = None ↔
             ∀ w, w ∈ weather → ¬ holds (same_month_and_city (Fact.base f) w))
  (fact_i94_history_query i94 weather).
Proof.
intros weather. apply Forall_forall. intros f Hf.
unfold fact_i94_history_query, fact_weather_query in Hf.
apply list_elem_of_fmap in Hf as ([e o] & -> & Hin).
apply elem_of_left_join in Hin as [He Ho]. cbn.
destruct o as [w|]; cbn.
- destruct Ho as [Hw Hon]. split.
  + intros Hnull.
    apply elem_of_weather_clean_query in Hw
      as (w0 & a & _ & _ & _ & _ & Havg).
    done.
  + intros Hno. by destruct (Hno w Hw).
- done.
Qed.
End Temperatures.
